(* ===== verification/_CoqProject ===== *)
-Q . S2P
Prelude.v
PyStr.v
PyInt.v
PyFloat.v
PySort.v
Timestamps.v
CropSpec.v
CropApplier.v
FrameSource.v
Formats.v
Pipeline.v
Fetch.v
FetchPytube.v
Thread.v
App.v
App1.v
