(* ===== verification/Prelude.v ===== *)
(** * YT-FrameCapture: a verification development

    The repository is two variants of one Tkinter program,
    [src/frame_capture.py] (pytube) and [src/frame_capture2.py]
    (yt-dlp).  A window collects a YouTube URL, a resolution, a list of
    timestamps and an optional crop rectangle.  "Fetch Video Info"
    ([fetch_video_info]) fills the global format table; "Download dan
    Capture Frame" starts a thread running [process()], which downloads
    the video, parses the timestamp and crop entries, opens the file with
    OpenCV, and for every timestamp seeks, reads one frame, crops it when
    asked, and writes it as [frame_{n}_at_{ts:.2f}s.jpg]; then it
    releases the capture and deletes the video.

    ** Files, in dependency order

    - [Prelude] (this file): Python exceptions [exn], the result type
      [res] with its bind notation (scope [fc_scope]), [res_map] (a list
      comprehension whose element may raise) and its lemmas, list lemmas,
      the tactics [app_norm], [not_in] and [destruct_innermost] (case
      analysis that evaluates a step on a symbolic state), the hint
      database [fc].
    - [PyStr]: [str.isspace], [str.strip()], [str.split(",")],
      [str.replace(c, "")], [str.isdigit] and the digit filter of
      pytube's sort key on strings of code points 0..255, and the round
      trip of [split] with [join].
    - [PyInt]: [int(s)] in base 10 ([py_int]) and [str(n)] ([str_of_Z]);
      [int(str(n)) == n] for every integer.
    - [PyFloat]: Python floats as IEEE binary64 ([spec_float] of the
      Standard Library, precision 53, [emax] 1024): [float(s)]
      ([py_float]) with correct rounding, [ts * 1000] ([mul_int]) and the
      [:.2f] format ([format_2f]); [float(str(n)) == float(n)].
    - [PySort]: [sorted(l, key=...)] ([py_sorted]): keys first, then a
      stable insertion sort; the result is a sorted permutation and keeps
      the order of equal keys ([sort_pairs_stable]).
    - [Timestamps] (component TimestampSet): [parse_timestamps], lines
      107-117 of [frame_capture2.py].
    - [CropSpec]: [parse_crop], lines 120-131, with the crop record.
    - [CropApplier]: frames as lists of rows, numpy slicing
      ([py_slice]), the bounds check [crop_out_of_bounds] and
      [apply_crop], lines 146-151.
    - [FrameSource]: the OpenCV decode session as the class
      [VideoCapture] (open, isOpened, set position, read, release); the
      pipeline is proved for every instance.  [ListCapture] is an
      idealised decoder used to run examples.
    - [Formats]: the yt-dlp format and info dicts read by the code
      ([field] keeps "missing", [None] and a value apart).
    - [Pipeline] (ExtractionPipeline and FrameWriter): the monad [M] of
      a world (working directory as a [gmap], trace of calls), the
      [cv2.imwrite] model [imwrite] over the class [ImageWriter], the
      loop [capture_loop], [extract], [parse_entries], and the two
      threads [process2] (frame_capture2.py 74-165) and [process1]
      (frame_capture.py 62-141).  [ydl.download] is a parameter for
      what yt-dlp fetches; what reaches the disk is [ydl_store]: with
      the options of lines 89-95 ([outtmpl] fixed, [overwrites] left at
      its default) yt-dlp keeps a file already at the output path
      ("has already been downloaded") and writes only to a free path.
    - [Fetch] (acquisition of [frame_capture2.py], lines 19-65):
      [fetch_video_info2] over the state [gui2] (the globals
      [video_info], [formats_available], the selected resolution and the
      menu's labels), with [ydl.extract_info] a parameter; the format
      loop [select_formats] mutates the table in place and returns it
      also when it raises; [sorted_options] is [py_sorted] by the key
      [int(x.replace("p", ""))].
    - [FetchPytube] (acquisition of [frame_capture.py], lines 19-52):
      [fetch_video_info1] over [gui1]; pytube's objects are values whose
      [streams] and [title] may raise, and its query
      [filter(...).order_by('resolution').desc()] is [stream_query],
      modelled from pytube's [StreamQuery].
    - [Thread]: [process()] of [frame_capture2.py] as a small-step
      machine: [thread_step] cuts it at the statements that touch shared
      state, [pc] holds the thread's position and locals.
    - [App]: the window (lines 174-215) as a configuration of widgets,
      menu, globals, working directory and worker threads; [step] is a
      user event (edit, select, the two buttons) or one worker's step;
      [run_schedule] runs a list of events, which exhibits races.
    - [App1]: the window of [frame_capture.py] (lines 143-192) in the
      same way; its worker runs [process1] as one step ([run1]), which
      suffices because [process()] stops before any shared write.

    ** What is proved

    - The whole thread: on a run where everything succeeds,
      [process2] makes exactly the calls download, open, the loop's
      calls, one release, removal of the video, the final log line
      ([process2_extracts]); the loop is characterised by the decoder's
      reads ([capture_loop_run], via [decode_all] and [loop_events]).
    - Numbering and reporting: written files are named
      [frame_1..], [frame_2..] after the timestamps whose read succeeded
      ([capture_loop_numbering]), names within a run are distinct
      ([capture_loop_names_distinct]), and every timestamp gets one
      outcome line, in order ([capture_loop_reports]).
    - Errors: an empty crop makes [cv2.imwrite] raise out of the thread
      without releasing the capture or deleting the video
      ([process2_empty_crop_leaks]); a refused entry leaves the
      downloaded video on disk ([process2_bad_entries_keep_video]), and
      a video left on disk is what the next run captures, whatever URL
      and resolution it asks for ([process2_reuses_stale_video]); an
      unknown resolution only shows a box
      ([process2_unknown_resolution]); [frame_capture.py] always raises
      [NameError] on [selected_res] ([process1_name_error]).
    - Crop: out-of-bounds crops save the whole frame
      ([capture_loop_oob_saves_whole_frame]); in-bounds crops have the
      requested shape and pixels ([crop_frame_shape],
      [crop_frame_pixel]); [(0,0,-1,-1)] passes the check and
      drops the last row and column ([crop_negative_size_accepted]).
    - Parsing: round trips of both entries ([parse_timestamps_ints],
      [parse_crop_render]), the arity of crops
      ([parse_crop_four_fields]), one bad field refusing a batch
      ([parse_timestamps_bad_field]), and separator-only entries giving
      an empty batch ([parse_timestamps_only_separators]).
    - Fetch: the loop keeps, per resolution, a qualifying format of
      highest [tbr] ([select_formats_best], by the invariant
      [table_inv]); the menu lists each qualifying resolution once
      ([select_formats_options]); a successful fetch selects the largest
      height ([fetch_selects_highest], through [sort_key] inverting
      [resolution_of] and the sortedness of the insertion sort); a
      format with [tbr] [None] next to another of its resolution raises
      [TypeError], which leaves [formats_available] partial and the
      selection stale ([fetch_type_error_partial]).  In
      [frame_capture.py] the fetch selects the largest resolution
      ([fetch1_selects_highest]) and files, per resolution, the last
      progressive mp4 stream of pytube's list ([fetch1_keeps_last_stream],
      from the stability of [sorted] and [desc()]).
    - Threads: a [process()] thread run alone ends exactly as the
      big-step [process2] ([thread_refines_process2], by the one-step
      lemma [denote_step] and the measure [pc_measure]); whatever the
      schedule, the workers terminate ([workers_terminate]); the selected
      resolution stays one of the menu's labels ([menu_consistent]) and
      the directory holds only the video at its name and frame images
      at frame names, never the video's ([directory_typed]), by
      induction on the steps.  Three races are
      proved and reached from the start by schedules: [KeyError] between
      the check and the lookup of the resolution ([lookup_race]),
      [FileNotFoundError] between [os.path.exists] and [os.remove]
      ([remove_race]), and a capture whose download finds another run's
      video on disk and captures that video ([shared_download]).  Under any schedule [frame_capture.py]
      leaves the directory unchanged and makes only log and box calls
      ([pytube_variant_inert]).

    ** Bounds and fuel

    Everything is total and structural except [str_of_Z], whose digit
    loop runs on fuel [1 + log2 |n|]: [10^(1+log2 n) > n], so the fuel
    always suffices ([log2_fuel]), which [py_int_str_of_Z] uses.
    Python ints are unbounded and modelled as [Z]; floats keep their
    53-bit precision, overflow to [inf] and underflow to [0.0].  A
    thread alone runs on fuel; [pc_measure] bounds its steps (ten plus
    the number of timestamps the entry gives, from the start), every
    step lowers it ([tstep_measure]), so that fuel suffices
    ([run_thread_final]); the sum of the measures of all workers
    decreases with every worker step, which gives termination under any
    schedule.

    ** Not modelled (yet)

    The Tk layout (pure I/O: the widgets' contents are the record
    [inputs] and the menu's labels, the log and message boxes are events
    of the trace); the interleavings inside [fetch_video_info]
    and inside one statement of [process()] (the fetch and each step of
    [thread_step] are atomic: the races proved need no finer grain); the
    download's partial file while yt-dlp writes it, and its network
    side (one outcome per URL and format, which for a kept file stands
    for the info extraction yt-dlp still runs); pytube's
    [skip_existing], which only [process1]'s unreachable download would
    meet; the JPEG encoding
    (an image file holds the frame it was given); the decoder's seek
    accuracy (a property of each [VideoCapture] instance, not of the
    code). *)

From Stdlib Require Import ZArith List Lia.
Import ListNotations.

(** Python exceptions that the modelled code can raise. *)
Inductive exn : Type :=
  | ValueError
  | TypeError
  | KeyError
  | NameError
  | CvError
  | DownloadError
  | FileNotFoundError.

(** The outcome of a Python computation: a value, or an exception
    propagating out of it. *)
Inductive res (A : Type) : Type :=
  | Ok (a : A)
  | Raise (e : exn).
Arguments Ok {A} a.
Arguments Raise {A} e.

Declare Scope fc_scope.
Delimit Scope fc_scope with fc.
Open Scope fc_scope.

Notation "x <- c ;; k" :=
  (match c with Ok x => k | Raise e => Raise e end)
  (at level 60, c at next level, right associativity) : fc_scope.

(** [[f x for x in l]] when [f] may raise: the first exception aborts the
    comprehension. *)
Fixpoint res_map {A B} (f : A -> res B) (l : list A) : res (list B) :=
  match l with
  | [] => Ok []
  | x :: l' => y <- f x ;; ys <- res_map f l' ;; Ok (y :: ys)
  end.

Lemma res_map_ok_iff {A B} (f : A -> res B) l ys :
  res_map f l = Ok ys <-> Forall2 (fun x y => f x = Ok y) l ys.
Proof.
  revert ys; induction l as [|x l IH]; intros ys; simpl.
  - split; [intros H; inversion H; constructor | intros H; inversion H; reflexivity].
  - destruct (f x) as [y|e] eqn:Hf.
    + destruct (res_map f l) as [ys'|e] eqn:Hl.
      * split; intros H.
        -- inversion H; subst. constructor; [assumption|]. apply IH; reflexivity.
        -- inversion H as [|? y' ? ys'' Hy Hrest]; subst.
           apply IH in Hrest. congruence.
      * split; intros H; [discriminate|].
        inversion H as [|? ? ? ? Hy Hrest]; subst. apply IH in Hrest. congruence.
    + split; intros H; [discriminate|].
      inversion H as [|? ? ? ? Hy Hrest]; subst. congruence.
Qed.

Lemma res_map_length {A B} (f : A -> res B) l ys :
  res_map f l = Ok ys -> length ys = length l.
Proof.
  intros H. apply res_map_ok_iff in H. symmetry. eapply Forall2_length; eauto.
Qed.

Lemma res_map_raise {A B} (f : A -> res B) l e :
  res_map f l = Raise e -> exists x, In x l /\ f x = Raise e.
Proof.
  induction l as [|x l IH]; simpl; [discriminate|].
  destruct (f x) eqn:Hf; [|intros H; inversion H; subst; eauto].
  destruct (res_map f l) eqn:Hl; [discriminate|].
  intros H; inversion H; subst. destruct IH as [y [Hy Hfy]]; eauto.
Qed.

Lemma res_map_map {A B C} (f : B -> res C) (g : A -> B) l :
  res_map f (map g l) = res_map (fun x => f (g x)) l.
Proof. induction l as [|x l IH]; simpl; [reflexivity|]. now rewrite IH. Qed.

Lemma res_map_ok_map {A B} (f : A -> res B) (g : A -> B) l :
  (forall x, In x l -> f x = Ok (g x)) -> res_map f l = Ok (map g l).
Proof.
  induction l as [|x l IH]; intros H; simpl; [reflexivity|].
  rewrite H by (left; reflexivity). rewrite IH; [reflexivity|]. intros y Hy. apply H. right; exact Hy.
Qed.

Lemma in_firstn {A} n (l : list A) x : In x (firstn n l) -> In x l.
Proof. intros H. rewrite <- (firstn_skipn n l). apply in_or_app. now left. Qed.

Lemma in_skipn {A} n (l : list A) x : In x (skipn n l) -> In x l.
Proof. intros H. rewrite <- (firstn_skipn n l). apply in_or_app. now right. Qed.

(** Normalise appends: right-associated, cons cells pushed out. *)
Ltac app_norm := repeat progress (rewrite <- ?app_assoc; simpl).

(** Close [~ In x l] for a concrete [l] none of whose elements has the
    head constructor of [x]. *)
Ltac not_in := let H := fresh "Hin" in
  intros H; simpl in H; repeat (destruct H as [H|H]; [discriminate|]); try contradiction.

(** Case analysis on the innermost [match] of the goal, repeatedly: the
    way to evaluate a step of a program on a symbolic state. *)
Ltac destruct_innermost :=
  repeat match goal with
         | |- context [match ?x with _ => _ end] =>
             lazymatch x with context [match _ with _ => _ end] => fail | _ => destruct x end
         end.

Create HintDb fc.
#[export] Hint Resolve res_map_length in_firstn in_skipn : fc.
