(* ===== verification/PyStr.v ===== *)
(** * Python [str] primitives used by the parsers

    Python strings are modelled as Rocq [string]s, i.e. as sequences of
    code points 0..255 (the Latin-1 block of Unicode).  On that block the
    definitions below agree with CPython: [isspace] is [str.isspace],
    [strip] is [str.strip()] without argument, [split] is
    [str.split(sep)] with a one-character separator, [remove_char] is
    [str.replace(c, "")]. *)

From Stdlib Require Import ZArith String Ascii List Lia.
From S2P Require Import Prelude.
Import ListNotations.
Open Scope string_scope.
Open Scope bool_scope.

Module PyStr.

(** [str.isspace] on one code point of 0..255: the C0 separators
    TAB..CR and FS..US, SPACE, NEL (0x85) and NBSP (0xA0). *)
Definition isspace (c : ascii) : bool :=
  let n := N_of_ascii c in
  ((9 <=? n)%N && (n <=? 13)%N) || ((28 <=? n)%N && (n <=? 32)%N)
  || (n =? 133)%N || (n =? 160)%N.

(** A decimal digit ['0'..'9'] (the only code points of 0..255 that
    [int] and [float] accept as digits). *)
Definition isdigit (c : ascii) : bool :=
  let n := N_of_ascii c in ((48 <=? n)%N && (n <=? 57)%N).

Definition digit_value (c : ascii) : Z := Z.of_N (N_of_ascii c) - 48.

Fixpoint lstrip (s : string) : string :=
  match s with
  | EmptyString => EmptyString
  | String c s' => if isspace c then lstrip s' else s
  end.

Fixpoint rstrip (s : string) : string :=
  match s with
  | EmptyString => EmptyString
  | String c s' =>
      match rstrip s' with
      | EmptyString => if isspace c then EmptyString else String c EmptyString
      | r => String c r
      end
  end.

(** [s.strip()] *)
Definition strip (s : string) : string := rstrip (lstrip s).

(** [s.split(sep)] for a one-character [sep]: the maximal pieces between
    separators, empty pieces included; [""] splits into [[""]]. *)
Fixpoint split (sep : ascii) (s : string) : list string :=
  match s with
  | EmptyString => [EmptyString]
  | String c s' =>
      let parts := split sep s' in
      if Ascii.eqb c sep then EmptyString :: parts
      else match parts with
           | p :: ps => String c p :: ps
           | [] => [String c EmptyString]
           end
  end.

(** [s.replace(c, "")] *)
Fixpoint remove_char (c : ascii) (s : string) : string :=
  match s with
  | EmptyString => EmptyString
  | String d s' => if Ascii.eqb d c then remove_char c s' else String d (remove_char c s')
  end.

(** [str.isdigit] on one character: the decimal digits and the
    superscripts one, two and three, whose Unicode numeric type is
    Digit. *)
Definition str_isdigit (c : ascii) : bool :=
  isdigit c || let n := N_of_ascii c in ((n =? 178)%N || (n =? 179)%N || (n =? 185)%N).

(** [''.join(filter(str.isdigit, s))] *)
Fixpoint keep_digits (s : string) : string :=
  match s with
  | EmptyString => EmptyString
  | String d s' => if str_isdigit d then String d (keep_digits s') else keep_digits s'
  end.

(** [sep.join(parts)]: used to state round trips of [split]. *)
Fixpoint join (sep : ascii) (parts : list string) : string :=
  match parts with
  | [] => EmptyString
  | [p] => p
  | p :: ps => p ++ String sep (join sep ps)
  end.

Fixpoint count_char (c : ascii) (s : string) : nat :=
  match s with
  | EmptyString => O
  | String d s' => (if Ascii.eqb d c then 1 else 0) + count_char c s'
  end%nat.

Definition first_char (s : string) : option ascii :=
  match s with EmptyString => None | String c _ => Some c end.

Fixpoint last_char (s : string) : option ascii :=
  match s with
  | EmptyString => None
  | String c EmptyString => Some c
  | String _ s' => last_char s'
  end.

(** ** Lemmas *)

Fixpoint has_space (s : string) : bool :=
  match s with
  | EmptyString => false
  | String c s' => isspace c || has_space s'
  end.


Lemma str_app_assoc (s t u : string) : (s ++ t) ++ u = s ++ (t ++ u).
Proof. induction s; simpl; congruence. Qed.

Lemma str_app_nil_r (s : string) : s ++ EmptyString = s.
Proof. induction s; simpl; congruence. Qed.

Lemma lstrip_first s c : first_char (lstrip s) = Some c -> isspace c = false.
Proof.
  induction s as [|d s IH]; simpl; [discriminate|].
  destruct (isspace d) eqn:Hd; [exact IH|]. simpl. intros H; inversion H; subst; exact Hd.
Qed.

Lemma rstrip_nonempty_cons c s :
  rstrip (String c s) <> EmptyString -> rstrip (String c s) = String c (rstrip s).
Proof. simpl. destruct (rstrip s); [destruct (isspace c); congruence | reflexivity]. Qed.

Lemma last_char_cons c s : s <> EmptyString -> last_char (String c s) = last_char s.
Proof. destruct s; [congruence | reflexivity]. Qed.

Lemma rstrip_last s c : last_char (rstrip s) = Some c -> isspace c = false.
Proof.
  induction s as [|d s IH]; simpl; [discriminate|].
  destruct (rstrip s) as [|e r] eqn:Hr.
  - destruct (isspace d) eqn:Hd; simpl; [discriminate|]. intros H; inversion H; subst; exact Hd.
  - rewrite last_char_cons by discriminate. exact IH.
Qed.

Lemma rstrip_first s : first_char (rstrip s) = None \/ first_char (rstrip s) = first_char s.
Proof.
  destruct s as [|c s]; simpl; [auto|].
  destruct (rstrip s); [destruct (isspace c)|]; simpl; auto.
Qed.

Lemma lstrip_rstrip_comm_first s : first_char (rstrip (lstrip s)) = None \/
  first_char (rstrip (lstrip s)) = first_char (lstrip s).
Proof. apply rstrip_first. Qed.

Lemma split_nonempty sep s : split sep s <> [].
Proof.
  destruct s as [|c s]; simpl; [discriminate|].
  destruct (Ascii.eqb c sep); [discriminate|]. destruct (split sep s); discriminate.
Qed.

Lemma join_cons_cons sep p q ps :
  join sep (p :: q :: ps) = p ++ String sep (join sep (q :: ps)).
Proof. reflexivity. Qed.

Lemma split_join sep s : join sep (split sep s) = s.
Proof.
  induction s as [|c s IH]; simpl; [reflexivity|].
  pose proof (split_nonempty sep s) as Hne.
  destruct (Ascii.eqb c sep) eqn:Hc.
  - apply Ascii.eqb_eq in Hc; subst.
    destruct (split sep s) as [|p ps]; [congruence|].
    rewrite join_cons_cons, IH. reflexivity.
  - destruct (split sep s) as [|p [|q ps]]; [congruence| |].
    + simpl in *. now rewrite IH.
    + rewrite join_cons_cons in *. rewrite <- IH. reflexivity.
Qed.

Lemma split_length sep s : length (split sep s) = S (count_char sep s).
Proof.
  induction s as [|c s IH]; simpl; [reflexivity|].
  pose proof (split_nonempty sep s) as Hne.
  destruct (Ascii.eqb c sep); simpl; [now rewrite IH|].
  destruct (split sep s); [congruence|]. exact IH.
Qed.

Lemma split_no_sep sep s : Forall (fun p => count_char sep p = O) (split sep s).
Proof.
  induction s as [|c s IH]; simpl; [repeat constructor|].
  destruct (Ascii.eqb c sep) eqn:Hc; [constructor; [reflexivity|exact IH]|].
  destruct (split sep s) as [|p ps]; [repeat constructor; simpl; now rewrite Hc|].
  inversion IH; subst. constructor; [simpl; now rewrite Hc|assumption].
Qed.

Lemma split_app_nosep sep p t : count_char sep p = O ->
  split sep (p ++ String sep t) = p :: split sep t.
Proof.
  induction p as [|c p IH]; intros H; simpl.
  - now rewrite Ascii.eqb_refl.
  - simpl in H. destruct (Ascii.eqb c sep); [discriminate|]. now rewrite IH.
Qed.

Lemma split_nosep sep p : count_char sep p = O -> split sep p = [p].
Proof.
  induction p as [|c p IH]; intros H; simpl; [reflexivity|].
  simpl in H. destruct (Ascii.eqb c sep); [discriminate|]. now rewrite IH.
Qed.

Lemma join_split sep ps : ps <> [] -> Forall (fun p => count_char sep p = O) ps ->
  split sep (join sep ps) = ps.
Proof.
  induction ps as [|p [|q ps] IH]; intros Hne H; [congruence| |].
  - inversion H; subst. now apply split_nosep.
  - inversion H; subst. rewrite join_cons_cons, split_app_nosep by assumption.
    rewrite IH; [reflexivity|discriminate|assumption].
Qed.

Lemma has_space_app s t : has_space (s ++ t) = has_space s || has_space t.
Proof. induction s as [|c s IH]; simpl; [reflexivity|]. rewrite IH. apply Bool.orb_assoc. Qed.

Lemma remove_char_app c s t : remove_char c (s ++ t) = remove_char c s ++ remove_char c t.
Proof. induction s as [|d s IH]; simpl; [reflexivity|]. rewrite IH. destruct (Ascii.eqb d c); reflexivity. Qed.

Lemma keep_digits_app s t : keep_digits (s ++ t) = keep_digits s ++ keep_digits t.
Proof. induction s as [|c s IH]; simpl; [reflexivity|]. destruct (str_isdigit c); simpl; now rewrite IH. Qed.

Lemma remove_char_absent c s : count_char c s = O -> remove_char c s = s.
Proof.
  induction s as [|d s IH]; simpl; [reflexivity|]. destruct (Ascii.eqb_spec d c); [discriminate|].
  simpl. intros H. now rewrite IH.
Qed.

Lemma lstrip_id t : (forall c, first_char t = Some c -> isspace c = false) -> lstrip t = t.
Proof. destruct t as [|c t]; simpl; [reflexivity|]. intros H. now rewrite (H c eq_refl). Qed.

Lemma rstrip_id t : (forall c, last_char t = Some c -> isspace c = false) -> rstrip t = t.
Proof.
  induction t as [|c t IH]; intros H; simpl; [reflexivity|].
  destruct t as [|d t'].
  - now rewrite (H c eq_refl).
  - rewrite IH; [reflexivity|]. intros e He. apply H. simpl in *. exact He.
Qed.

Lemma strip_first s c : first_char (strip s) = Some c -> isspace c = false.
Proof.
  unfold strip. destruct (rstrip_first (lstrip s)) as [E|E]; rewrite E; [discriminate|].
  apply lstrip_first.
Qed.

Lemma strip_last s c : last_char (strip s) = Some c -> isspace c = false.
Proof. apply rstrip_last. Qed.

Lemma join_no_space sep ps : isspace sep = false ->
  Forall (fun p => has_space p = false) ps -> has_space (join sep ps) = false.
Proof.
  intros Hs; induction ps as [|p [|q ps] IH]; intros H; [reflexivity| |].
  - now inversion H.
  - inversion H; subst. rewrite join_cons_cons, has_space_app. cbn [has_space].
    rewrite H2, Hs, IH by assumption. reflexivity.
Qed.

Lemma strip_no_space s : has_space s = false -> strip s = s.
Proof.
  intros H. unfold strip. rewrite lstrip_id.
  - apply rstrip_id. induction s as [|c s IH]; simpl in *; [discriminate|].
    apply Bool.orb_false_iff in H as [H1 H2].
    destruct s; [intros ? E; inversion E; subst; exact H1|]. exact (IH H2).
  - destruct s; simpl in *; [discriminate|]. intros ? E; inversion E; subst.
    now apply Bool.orb_false_iff in H as [H1 _].
Qed.

Lemma strip_idem s : strip (strip s) = strip s.
Proof.
  unfold strip at 1. rewrite lstrip_id by apply strip_first.
  apply rstrip_id, strip_last.
Qed.

End PyStr.
