(* ===== verification/PyInt.v ===== *)
(** * Python [int(s)] and [str(n)] in base 10

    [py_int] is CPython's [int(s)] for a [str] argument and base 10
    (PyLong_FromString): surrounding whitespace is ignored, one optional
    sign, then decimal digits in which an underscore may separate two
    digits; leading zeros are allowed.  Anything else raises
    [ValueError].  [str_of_Z] is [str(n)] (and [f"{n}"]). *)

From Stdlib Require Import ZArith String Ascii List Lia.
From S2P Require Import Prelude PyStr.
Import ListNotations.
Open Scope string_scope.
Open Scope bool_scope.

Module PyInt.
Import PyStr.

(** The underscore rule shared by [int()] and [float()]
    (CPython's [_Py_string_to_number_with_underscores]): an underscore
    must follow a digit and be followed by a digit.  [prev] is the
    previous character, ["\000"] at the start. *)
Fixpoint underscores_ok (prev : ascii) (s : string) : bool :=
  match s with
  | EmptyString => negb (Ascii.eqb prev "_")
  | String c s' =>
      (if Ascii.eqb c "_" then isdigit prev
       else negb (Ascii.eqb prev "_") || isdigit c)
      && underscores_ok c s'
  end.

Fixpoint all_digits (s : string) : bool :=
  match s with
  | EmptyString => true
  | String c s' => isdigit c && all_digits s'
  end.

(** The value of a string of decimal digits, read left to right. *)
Fixpoint dec_value (acc : Z) (s : string) : Z :=
  match s with
  | EmptyString => acc
  | String c s' => dec_value (acc * 10 + digit_value c) s'
  end.

(** One optional sign character. *)
Definition parse_sign (s : string) : bool * string :=
  match s with
  | String "-" r => (true, r)
  | String "+" r => (false, r)
  | _ => (false, s)
  end.

(** [int(s)] *)
Definition py_int (s : string) : res Z :=
  let '(neg, d) := parse_sign (strip s) in
  let d' := remove_char "_" d in
  if negb (String.eqb d EmptyString) && underscores_ok "000" d && all_digits d'
  then Ok (let v := dec_value 0 d' in if neg then - v else v)%Z
  else Raise ValueError.

Definition digit_char (d : Z) : ascii := ascii_of_N (Z.to_N (d + 48)).

Fixpoint str_of_nonneg_aux (fuel : nat) (n : Z) (acc : string) : string :=
  match fuel with
  | O => acc
  | S f =>
      let acc' := String (digit_char (n mod 10)) acc in
      if (n <? 10)%Z then acc' else str_of_nonneg_aux f (n / 10) acc'
  end.

(** [str(n)] for an integer [n]. *)
Definition str_of_Z (n : Z) : string :=
  let m := Z.abs n in
  let digits := str_of_nonneg_aux (S (Z.to_nat (Z.log2 m))) m EmptyString in
  if (n <? 0)%Z then String "-" digits else digits.

(** ** Lemmas *)

Lemma dec_value_app acc s t : dec_value acc (s ++ t) = dec_value (dec_value acc s) t.
Proof. revert acc; induction s; simpl; auto. Qed.

Lemma str_aux_S f n acc : str_of_nonneg_aux (S f) n acc =
  if (n <? 10)%Z then String (digit_char (n mod 10)) acc
  else str_of_nonneg_aux f (n / 10) (String (digit_char (n mod 10)) acc).
Proof. reflexivity. Qed.

Lemma str_aux_app f n acc : str_of_nonneg_aux f n acc = str_of_nonneg_aux f n EmptyString ++ acc.
Proof.
  revert n acc; induction f as [|f IH]; intros n acc; simpl; [reflexivity|].
  destruct (n <? 10)%Z; [reflexivity|].
  rewrite IH, (IH _ (String _ EmptyString)), str_app_assoc. reflexivity.
Qed.

Lemma digit_char_value d : (0 <= d < 10)%Z -> digit_value (digit_char d) = d.
Proof.
  intros H. unfold digit_value, digit_char.
  rewrite N_ascii_embedding by (apply N2Z.inj_lt; rewrite Z2N.id; lia). rewrite Z2N.id; lia.
Qed.

Lemma digit_char_isdigit d : (0 <= d < 10)%Z -> isdigit (digit_char d) = true.
Proof.
  intros H. unfold isdigit, digit_char.
  rewrite N_ascii_embedding by (apply N2Z.inj_lt; rewrite Z2N.id; lia).
  apply andb_true_intro; split; apply N.leb_le; apply N2Z.inj_le; rewrite Z2N.id; lia.
Qed.

Lemma str_aux_value f n : (0 <= n < 10 ^ Z.of_nat (S f))%Z ->
  dec_value 0 (str_of_nonneg_aux (S f) n EmptyString) = n.
Proof.
  revert n; induction f as [|f IH]; intros n Hn.
  - simpl. rewrite Z.pow_1_r in Hn. destruct (Z.ltb_spec n 10); [|lia].
    simpl. rewrite digit_char_value by (apply Z.mod_pos_bound; lia).
    rewrite Z.mod_small; lia.
  - rewrite str_aux_S. destruct (Z.ltb_spec n 10).
    + simpl. rewrite digit_char_value by (apply Z.mod_pos_bound; lia). rewrite Z.mod_small; lia.
    + rewrite str_aux_app, dec_value_app, IH.
      * simpl. rewrite digit_char_value by (apply Z.mod_pos_bound; lia).
        pose proof (Z.div_mod n 10). lia.
      * rewrite Nat2Z.inj_succ, Z.pow_succ_r in Hn by lia.
        split; [apply Z.div_pos; lia|]. apply Z.div_lt_upper_bound; lia.
Qed.

Lemma str_aux_digits f n : (0 <= n)%Z -> all_digits (str_of_nonneg_aux f n EmptyString) = true.
Proof.
  revert n; induction f as [|f IH]; intros n Hn; [reflexivity|].
  rewrite str_aux_S. destruct (n <? 10)%Z.
  - simpl. rewrite digit_char_isdigit by (apply Z.mod_pos_bound; lia). reflexivity.
  - rewrite str_aux_app.
    assert (Hd : forall s t, all_digits (s ++ t) = all_digits s && all_digits t).
    { induction s; simpl; intros; [reflexivity|]. rewrite IHs. destruct (isdigit a); reflexivity. }
    rewrite Hd, IH by (apply Z.div_pos; lia). simpl.
    rewrite digit_char_isdigit by (apply Z.mod_pos_bound; lia). reflexivity.
Qed.

Lemma isdigit_not_space c : isdigit c = true -> isspace c = false.
Proof.
  unfold isdigit, isspace. destruct (N_of_ascii c) as [|n]; [discriminate|].
  intros H. apply andb_prop in H as [H1 H2]. apply N.leb_le in H1, H2.
  repeat match goal with |- context [(?a <=? ?b)%N] => destruct (N.leb_spec a b) end;
  repeat match goal with |- context [(?a =? ?b)%N] => destruct (N.eqb_spec a b) end;
  simpl; lia.
Qed.

Lemma all_digits_app s t : all_digits (s ++ t) = all_digits s && all_digits t.
Proof. induction s as [|c s IH]; simpl; [reflexivity|]. rewrite IH. destruct (isdigit c); reflexivity. Qed.

Lemma all_digits_no_space s : all_digits s = true -> has_space s = false.
Proof.
  induction s as [|c s IH]; simpl; [reflexivity|]. intros H.
  apply andb_prop in H as [H1 H2]. rewrite isdigit_not_space, IH; auto.
Qed.

Lemma underscore_not_digit : isdigit "_" = false.
Proof. reflexivity. Qed.

Lemma all_digits_remove_us s : all_digits s = true -> remove_char "_" s = s.
Proof.
  induction s as [|c s IH]; simpl; [reflexivity|]. intros H.
  apply andb_prop in H as [H1 H2]. destruct (Ascii.eqb_spec c "_"); [subst; discriminate|].
  now rewrite IH.
Qed.

Lemma all_digits_underscores_ok p s :
  p <> "_"%char -> all_digits s = true -> underscores_ok p s = true.
Proof.
  revert p; induction s as [|c s IH]; intros p Hp H; simpl.
  - destruct (Ascii.eqb_spec p "_"); [congruence|reflexivity].
  - apply andb_prop in H as [H1 H2]. destruct (Ascii.eqb_spec c "_"); [subst; discriminate|].
    rewrite H1, Bool.orb_true_r, IH; auto.
Qed.

Lemma str_aux_nonempty f n acc : str_of_nonneg_aux (S f) n acc <> EmptyString.
Proof.
  rewrite str_aux_S, str_aux_app. destruct (n <? 10)%Z; [discriminate|].
  destruct (str_of_nonneg_aux f (n / 10) EmptyString); discriminate.
Qed.

Lemma str_aux_first_digit f n :
  (0 <= n)%Z -> exists c s, str_of_nonneg_aux (S f) n EmptyString = String c s /\ isdigit c = true.
Proof.
  intros Hn. pose proof (str_aux_digits (S f) n Hn) as Hd.
  pose proof (str_aux_nonempty f n EmptyString) as Hne.
  destruct (str_of_nonneg_aux (S f) n EmptyString) as [|c s]; [congruence|].
  simpl in Hd. apply andb_prop in Hd as [Hc _]. eauto.
Qed.

Lemma log2_fuel m : (0 <= m)%Z -> (m < 10 ^ Z.of_nat (S (Z.to_nat (Z.log2 m))))%Z.
Proof.
  intros Hm. rewrite Nat2Z.inj_succ, Z2Nat.id by apply Z.log2_nonneg.
  apply Z.lt_le_trans with (2 ^ Z.succ (Z.log2 m))%Z.
  - destruct (Z.eq_dec m 0) as [->|Hm0]; [reflexivity|].
    apply Z.log2_spec; lia.
  - apply Z.pow_le_mono_l. split; [lia | lia].
Qed.

Lemma str_of_Z_sign n : exists d,
  parse_sign (str_of_Z n) = ((n <? 0)%Z, d) /\ all_digits d = true /\
  d <> EmptyString /\ dec_value 0 d = Z.abs n.
Proof.
  unfold str_of_Z. set (f := Z.to_nat (Z.log2 (Z.abs n))).
  pose proof (str_aux_digits (S f) (Z.abs n) ltac:(lia)) as Hd.
  pose proof (str_aux_value f (Z.abs n) (conj (Z.abs_nonneg n) (log2_fuel _ (Z.abs_nonneg n)))) as Hv.
  destruct (str_aux_first_digit f (Z.abs n) ltac:(lia)) as (c & t & Ht & Hc).
  set (d := str_of_nonneg_aux (S f) (Z.abs n) EmptyString) in *.
  exists d. split; [|split; [exact Hd|split; [rewrite Ht; discriminate|exact Hv]]].
  destruct (n <? 0)%Z; [reflexivity|].
  rewrite Ht. unfold parse_sign.
  destruct c as [[] [] [] [] [] [] [] []]; try reflexivity; discriminate Hc.
Qed.

Lemma parse_sign_cases s neg d : parse_sign s = (neg, d) ->
  (s = d /\ neg = false) \/ s = String "-" d \/ s = String "+" d.
Proof.
  unfold parse_sign. destruct s as [|c r]; [intros H; inversion H; auto|].
  destruct c as [[] [] [] [] [] [] [] []]; intros H; inversion H; subst; auto.
Qed.

Lemma str_of_Z_no_space n : has_space (str_of_Z n) = false.
Proof.
  destruct (str_of_Z_sign n) as (d & Hp & Hd & _).
  apply parse_sign_cases in Hp as [[-> _]|[->| ->]]; simpl;
  rewrite ?all_digits_no_space by exact Hd; reflexivity.
Qed.

Lemma str_of_Z_underscores n :
  underscores_ok "000" (str_of_Z n) = true /\ remove_char "_" (str_of_Z n) = str_of_Z n.
Proof.
  destruct (str_of_Z_sign n) as (d & Hp & Hd & _).
  apply parse_sign_cases in Hp as [[-> _]|[->| ->]]; simpl;
  rewrite ?all_digits_remove_us, ?all_digits_underscores_ok by (discriminate || exact Hd);
  auto.
Qed.

Lemma digits_nonempty_eqb d : d <> EmptyString -> String.eqb d EmptyString = false.
Proof. intros H. now apply String.eqb_neq. Qed.

Lemma str_of_Z_nonneg_digits n : (0 <= n)%Z -> all_digits (str_of_Z n) = true.
Proof.
  intros Hn. unfold str_of_Z. destruct (Z.ltb_spec n 0); [lia|]. apply str_aux_digits. lia.
Qed.


Lemma all_digits_count c d : isdigit c = false -> all_digits d = true -> count_char c d = O.
Proof.
  intros Hc. induction d as [|e d IH]; simpl; [reflexivity|]. intros H.
  apply andb_prop in H as [H1 H2]. rewrite IH by exact H2.
  destruct (Ascii.eqb_spec e c); [subst; congruence|reflexivity].
Qed.

Lemma str_of_Z_shape n : exists d, all_digits d = true /\
  (str_of_Z n = d \/ str_of_Z n = String "-" d).
Proof.
  unfold str_of_Z. exists (str_of_nonneg_aux (S (Z.to_nat (Z.log2 (Z.abs n)))) (Z.abs n) EmptyString).
  split; [apply str_aux_digits; lia|].
  destruct (n <? 0)%Z; [right|left]; reflexivity.
Qed.

(** [str(n)] holds no character other than digits and [-]. *)
Lemma str_of_Z_count c n : isdigit c = false -> c <> "-"%char -> count_char c (str_of_Z n) = O.
Proof.
  intros Hc Hm. destruct (str_of_Z_shape n) as (d & Hd & [-> | ->]); cbn [count_char];
  rewrite ?all_digits_count by assumption; [reflexivity|].
  destruct (Ascii.eqb_spec "-" c); [congruence|reflexivity].
Qed.

(** [int(str(n)) == n] for every Python integer. *)
Lemma py_int_str_of_Z n : py_int (str_of_Z n) = Ok n.
Proof.
  destruct (str_of_Z_sign n) as (d & Hp & Hd & Hne & Hv).
  unfold py_int. rewrite strip_no_space by apply str_of_Z_no_space. rewrite Hp.
  cbv beta iota. rewrite all_digits_remove_us, Hd, all_digits_underscores_ok,
    digits_nonempty_eqb, Hv by (discriminate || assumption).
  simpl. f_equal. destruct (Z.ltb_spec n 0); lia.
Qed.

Lemma str_of_Z_inj n m : str_of_Z n = str_of_Z m -> n = m.
Proof.
  intros H. pose proof (py_int_str_of_Z n) as Hn. rewrite H, py_int_str_of_Z in Hn. congruence.
Qed.

End PyInt.
