(* ===== verification/PyFloat.v ===== *)
(** * Python [float]: parsing, [*], and the [:.2f] format

    Python floats are IEEE 754 binary64 values.  They are modelled by the
    Standard Library's [spec_float] (the specification of Rocq's
    primitive floats) at precision 53 and maximal exponent 1024, with its
    correctly rounded operations ([SFmul], [binary_round]).
    - [py_float] is [float(s)] for a [str] (CPython's [float_from_string],
      [_Py_string_to_number_with_underscores] and [_PyOS_ascii_strtod]):
      surrounding whitespace is ignored, underscores may separate digits,
      then an optional sign and either [inf], [infinity], [nan] in any
      case, or a decimal literal [digits [. digits] [e [sign] digits]]
      with at least one digit in the mantissa.  The decimal value is
      rounded to nearest, ties to even (David Gay's [strtod]).
    - [fmul] is [x * y] on two floats; [mul_int] is [x * n] for an int
      [n] that is exactly representable (Python converts it first).
    - [format_2f] is [f"{x:.2f}"]: the exact binary value rounded to two
      decimals, ties to even, [-] printed whenever the sign bit is set,
      [inf], [-inf] and [nan] for the special values. *)

From Stdlib Require Import ZArith String Ascii List Lia SpecFloat.
From S2P Require Import Prelude PyStr PyInt.
Import ListNotations.
Open Scope string_scope.
Open Scope bool_scope.

Module PyFloat.
Import PyStr PyInt.

Definition prec : Z := 53.
Definition emax : Z := 1024.

(** A Python [float]. *)
Definition float := spec_float.

(** The binary64 value nearest to [(-1)^neg * M * 10^E], ties to even. *)
Definition dec_to_float (neg : bool) (M E : Z) : float :=
  if (M =? 0)%Z then S754_zero neg
  else if (0 <=? E)%Z then
    binary_normalize prec emax (if neg then - (M * 10 ^ E) else M * 10 ^ E)%Z 0 neg
  else
    let '(q, e', l) := SFdiv_core_binary prec emax M 0 (5 ^ (- E)) (- E) in
    binary_round_aux prec emax neg q e' l.

(** [float(n)] for an int [n]. *)
Definition float_of_Z (n : Z) : float := binary_normalize prec emax n 0 false.

Definition fmul (x y : float) : float := SFmul prec emax x y.

(** [x * n] for an int [n] *)
Definition mul_int (x : float) (n : Z) : float := fmul x (float_of_Z n).

Definition to_lower (c : ascii) : ascii :=
  let n := N_of_ascii c in
  if ((65 <=? n)%N && (n <=? 90)%N) then ascii_of_N (n + 32) else c.

Fixpoint lower (s : string) : string :=
  match s with
  | EmptyString => EmptyString
  | String c s' => String (to_lower c) (lower s')
  end.

(** The longest prefix of decimal digits, and the rest. *)
Fixpoint scan_digits (s : string) : string * string :=
  match s with
  | String c s' =>
      if isdigit c then let '(d, r) := scan_digits s' in (String c d, r)
      else (EmptyString, s)
  | EmptyString => (EmptyString, EmptyString)
  end.

(** The exponent part [e [sign] digits], or nothing. *)
Definition parse_exponent (s : string) : option Z :=
  match s with
  | EmptyString => Some 0%Z
  | String c r =>
      if Ascii.eqb c "e" || Ascii.eqb c "E" then
        let '(neg, d) := parse_sign r in
        if negb (String.eqb d EmptyString) && all_digits d
        then Some (let v := dec_value 0 d in if neg then - v else v)%Z
        else None
      else None
  end.

(** A decimal literal without its sign. *)
Definition parse_decimal (neg : bool) (s : string) : option float :=
  let '(ip, r1) := scan_digits s in
  let '(fp, r2) :=
    match r1 with
    | String "." r => scan_digits r
    | _ => (EmptyString, r1)
    end in
  if String.eqb ip EmptyString && String.eqb fp EmptyString then None
  else match parse_exponent r2 with
       | Some e => Some (dec_to_float neg (dec_value 0 (ip ++ fp)) (e - Z.of_nat (String.length fp)))
       | None => None
       end.

(** The body of the literal after whitespace and underscores are gone. *)
Definition parse_float_body (s : string) : option float :=
  let '(neg, r) := parse_sign s in
  let w := lower r in
  if String.eqb w "inf" || String.eqb w "infinity" then Some (S754_infinity neg)
  else if String.eqb w "nan" then Some S754_nan
  else parse_decimal neg r.

(** [float(s)] *)
Definition py_float (s : string) : res float :=
  let t := strip s in
  if underscores_ok "000" t then
    match parse_float_body (remove_char "_" t) with
    | Some f => Ok f
    | None => Raise ValueError
    end
  else Raise ValueError.

(** [round(q)] on the rational [num / den], [den > 0], ties to even. *)
Definition round_half_even (num den : Z) : Z :=
  let q := (num / den)%Z in
  let r := (num mod den)%Z in
  match Z.compare (2 * r) den with
  | Lt => q
  | Gt => q + 1
  | Eq => if Z.even q then q else q + 1
  end%Z.

(** The magnitude [|x| * 100] rounded to an integer. *)
Definition scaled_100 (m : positive) (e : Z) : Z :=
  if (0 <=? e)%Z then (Z.pos m * 2 ^ e * 100)%Z
  else round_half_even (Z.pos m * 100) (2 ^ (- e)).

(** Two decimal digits, zero padded. *)
Definition two_digits (k : Z) : string :=
  String (digit_char (k / 10)) (String (digit_char (k mod 10)) EmptyString).

Definition fixed2 (neg : bool) (k : Z) : string :=
  (if neg then "-" else "") ++ str_of_Z (k / 100) ++ "." ++ two_digits (k mod 100).

(** [f"{x:.2f}"] *)
Definition format_2f (x : float) : string :=
  match x with
  | S754_nan => "nan"
  | S754_infinity s => if s then "-inf" else "inf"
  | S754_zero s => fixed2 s 0
  | S754_finite s m e => fixed2 s (scaled_100 m e)
  end.

(** [a > b] between two values that are floats or [None] ([None] as
    [None]): comparing with [None] raises [TypeError]. *)
Definition py_gt (a b : option float) : res bool :=
  match a, b with
  | Some x, Some y => Ok (SFltb y x)
  | _, _ => Raise TypeError
  end.

(** ** Lemmas *)

(** The order of [SFcompare] on non-NaN values is the lexicographic order
    of these keys: class (-inf, negative, zero, positive, +inf), then
    exponent, then mantissa, reversed for negative numbers. *)
Definition fkey (x : float) : Z * Z * Z :=
  match x with
  | S754_infinity true => (0, 0, 0)
  | S754_finite true m e => (1, - e, - Z.pos m)
  | S754_zero _ => (2, 0, 0)
  | S754_finite false m e => (3, e, Z.pos m)
  | S754_infinity false => (4, 0, 0)
  | S754_nan => (0, 0, 0)
  end%Z.

Definition lex_lt (k1 k2 : Z * Z * Z) : Prop :=
  let '(a1, b1, c1) := k1 in let '(a2, b2, c2) := k2 in
  (a1 < a2 \/ (a1 = a2 /\ (b1 < b2 \/ (b1 = b2 /\ c1 < c2))))%Z.

Definition is_nan (x : float) : bool := match x with S754_nan => true | _ => false end.

Lemma SFltb_key x y : is_nan x = false -> is_nan y = false ->
  SFltb x y = true <-> lex_lt (fkey x) (fkey y).
Proof.
  intros Hx Hy. unfold SFltb, SFcompare, lex_lt.
  destruct x as [sx|sx| |sx mx ex]; try discriminate; destruct y as [sy|sy| |sy my ey]; try discriminate;
  repeat match goal with b : bool |- _ => destruct b end; simpl;
  try (split; [discriminate|lia]); try (split; [intros _; lia|reflexivity]);
  rewrite ?Pos.compare_cont_spec;
  destruct (Z.compare_spec ex ey); simpl; try (split; [intros _; lia|reflexivity]);
  try (split; [discriminate|lia]); subst;
  destruct (Pos.compare_spec mx my); simpl; split; intros; try discriminate; try reflexivity; lia.
Qed.


Lemma scan_digits_all d : all_digits d = true -> scan_digits d = (d, EmptyString).
Proof.
  induction d as [|c d IH]; simpl; [reflexivity|]. intros H.
  apply andb_prop in H as [H1 H2]. rewrite H1, IH by exact H2. reflexivity.
Qed.

Lemma lower_digits d : all_digits d = true -> lower d = d.
Proof.
  induction d as [|c d IH]; simpl; [reflexivity|]. intros H.
  apply andb_prop in H as [H1 H2]. rewrite IH by exact H2. f_equal.
  unfold to_lower, isdigit in *. apply andb_prop in H1 as [H3 H4].
  apply N.leb_le in H3, H4. destruct (N.leb_spec 65 (N_of_ascii c)); simpl; [|reflexivity].
  destruct (N.leb_spec (N_of_ascii c) 90); simpl; [lia|reflexivity].
Qed.

Lemma all_digits_not_word d w : all_digits d = true -> all_digits w = false ->
  String.eqb d w = false.
Proof. intros H1 H2. apply String.eqb_neq. intros ->. congruence. Qed.

Lemma binary_normalize_szero m e s1 s2 : m <> 0%Z ->
  binary_normalize prec emax m e s1 = binary_normalize prec emax m e s2.
Proof. destruct m; [congruence|reflexivity|reflexivity]. Qed.

(** An all-digit literal, signed or not, parses to the float of the
    integer it denotes. *)
Lemma parse_float_body_int neg d : all_digits d = true -> d <> EmptyString ->
  parse_decimal neg d = Some (dec_to_float neg (dec_value 0 d) 0).
Proof.
  intros Hd Hne. unfold parse_decimal. rewrite scan_digits_all by exact Hd.
  rewrite digits_nonempty_eqb by exact Hne. simpl. now rewrite str_app_nil_r.
Qed.

(** [float(str(n)) == float(n)] for every Python integer [n]. *)
Lemma py_float_str_of_Z n : py_float (str_of_Z n) = Ok (float_of_Z n).
Proof.
  destruct (str_of_Z_underscores n) as [Hu Hr].
  destruct (str_of_Z_sign n) as (d & Hp & Hd & Hne & Hv).
  unfold py_float. rewrite strip_no_space by apply str_of_Z_no_space.
  rewrite Hu, Hr. unfold parse_float_body. rewrite Hp. cbv beta iota zeta.
  rewrite lower_digits, !all_digits_not_word by (reflexivity || exact Hd).
  simpl orb. cbv iota. rewrite parse_float_body_int, Hv by assumption.
  f_equal. unfold dec_to_float, float_of_Z. simpl.
  destruct (Z.eqb_spec (Z.abs n) 0) as [H0|H0].
  - assert (n = 0%Z) as -> by lia. reflexivity.
  - replace (if (n <? 0)%Z then _ else _) with n by (destruct (Z.ltb_spec n 0); lia).
    apply binary_normalize_szero. lia.
Qed.

Lemma lex_lt_trans k1 k2 k3 : lex_lt k1 k2 -> lex_lt k2 k3 -> lex_lt k1 k3.
Proof. destruct k1 as [[a1 b1] c1], k2 as [[a2 b2] c2], k3 as [[a3 b3] c3]. simpl. lia. Qed.

Lemma SFltb_nan_l y : SFltb S754_nan y = false.
Proof. reflexivity. Qed.

Lemma SFltb_nan_r x : SFltb x S754_nan = false.
Proof. destruct x; reflexivity. Qed.

(** If [not (a > b)] and [c > b], then [not (a > c)]: the running
    maximum of a sequence only grows past values it already dominates. *)
Lemma py_gt_step a b c :
  py_gt (Some a) (Some b) = Ok false -> py_gt (Some c) (Some b) = Ok true ->
  py_gt (Some a) (Some c) = Ok false.
Proof.
  simpl. intros Hab Hcb. injection Hab as Hab. injection Hcb as Hcb. f_equal.
  destruct (is_nan a) eqn:Ha; [destruct a; try discriminate; apply SFltb_nan_r|].
  destruct (is_nan b) eqn:Hb; [destruct b; try discriminate; rewrite SFltb_nan_l in Hcb; discriminate|].
  destruct (is_nan c) eqn:Hc; [destruct c; try discriminate; rewrite SFltb_nan_r in Hcb; discriminate|].
  apply SFltb_key in Hcb; [|assumption|assumption].
  destruct (SFltb c a) eqn:Hca; [|reflexivity].
  apply SFltb_key in Hca; [|assumption|assumption].
  assert (Hba : SFltb b a = true) by (apply SFltb_key; [assumption|assumption|eapply lex_lt_trans; eauto]).
  congruence.
Qed.

End PyFloat.
