(* ===== verification/PySort.v ===== *)
(** * Python's [sorted(iterable, key=...)]

    CPython computes the key of every element first, in order (an
    exception from a key aborts the call), then sorts stably: elements
    whose keys are not ordered by [<] keep their relative order.  The
    model sorts the (key, element) pairs by repeated insertion from the
    left, each new pair placed after every pair whose key it is not less
    than, comparing keys with the key type's [<] only, as [sorted] does.
    Both [frame_capture2.py] (line 53) and pytube's [order_by] (reached
    from [frame_capture.py], line 33) call it. *)

From Stdlib Require Import List Sorting Permutation RelationClasses.
From S2P Require Import Prelude.
Import ListNotations.

Module PySort.

Section Sort.
Context {K A : Type} (ltb : K -> K -> bool).

(** Insert [(k, x)] after the pairs whose key is not greater than [k]. *)
Fixpoint insert_by (k : K) (x : A) (l : list (K * A)) : list (K * A) :=
  match l with
  | [] => [(k, x)]
  | (k', y) :: l' => if ltb k k' then (k, x) :: l else (k', y) :: insert_by k x l'
  end.

(** Repeated insertion of the pairs, from the left, into [acc]. *)
Definition sort_pairs (kxs : list (K * A)) : list (K * A) :=
  fold_left (fun acc kx => insert_by (fst kx) (snd kx) acc) kxs [].

(** [sorted(l, key=key)] *)
Definition py_sorted (key : A -> res K) (l : list A) : res (list A) :=
  keys <- res_map key l ;;
  Ok (map snd (sort_pairs (combine keys l))).

Lemma insert_by_perm k x l : Permutation (insert_by k x l) ((k, x) :: l).
Proof.
  induction l as [|[k' y] l IH]; simpl; [reflexivity|].
  destruct (ltb k k'); [reflexivity|]. rewrite IH. apply perm_swap.
Qed.

Lemma fold_insert_perm l acc :
  Permutation (fold_left (fun acc kx => insert_by (fst kx) (snd kx) acc) l acc) (l ++ acc).
Proof.
  revert acc; induction l as [|[k x] l IH]; intros acc; simpl; [reflexivity|].
  rewrite IH, insert_by_perm. symmetry. apply Permutation_middle.
Qed.

Lemma sort_pairs_perm l : Permutation (sort_pairs l) l.
Proof. unfold sort_pairs. rewrite fold_insert_perm, app_nil_r. reflexivity. Qed.

(** The order that [ltb] decides, on keys. *)
Context (le : K -> K -> Prop) `{PreOrder K le}.
Hypothesis ltb_le : forall a b, ltb a b = true -> le a b.
Hypothesis not_ltb_le : forall a b, ltb a b = false -> le b a.

Definition key_le (p q : K * A) : Prop := le (fst p) (fst q).

Lemma insert_by_sorted k x l : Sorted key_le l -> Sorted key_le (insert_by k x l).
Proof.
  induction l as [|[k' y] l IH]; intros Hs; simpl; [repeat constructor|].
  destruct (ltb k k') eqn:Hlt.
  - constructor; [exact Hs|]. constructor. unfold key_le. simpl. now apply ltb_le.
  - apply Sorted_inv in Hs as [Hs Hh]. constructor; [exact (IH Hs)|].
    destruct l as [|[k'' z] l]; simpl; [constructor; unfold key_le; simpl; now apply not_ltb_le|].
    inversion Hh as [|? ? Hle]; subst. destruct (ltb k k'') eqn:Hlt'; constructor; unfold key_le in *;
      simpl in *; [now apply not_ltb_le|exact Hle].
Qed.

Lemma sort_pairs_sorted l : Sorted key_le (sort_pairs l).
Proof.
  unfold sort_pairs. assert (Hs : Sorted key_le (@nil (K * A))) by constructor.
  revert Hs. generalize (@nil (K * A)).
  induction l as [|[k x] l IH]; intros acc Hs; simpl; [exact Hs|].
  apply IH, insert_by_sorted, Hs.
Qed.

Lemma sorted_map_snd (f : A -> K) (L : list (K * A)) :
  Forall (fun p => fst p = f (snd p)) L -> Sorted key_le L ->
  Sorted (fun a b => le (f a) (f b)) (map snd L).
Proof.
  intros Hf Hs. induction Hs as [|p L Hs IH Hhd]; simpl; constructor.
  - apply IH. now inversion Hf.
  - destruct Hhd as [|q L' Hpq]; simpl; constructor. inversion Hf as [|? ? Hp Hf']; subst.
    inversion Hf' as [|? ? Hq _]; subst. unfold key_le in Hpq. now rewrite <- Hp, <- Hq.
Qed.

Lemma combine_keys (f : A -> K) l : combine (map f l) l = map (fun x => (f x, x)) l.
Proof. induction l as [|x l IH]; simpl; congruence. Qed.

(** When every key is computed, [sorted] sorts the pairs (key, element). *)
Lemma py_sorted_total (f : A -> K) (key : A -> res K) l :
  (forall x, In x l -> key x = Ok (f x)) ->
  py_sorted key l = Ok (map snd (sort_pairs (map (fun x => (f x, x)) l))).
Proof.
  intros Hk. unfold py_sorted.
  assert (Hm : res_map key l = Ok (map f l)).
  { clear -Hk. induction l as [|x l IH]; simpl; [reflexivity|].
    rewrite (Hk x (or_introl eq_refl)), IH by (intros y Hy; apply Hk; now right). reflexivity. }
  now rewrite Hm, combine_keys.
Qed.

Lemma sort_pairs_keys (f : A -> K) l :
  Forall (fun p => fst p = f (snd p)) (sort_pairs (map (fun x => (f x, x)) l)).
Proof.
  rewrite Forall_forall. intros p Hp. apply (Permutation_in _ (sort_pairs_perm _)) in Hp.
  apply in_map_iff in Hp as (x & <- & _). reflexivity.
Qed.

(** When every key is computed, [sorted] returns a permutation of its
    argument, ordered by the keys. *)
Lemma py_sorted_spec (f : A -> K) (key : A -> res K) l :
  (forall x, In x l -> key x = Ok (f x)) ->
  exists s, py_sorted key l = Ok s /\ Permutation s l /\ Sorted (fun a b => le (f a) (f b)) s.
Proof.
  intros Hk. rewrite (py_sorted_total f key l Hk). eexists. split; [reflexivity|]. split.
  - rewrite sort_pairs_perm, map_map. simpl. rewrite map_id. reflexivity.
  - apply sorted_map_snd; [apply sort_pairs_keys|apply sort_pairs_sorted].
Qed.

(** ** Stability *)

Context (eqb : K -> K -> bool).
Hypothesis eqb_eq : forall a b, eqb a b = true <-> a = b.
Hypothesis ltb_le_neq : forall a b c, ltb a b = true -> le b c -> a <> c.

(** The pairs of key [k0], in order. *)
Definition with_key (k0 : K) (l : list (K * A)) : list (K * A) :=
  filter (fun p => eqb (fst p) k0) l.

Lemma with_key_cons k0 p l :
  with_key k0 (p :: l) = (if eqb (fst p) k0 then [p] else []) ++ with_key k0 l.
Proof. unfold with_key. simpl. destruct (eqb (fst p) k0); reflexivity. Qed.

Lemma with_key_none k0 k l : (forall p, In p l -> ltb k (fst p) = true) -> eqb k k0 = true ->
  with_key k0 l = [].
Proof.
  intros Hall Hk. apply eqb_eq in Hk. subst k0. unfold with_key.
  induction l as [|p l IH]; simpl; [reflexivity|].
  destruct (eqb (fst p) k) eqn:E.
  - apply eqb_eq in E. specialize (Hall p (or_introl eq_refl)). rewrite E in Hall.
    exfalso. apply (ltb_le_neq k k k Hall); reflexivity.
  - apply IH. intros q Hq. apply Hall. now right.
Qed.

Lemma insert_by_stable k0 k x l : Sorted key_le l ->
  with_key k0 (insert_by k x l) = with_key k0 l ++ (if eqb k k0 then [(k, x)] else []).
Proof.
  intros Hs. apply Sorted_StronglySorted in Hs; [|intros a b c; unfold key_le; apply transitivity].
  induction Hs as [|[k' y] l Hs IH Hall]; cbn [insert_by];
    [unfold with_key; simpl; destruct (eqb k k0); reflexivity|].
  destruct (ltb k k') eqn:Hlt.
  - rewrite with_key_cons. simpl fst. destruct (eqb k k0) eqn:Hk.
    + rewrite (with_key_none k0 k ((k', y) :: l)); [reflexivity| |exact Hk].
      intros p [<-|Hp]; [exact Hlt|]. rewrite Forall_forall in Hall. specialize (Hall p Hp).
      unfold key_le in Hall. simpl in Hall. destruct (ltb k (fst p)) eqn:E; [reflexivity|].
      apply not_ltb_le in E. exfalso. apply (ltb_le_neq k k' k Hlt); [|reflexivity].
      transitivity (fst p); assumption.
    + rewrite app_nil_r. reflexivity.
  - rewrite !with_key_cons, IH. simpl fst. now rewrite app_assoc.
Qed.

(** Python's sort is stable: for every key, the elements of that key
    come out in the order they went in. *)
Lemma sort_pairs_stable k0 l : with_key k0 (sort_pairs l) = with_key k0 l.
Proof.
  unfold sort_pairs. change (with_key k0 l) with ([] ++ with_key k0 l).
  assert (Hs : Sorted key_le (@nil (K * A))) by constructor.
  assert (He : with_key k0 (@nil (K * A)) = []) by reflexivity. rewrite <- He at 2.
  clear He. revert Hs. generalize (@nil (K * A)).
  induction l as [|[k x] l IH]; intros acc Hs; cbn [fold_left fst snd]; [now rewrite app_nil_r|].
  rewrite IH by (apply insert_by_sorted, Hs). rewrite insert_by_stable by exact Hs.
  rewrite with_key_cons. simpl fst. rewrite <- !app_assoc. destruct (eqb k k0); reflexivity.
Qed.

Lemma filter_map_snd (f : A -> K) k (P : list (K * A)) :
  Forall (fun p => fst p = f (snd p)) P ->
  filter (fun x => eqb (f x) k) (map snd P) = map snd (with_key k P).
Proof.
  intros HP. induction HP as [|p P Hp HP IH]; [reflexivity|].
  rewrite with_key_cons. simpl. rewrite <- Hp. destruct (eqb (fst p) k); simpl; now rewrite IH.
Qed.

(** Sorting by a computed key is stable: for every key, the elements
    of that key keep their order. *)
Lemma py_sorted_stable (f : A -> K) (key : A -> res K) l s k :
  (forall x, In x l -> key x = Ok (f x)) -> py_sorted key l = Ok s ->
  filter (fun x => eqb (f x) k) s = filter (fun x => eqb (f x) k) l.
Proof.
  intros Hk Hs. rewrite (py_sorted_total f key l Hk) in Hs. injection Hs as <-.
  rewrite filter_map_snd by apply sort_pairs_keys. rewrite sort_pairs_stable.
  rewrite <- (filter_map_snd f k (map (fun x => (f x, x)) l)) by (rewrite Forall_forall; intros p Hp; apply in_map_iff in Hp as (x & <- & _); reflexivity).
  rewrite map_map. simpl. now rewrite map_id.
Qed.

End Sort.

Lemma last_in_cons {B} (a : B) l d : In (last (a :: l) d) (a :: l).
Proof.
  revert a; induction l as [|b l IH]; intros a; [left; reflexivity|].
  right. exact (IH b).
Qed.

(** The last element of a list sorted by a preorder is a largest one. *)
Lemma sorted_last_max {B} (R : B -> B -> Prop) `{PreOrder B R} (l : list B) d x :
  Sorted R l -> In x l -> R x (last l d).
Proof.
  intros Hs. apply Sorted_StronglySorted in Hs; [|intros a b c; apply transitivity].
  induction Hs as [|a l Hs IH Hall]; [intros []|]. intros [<-|Hin].
  - destruct l as [|b l]; [simpl; reflexivity|].
    rewrite Forall_forall in Hall. change (last (a :: b :: l) d) with (last (b :: l) d).
    apply Hall, last_in_cons.
  - destruct l as [|b l]; [destruct Hin|]. change (last (a :: b :: l) d) with (last (b :: l) d).
    exact (IH Hin).
Qed.

End PySort.
