(* ===== verification/Timestamps.v ===== *)
(** * TimestampSet: parsing the timestamps entry

    Models the timestamp parsing of [process()] in
    [src/frame_capture2.py] (lines 107-117) and [src/frame_capture.py]
    (lines 82-92), which are the same code:
    the entry is stripped; an empty entry is refused before anything is
    parsed; otherwise it is split on commas, blank fields are dropped,
    and every other field goes through [float(ts.strip())], the first
    failure aborting the whole list. *)

From Stdlib Require Import ZArith String Ascii List Lia SpecFloat.
From S2P Require Import Prelude PyStr PyInt PyFloat.
Import ListNotations.
Open Scope string_scope.
Open Scope bool_scope.

Module Timestamps.
Import PyStr PyInt PyFloat.

(** What the parsing step of [process()] ends with. *)
Inductive ts_outcome : Type :=
  | TsOk (l : list float)          (** [timestamps] is bound, processing goes on *)
  | TsEmptyInput                   (** [if not timestamps_str]: error box, return *)
  | TsParseError (e : exn).        (** the [except] branch: log, error box, return *)

(** [ts.strip() != ""] *)
Definition nonblank (ts : string) : bool := negb (String.eqb (strip ts) EmptyString).

(** [[float(ts.strip()) for ts in s.split(",") if ts.strip() != ""]] *)
Definition timestamps_of (s : string) : res (list float) :=
  res_map (fun ts => py_float (strip ts)) (filter nonblank (split "," s)).

Definition parse_timestamps (entry : string) : ts_outcome :=
  let timestamps_str := strip entry in
  if String.eqb timestamps_str EmptyString then TsEmptyInput
  else match timestamps_of timestamps_str with
       | Ok l => TsOk l
       | Raise e => TsParseError e
       end.

(** ** Lemmas *)

Lemma res_map_raise_in {A B} (f : A -> res B) l x e :
  In x l -> f x = Raise e -> exists e', res_map f l = Raise e'.
Proof.
  induction l as [|y l IH]; simpl; [tauto|]. intros [->|Hin] Hf.
  - rewrite Hf. eauto.
  - destruct (f y); [|eauto]. destruct (IH Hin Hf) as [e' ->]. eauto.
Qed.

Lemma filter_all {A} (p : A -> bool) l : Forall (fun x => p x = true) l -> filter p l = l.
Proof. induction 1; simpl; [reflexivity|]. rewrite H. f_equal; assumption. Qed.

Lemma count_char_app c s t : count_char c (s ++ t) = (count_char c s + count_char c t)%nat.
Proof. induction s as [|d s IH]; simpl; [reflexivity|]. rewrite IH. lia. Qed.

Lemma str_of_Z_no_comma n : count_char "," (str_of_Z n) = O.
Proof. apply str_of_Z_count; [reflexivity|discriminate]. Qed.

Lemma str_of_Z_nonblank n : nonblank (str_of_Z n) = true.
Proof.
  unfold nonblank. rewrite strip_no_space by apply str_of_Z_no_space.
  destruct (str_of_Z_sign n) as (d & Hp & _ & Hne & _).
  apply parse_sign_cases in Hp as [[-> _]|[->| ->]]; [|reflexivity|reflexivity].
  destruct d; [congruence|reflexivity].
Qed.

Lemma join_ints_no_space ns : has_space (join "," (map str_of_Z ns)) = false.
Proof.
  apply join_no_space; [reflexivity|]. apply Forall_forall.
  intros p Hp. apply in_map_iff in Hp as (n & <- & _). apply str_of_Z_no_space.
Qed.

Lemma join_ints_nonempty ns : ns <> [] -> join "," (map str_of_Z ns) <> EmptyString.
Proof.
  destruct ns as [|n [|m ns]]; [congruence| |]; intros _; simpl map.
  - cbn [join]. pose proof (str_of_Z_nonblank n) as H. intros E. rewrite E in H. discriminate.
  - rewrite join_cons_cons. destruct (str_of_Z n); discriminate.
Qed.

(** ** Properties *)

(** C16: writing the integers [ns] as ["n1,n2,..."] and parsing the entry
    gives back the timestamps [float(n1), float(n2), ...] in the same
    order: the parser keeps every field, in input order, negative ones
    included. *)
Theorem parse_timestamps_ints ns : ns <> [] ->
  parse_timestamps (join "," (map str_of_Z ns)) = TsOk (map float_of_Z ns).
Proof.
  intros Hne. unfold parse_timestamps.
  rewrite strip_no_space by apply join_ints_no_space.
  rewrite (proj2 (String.eqb_neq _ _) (join_ints_nonempty ns Hne)).
  unfold timestamps_of. rewrite join_split.
  - rewrite filter_all.
    + rewrite res_map_map, (res_map_ok_map _ float_of_Z); [reflexivity|].
      intros n _. rewrite strip_no_space by apply str_of_Z_no_space. apply py_float_str_of_Z.
    + apply Forall_forall. intros p Hp. apply in_map_iff in Hp as (n & <- & _).
      apply str_of_Z_nonblank.
  - destruct ns; [congruence|discriminate].
  - apply Forall_forall. intros p Hp. apply in_map_iff in Hp as (n & <- & _).
    apply str_of_Z_no_comma.
Qed.

Lemma parse_timestamps_ints_witness :
  [-1; 5; 10]%Z <> [] /\
  parse_timestamps "-1,5,10" = TsOk (map float_of_Z [-1; 5; 10]%Z).
Proof.
  split; [discriminate|]. exact (parse_timestamps_ints [-1; 5; 10]%Z ltac:(discriminate)).
Defined.

(** C17: one non-blank field that [float()] refuses makes the whole entry
    a parse error: no timestamp of the batch is kept. *)
Theorem parse_timestamps_bad_field s p e :
  strip s <> EmptyString -> In p (split "," (strip s)) -> nonblank p = true ->
  py_float (strip p) = Raise e -> exists e', parse_timestamps s = TsParseError e'.
Proof.
  intros Hs Hin Hnb Hf. unfold parse_timestamps.
  rewrite (proj2 (String.eqb_neq _ _) Hs). unfold timestamps_of.
  destruct (res_map_raise_in (fun ts => py_float (strip ts)) (filter nonblank (split "," (strip s))) p e)
    as [e' ->]; [apply filter_In; auto | exact Hf | eauto].
Qed.

Lemma parse_timestamps_bad_field_witness : exists e', parse_timestamps "5, x ,10" = TsParseError e'.
Proof.
  apply (parse_timestamps_bad_field "5, x ,10" " x " ValueError).
  - discriminate.
  - simpl. auto.
  - reflexivity.
  - vm_compute. reflexivity.
Defined.

(** C18: an entry that is not blank but whose fields are all blank (such
    as [","]) is accepted as an empty batch: it is not a parse error. *)
Theorem parse_timestamps_only_separators s :
  strip s <> EmptyString -> Forall (fun p => nonblank p = false) (split "," (strip s)) ->
  parse_timestamps s = TsOk [].
Proof.
  intros Hs Hall. unfold parse_timestamps.
  rewrite (proj2 (String.eqb_neq _ _) Hs). unfold timestamps_of.
  assert (filter nonblank (split "," (strip s)) = []) as ->; [|reflexivity].
  induction Hall as [|p ps Hp _ IH]; simpl; [reflexivity|]. now rewrite Hp.
Qed.

Lemma parse_timestamps_only_separators_witness : parse_timestamps " , ," = TsOk [].
Proof.
  apply parse_timestamps_only_separators; [discriminate|].
  vm_compute. repeat constructor.
Defined.

End Timestamps.
