(* ===== verification/CropSpec.v ===== *)
(** * CropSpec: parsing the optional crop entry

    Models the crop parsing of [process()] in [src/frame_capture2.py]
    (lines 120-131) and [src/frame_capture.py] (lines 95-106): a blank
    entry means no crop; otherwise the stripped entry is split on commas,
    every field goes through [int(x.strip())], and a list whose length
    is not four raises [ValueError]. *)

From Stdlib Require Import ZArith String Ascii List Lia.
From S2P Require Import Prelude PyStr PyInt Timestamps.
Import ListNotations.
Open Scope string_scope.
Open Scope bool_scope.

Module CropSpec.
Import PyStr PyInt Timestamps.

(** [crop_params = parts], i.e. [[x, y, width, height]]. *)
Record crop := mk_crop { crop_x : Z; crop_y : Z; crop_w : Z; crop_h : Z }.

Inductive crop_outcome : Type :=
  | CropNone                  (** blank entry: [crop_params = None] *)
  | CropParams (c : crop)     (** [crop_params = parts] *)
  | CropParseError (e : exn). (** the [except] branch: log, error box, return *)

(** The [try] block: [parts = [int(x.strip()) for x in s.split(",")]] and
    the arity check. *)
Definition crop_parts (s : string) : res crop :=
  parts <- res_map (fun x => py_int (strip x)) (split "," s) ;;
  match parts with
  | [x; y; w; h] => Ok (mk_crop x y w h)
  | _ => Raise ValueError
  end.

Definition parse_crop (entry : string) : crop_outcome :=
  let crop_params_str := strip entry in
  if String.eqb crop_params_str EmptyString then CropNone
  else match crop_parts crop_params_str with
       | Ok c => CropParams c
       | Raise e => CropParseError e
       end.

(** The entry text of a crop, ["x,y,w,h"]. *)
Definition render_crop (c : crop) : string :=
  join "," (map str_of_Z [crop_x c; crop_y c; crop_w c; crop_h c]).

(** ** Properties *)

(** C14: every crop, negative or zero sizes included, written as
    ["x,y,w,h"], is parsed back to itself. *)
Theorem parse_crop_render c : parse_crop (render_crop c) = CropParams c.
Proof.
  destruct c as [x y w h].
  change (render_crop (mk_crop x y w h)) with (join "," (map str_of_Z [x; y; w; h])).
  unfold parse_crop.
  rewrite strip_no_space by apply join_ints_no_space.
  rewrite (proj2 (String.eqb_neq _ _) (join_ints_nonempty [x; y; w; h] ltac:(discriminate))).
  unfold crop_parts. rewrite join_split.
  - rewrite res_map_map, (res_map_ok_map _ (fun n => n)).
    + reflexivity.
    + intros n _. rewrite strip_no_space by apply str_of_Z_no_space. apply py_int_str_of_Z.
  - discriminate.
  - repeat constructor; apply str_of_Z_no_comma.
Qed.

(** C15: a crop entry is accepted only when its stripped text has exactly
    four comma-separated fields. *)
Theorem parse_crop_four_fields s c :
  parse_crop s = CropParams c -> count_char "," (strip s) = 3%nat.
Proof.
  unfold parse_crop. destruct (String.eqb (strip s) EmptyString); [discriminate|].
  unfold crop_parts. destruct (res_map _ (split "," (strip s))) as [parts|e] eqn:Hm; [|discriminate].
  apply res_map_length in Hm. rewrite split_length in Hm.
  destruct parts as [|? [|? [|? [|? [|]]]]]; try discriminate. simpl in Hm. lia.
Qed.

Lemma parse_crop_four_fields_witness :
  parse_crop " 100, 50,300 ,200 " = CropParams (mk_crop 100 50 300 200) /\
  count_char "," (strip " 100, 50,300 ,200 ") = 3%nat.
Proof.
  split; [vm_compute; reflexivity|].
  apply (parse_crop_four_fields _ (mk_crop 100 50 300 200)). vm_compute. reflexivity.
Defined.

End CropSpec.
