(* ===== verification/CropApplier.v ===== *)
(** * CropApplier: the bounds check and numpy slicing of a frame

    Models lines 146-151 of [src/frame_capture2.py] (lines 121-127 of
    [src/frame_capture.py]).  A decoded frame is a numpy array of shape
    [(height, width, 3)]; it is modelled as the list of its rows, each
    the list of its pixels, so that [frame.shape[0]] is the number of
    rows and [frame.shape[1]] the length of a row.  [frame[y:y+h, x:x+w]]
    is numpy basic slicing, i.e. Python's slice rule on each axis:
    negative bounds count from the end, bounds are clamped to the axis,
    and a stop before the start gives an empty axis. *)

From Stdlib Require Import ZArith List Lia.
From S2P Require Import Prelude CropSpec.
Import ListNotations.
Open Scope bool_scope.

Module CropApplier.
Import CropSpec.

Section Frames.
Context {Pixel : Type}.

Definition frame := list (list Pixel).

(** [frame.shape[0]] *)
Definition shape0 (f : frame) : Z := Z.of_nat (length f).

(** [frame.shape[1]]: every row of a numpy array has the same length. *)
Definition shape1 (f : frame) : Z :=
  match f with [] => 0 | r :: _ => Z.of_nat (length r) end.

(** A numpy array is rectangular: every row has [shape1] pixels. *)
Definition rectangular (f : frame) : Prop :=
  Forall (fun r => Z.of_nat (length r) = shape1 f) f.

(** [frame[i][j]], [None] out of range. *)
Definition pixel_at (f : frame) (i j : nat) : option Pixel :=
  match nth_error f i with Some r => nth_error r j | None => None end.

(** [PySlice_AdjustIndices] for one bound of a step-1 slice. *)
Definition adjust_index (i n : Z) : Z :=
  if (i <? 0)%Z then Z.max 0 (i + n) else Z.min i n.

(** [l[start:stop]] *)
Definition py_slice {A} (l : list A) (start stop : Z) : list A :=
  let n := Z.of_nat (length l) in
  let a := adjust_index start n in
  let b := adjust_index stop n in
  firstn (Z.to_nat (b - a)) (skipn (Z.to_nat a) l).

(** [frame[y:y+h, x:x+w]] *)
Definition crop_frame (f : frame) (c : crop) : frame :=
  map (fun row => py_slice row (crop_x c) (crop_x c + crop_w c))
      (py_slice f (crop_y c) (crop_y c + crop_h c)).

(** The guard of line 148:
    [x < 0 or y < 0 or x+w > frame.shape[1] or y+h > frame.shape[0]]. *)
Definition crop_out_of_bounds (c : crop) (f : frame) : bool :=
  (crop_x c <? 0)%Z || (crop_y c <? 0)%Z ||
  (shape1 f <? crop_x c + crop_w c)%Z || (shape0 f <? crop_y c + crop_h c)%Z.

(** The crop step of the loop body: the frame that is written, and
    whether the out-of-bounds message was logged.  Out of bounds, the
    message is logged and the frame is kept whole. *)
Definition apply_crop (crop_params : option crop) (f : frame) : frame * bool :=
  match crop_params with
  | None => (f, false)
  | Some c => if crop_out_of_bounds c f then (f, true) else (crop_frame f c, false)
  end.

(** ** Lemmas on slices *)

Lemma adjust_index_range i n : (0 <= n)%Z -> (0 <= adjust_index i n <= n)%Z.
Proof. intros Hn. unfold adjust_index. destruct (Z.ltb_spec i 0); lia. Qed.

Lemma adjust_index_in i n : (0 <= i <= n)%Z -> adjust_index i n = i.
Proof. intros H. unfold adjust_index. destruct (Z.ltb_spec i 0); lia. Qed.

Lemma py_slice_length {A} (l : list A) a b :
  length (py_slice l a b) =
  Z.to_nat (adjust_index b (Z.of_nat (length l)) - adjust_index a (Z.of_nat (length l))).
Proof.
  unfold py_slice. rewrite length_firstn, length_skipn.
  pose proof (adjust_index_range a (Z.of_nat (length l)) ltac:(lia)).
  pose proof (adjust_index_range b (Z.of_nat (length l)) ltac:(lia)). lia.
Qed.

Lemma py_slice_in_length {A} (l : list A) a k :
  (0 <= a)%Z -> (0 <= k)%Z -> (a + k <= Z.of_nat (length l))%Z ->
  length (py_slice l a (a + k)) = Z.to_nat k.
Proof.
  intros. rewrite py_slice_length, !adjust_index_in by lia. f_equal. lia.
Qed.

Lemma py_slice_in_nth {A} (l : list A) a k i :
  (0 <= a)%Z -> (0 <= k)%Z -> (a + k <= Z.of_nat (length l))%Z -> (i < Z.to_nat k)%nat ->
  nth_error (py_slice l a (a + k)) i = nth_error l (Z.to_nat a + i).
Proof.
  intros. unfold py_slice. rewrite !adjust_index_in by lia.
  rewrite nth_error_firstn. destruct (Nat.ltb_spec i (Z.to_nat (a + k - a))); [|lia].
  rewrite nth_error_skipn. reflexivity.
Qed.

Lemma py_slice_drop_last {A} (l : list A) : py_slice l 0 (-1) = removelast l.
Proof.
  unfold py_slice. rewrite (adjust_index_in 0) by lia.
  change (adjust_index (-1) (Z.of_nat (length l))) with (Z.max 0 (-1 + Z.of_nat (length l))).
  change (Z.to_nat 0) with O. rewrite skipn_O, removelast_firstn_len. f_equal. lia.
Qed.

Lemma crop_frame_length_rows (f : frame) c r :
  In r (crop_frame f c) -> exists r0, In r0 f /\
    r = py_slice r0 (crop_x c) (crop_x c + crop_w c).
Proof.
  unfold crop_frame. intros Hin. apply in_map_iff in Hin as (r0 & <- & Hr0).
  exists r0. split; [|reflexivity]. unfold py_slice in Hr0.
  eauto with fc.
Qed.

(** ** Properties *)

(** C12: a crop that passes the bounds check with non-negative sizes
    gives a frame of exactly [h] rows of [w] pixels. *)
Theorem crop_frame_shape (f : frame) c :
  rectangular f -> crop_out_of_bounds c f = false ->
  (0 <= crop_w c)%Z -> (0 <= crop_h c)%Z ->
  shape0 (crop_frame f c) = crop_h c /\
  Forall (fun r => Z.of_nat (length r) = crop_w c) (crop_frame f c).
Proof.
  intros Hf Hb Hw Hh. unfold crop_out_of_bounds in Hb.
  repeat rewrite Bool.orb_false_iff in Hb. destruct Hb as [[[Hx Hy] HW] HH].
  apply Z.ltb_ge in Hx, Hy, HW, HH. split.
  - unfold shape0, crop_frame. rewrite length_map, py_slice_in_length by (unfold shape0 in HH; lia). lia.
  - apply Forall_forall. intros r Hr. destruct (crop_frame_length_rows f c r Hr) as (r0 & Hin & ->).
    unfold rectangular in Hf. rewrite Forall_forall in Hf. specialize (Hf r0 Hin).
    rewrite py_slice_in_length by lia. lia.
Qed.

(** C11: inside the bounds, pixel [(i, j)] of the crop is pixel
    [(y + i, x + j)] of the frame. *)
Theorem crop_frame_pixel (f : frame) c i j :
  rectangular f -> crop_out_of_bounds c f = false ->
  (0 <= crop_w c)%Z -> (0 <= crop_h c)%Z ->
  (i < Z.to_nat (crop_h c))%nat -> (j < Z.to_nat (crop_w c))%nat ->
  pixel_at (crop_frame f c) i j = pixel_at f (Z.to_nat (crop_y c) + i) (Z.to_nat (crop_x c) + j).
Proof.
  intros Hf Hb Hw Hh Hi Hj. unfold crop_out_of_bounds in Hb.
  repeat rewrite Bool.orb_false_iff in Hb. destruct Hb as [[[Hx Hy] HW] HH].
  apply Z.ltb_ge in Hx, Hy, HW, HH. unfold shape0 in HH.
  unfold pixel_at, crop_frame. rewrite nth_error_map, py_slice_in_nth by lia.
  destruct (nth_error f (Z.to_nat (crop_y c) + i)) as [r0|] eqn:Er; [|reflexivity].
  simpl. apply nth_error_In in Er. unfold rectangular in Hf. rewrite Forall_forall in Hf.
  specialize (Hf r0 Er). rewrite py_slice_in_nth by lia. reflexivity.
Qed.

(** C13: the bounds check accepts [(0, 0, -1, -1)] for every frame, and
    Python's negative indexing turns that crop into the frame without
    its last row and last column. *)
Theorem crop_negative_size_accepted (f : frame) :
  crop_out_of_bounds (mk_crop 0 0 (-1) (-1)) f = false /\
  apply_crop (Some (mk_crop 0 0 (-1) (-1))) f = (map (@removelast Pixel) (removelast f), false).
Proof.
  assert (Hb : crop_out_of_bounds (mk_crop 0 0 (-1) (-1)) f = false).
  { unfold crop_out_of_bounds, shape0, shape1. simpl.
    destruct f as [|r f]; [reflexivity|].
    apply Bool.orb_false_iff; split; apply Z.ltb_ge; lia. }
  split; [exact Hb|]. unfold apply_crop. rewrite Hb. f_equal.
  unfold crop_frame. simpl. rewrite py_slice_drop_last.
  apply map_ext. intros r. apply py_slice_drop_last.
Qed.

End Frames.

Definition sample_frame : list (list nat) := [[1; 2; 3; 4]; [5; 6; 7; 8]; [9; 10; 11; 12]].

Lemma crop_frame_shape_witness :
  shape0 (crop_frame sample_frame (mk_crop 1 1 2 2)) = 2%Z /\
  Forall (fun r => Z.of_nat (length r) = 2%Z) (crop_frame sample_frame (mk_crop 1 1 2 2)).
Proof.
  apply (crop_frame_shape sample_frame (mk_crop 1 1 2 2)); [repeat constructor|reflexivity|simpl; lia|simpl; lia].
Defined.

Lemma crop_frame_pixel_witness :
  pixel_at (crop_frame sample_frame (mk_crop 1 1 2 2)) 1 0 = pixel_at sample_frame 2 1.
Proof.
  apply (crop_frame_pixel sample_frame (mk_crop 1 1 2 2) 1 0);
    [repeat constructor|reflexivity|simpl; lia|simpl; lia|simpl; lia|simpl; lia].
Defined.

(** The bounds examples of the specification, on a 640x480 frame. *)
Example crop_bounds_640x480 :
  let f := repeat (repeat 0 640) 480 in
  crop_out_of_bounds (mk_crop 0 0 640 480) f = false /\
  crop_out_of_bounds (mk_crop 0 0 641 480) f = true /\
  crop_out_of_bounds (mk_crop (-1) 0 10 10) f = true.
Proof. vm_compute. repeat split. Qed.

End CropApplier.
