(* ===== verification/FrameSource.v ===== *)
(** * FrameSource: the [cv2.VideoCapture] decode session

    The code opens the downloaded file with [cv2.VideoCapture(path)],
    checks [cap.isOpened()], and for every timestamp calls
    [cap.set(cv2.CAP_PROP_POS_MSEC, ts * 1000)] then [cap.read()]; it
    calls [cap.release()] once after the loop
    ([src/frame_capture2.py] lines 134-158).  OpenCV is a library the
    sources only call: its decode session is an interface, the class
    [VideoCapture], whose state and operations the pipeline is proved
    against for every implementation.  [ListCapture] is one
    implementation, an idealised decoder over a list of timestamped
    frames with exact seeking, used to run the pipeline on examples. *)

From Stdlib Require Import ZArith List Lia SpecFloat.
From S2P Require Import Prelude PyFloat CropApplier.
Import ListNotations.

Module FrameSource.
Import PyFloat CropApplier.

(** [Video] is the content of a video file, [Pixel] a pixel of a decoded
    frame. *)
Class VideoCapture (Video Pixel : Type) := {
  cap_t : Type;
  (** [cv2.VideoCapture(path)], given the file found at [path], if any *)
  cap_open : option Video -> cap_t;
  (** [cap.isOpened()] *)
  cap_isOpened : cap_t -> bool;
  (** [cap.set(cv2.CAP_PROP_POS_MSEC, msec)] (its result is unused) *)
  cap_set_msec : cap_t -> float -> cap_t;
  (** [ret, frame = cap.read()]: [None] when [ret] is false *)
  cap_read : cap_t -> cap_t * option (@frame Pixel);
  (** [cap.release()] *)
  cap_release : cap_t -> cap_t
}.

(** ** An idealised implementation *)

(** A video: its frames with their presentation times in milliseconds,
    in increasing order. *)
Record list_video (Pixel : Type) := mk_video { frames : list (Z * @frame Pixel) }.
Arguments mk_video {Pixel} frames.
Arguments frames {Pixel} _.

Record list_cap (Pixel : Type) := mk_cap {
  lc_video : option (list_video Pixel);
  lc_pos : nat;        (** index of the next frame [read] returns *)
  lc_released : bool
}.
Arguments mk_cap {Pixel} lc_video lc_pos lc_released.
Arguments lc_video {Pixel} _.
Arguments lc_pos {Pixel} _.
Arguments lc_released {Pixel} _.

(** The index of the first frame at or after [msec]. *)
Fixpoint seek_index {Pixel} (fs : list (Z * @frame Pixel)) (msec : float) : nat :=
  match fs with
  | [] => O
  | (t, _) :: fs' =>
      if SFleb msec (float_of_Z t) then O else S (seek_index fs' msec)
  end.

#[export] Instance ListCapture (Pixel : Type) : VideoCapture (list_video Pixel) Pixel := {
  cap_t := list_cap Pixel;
  cap_open v := mk_cap v O false;
  cap_isOpened c := match lc_video c with Some _ => negb (lc_released c) | None => false end;
  cap_set_msec c msec :=
    match lc_video c with
    | Some v => mk_cap (Some v) (seek_index (frames v) msec) (lc_released c)
    | None => c
    end;
  cap_read c :=
    match lc_video c with
    | Some v =>
        if lc_released c then (c, None)
        else match nth_error (frames v) (lc_pos c) with
             | Some (_, f) => (mk_cap (Some v) (S (lc_pos c)) false, Some f)
             | None => (c, None)
             end
    | None => (c, None)
    end;
  cap_release c := mk_cap (lc_video c) (lc_pos c) true
}.

End FrameSource.
