(* ===== verification/Formats.v ===== *)
(** * Acquisition: the yt-dlp format records

    [fetch_video_info] in [src/frame_capture2.py] reads the [formats]
    list of the info dict that yt-dlp returns; each format is a dict
    whose keys the code reads with [fmt.get(key)] or
    [fmt.get(key, default)].  A key can be missing, present with value
    [None], or present with a value: [field] keeps the three apart, since
    [get] with a default distinguishes them. *)

From Stdlib Require Import ZArith String List SpecFloat.
From S2P Require Import Prelude PyFloat.
Import ListNotations.

Module Formats.
Import PyFloat.

Inductive field (A : Type) : Type :=
  | Absent
  | NoneVal
  | Val (a : A).
Arguments Absent {A}.
Arguments NoneVal {A}.
Arguments Val {A} a.

(** The keys of a yt-dlp format dict that the code reads. *)
Record fmt := mk_fmt {
  format_id : field string;
  vcodec : field string;
  acodec : field string;
  ext : field string;
  height : field Z;
  tbr : field float
}.

(** The info dict of [ydl.extract_info(url, download=False)]: its
    [formats] list and its [title]. *)
Record info := mk_info {
  info_formats : field (list fmt);
  info_title : field string
}.

(** [d.get(key)]: [None] when the key is missing or holds [None]. *)
Definition get {A} (f : field A) : option A :=
  match f with Val a => Some a | _ => None end.

End Formats.
