(* ===== verification/Pipeline.v ===== *)
(** * ExtractionPipeline: the [process()] thread of both front-ends

    [process()] is the body of the thread that the "Download dan Capture
    Frame" button starts.  In [src/frame_capture2.py] (lines 74-165) it
    checks the URL entry and the fetched info, looks the selected
    resolution up, downloads the video with yt-dlp, parses the timestamp
    and crop entries, opens the file with OpenCV, runs the capture loop
    over the timestamps, releases the capture, deletes the video and logs
    the end.  In [src/frame_capture.py] (lines 62-141) the same body
    follows a lookup of the undefined name [selected_res].

    Effects are explicit: a run is a function of the world (the working
    directory and the trace of the calls the thread makes to the log, the
    message boxes, yt-dlp and OpenCV) in the small state-and-exception
    monad [M]; an exception that escapes [process()] ends the thread. *)

From stdpp Require Import gmap strings.
From Stdlib Require Import ZArith String Ascii List Lia SpecFloat.
From S2P Require Import Prelude PyStr PyInt PyFloat Timestamps CropSpec CropApplier FrameSource Formats.
Import ListNotations.
Open Scope string_scope.
Open Scope bool_scope.
Open Scope list_scope.

Module Pipeline.
Import PyStr PyInt PyFloat Timestamps CropSpec CropApplier FrameSource Formats.

(** [cv2.imwrite] reports through its return value whether the encoder
    and the file write succeeded (for a non-empty image). *)
Class ImageWriter (Pixel : Type) := {
  imwrite_ok : string -> @frame Pixel -> bool
}.

(** The messages of [log_message], with the values they format. *)
Inductive log_msg : Type :=
  | LDownloading | LDownloaded | LDownloadError
  | LTsParseError | LCropParseError | LOpenError
  | LCropOOB (ts : float)
  | LSaved (ts : float) (name : string)
  | LReadFailed (ts : float)
  | LVideoDeleted | LDone
  | LFetching | LFetchOk | LTitle (title : string) | LNoFormats | LNoStreams | LFetchError.

(** The [messagebox.showerror] calls. *)
Inductive box_msg : Type :=
  | BNoUrl | BNoInfo | BBadResolution | BDownloadFailed
  | BNoTimestamp | BBadTimestamps | BBadCrop | BOpenFailed
  | BFetchFailed | BNoFormats.

Section Pipeline.
Context {Video Pixel : Type} `{VC : VideoCapture Video Pixel} `{IW : ImageWriter Pixel}.

Inductive file : Type :=
  | FVideo (v : Video)
  | FImage (img : @frame Pixel).

(** The calls the thread makes, in order. *)
Inductive event : Type :=
  | ELog (m : log_msg)
  | EBox (b : box_msg)
  | EDownload (url : string) (format : option string)
  | EOpen (path : string)
  | ESetPos (msec : float)
  | ERead
  | EWrite (name : string)
  | ERelease
  | ERemove (path : string).

Record world := mk_world {
  fs : gmap string file;     (** the working directory *)
  trace : list event         (** the calls made so far, oldest first *)
}.

(** ** The state-and-exception monad *)

Definition M (A : Type) : Type := world -> res A * world.

Definition mret {A} (a : A) : M A := fun w => (Ok a, w).
Definition mbind {A B} (m : M A) (k : A -> M B) : M B :=
  fun w => match m w with
           | (Ok a, w') => k a w'
           | (Raise e, w') => (Raise e, w')
           end.
Definition mraise {A} (e : exn) : M A := fun w => (Raise e, w).

Definition emit (ev : event) : M unit :=
  fun w => (Ok tt, mk_world (fs w) (trace w ++ [ev])).
Definition get_file (path : string) : M (option file) := fun w => (Ok (fs w !! path), w).
Definition put_file (path : string) (f : file) : M unit :=
  fun w => (Ok tt, mk_world (<[path := f]> (fs w)) (trace w)).
(** [os.remove(path)]: [FileNotFoundError] when the file is gone. *)
Definition remove_file (path : string) : M unit :=
  fun w => match fs w !! path with
           | Some _ => (Ok tt, mk_world (delete path (fs w)) (trace w ++ [ERemove path]))
           | None => (Raise FileNotFoundError, mk_world (fs w) (trace w ++ [ERemove path]))
           end.

(** The directory after yt-dlp has fetched [f] for the output template
    [path]: under its default [overwrites] option a file already at
    [path] is kept ("has already been downloaded"), and [f] is written
    only when the path is free. *)
Definition stored (d : gmap string file) (path : string) (f : file) : gmap string file :=
  match d !! path with
  | Some _ => d
  | None => <[path := f]> d
  end.

(** The file step of [ydl.download([url])] with [outtmpl = path]. *)
Definition ydl_store (path : string) (f : file) : M unit :=
  fun w => (Ok tt, mk_world (stored (fs w) path f) (trace w)).

End Pipeline.

Declare Scope pipe_scope.
Delimit Scope pipe_scope with pipe.
Notation "'let*' x := m 'in' k" := (mbind m (fun x => k))
  (at level 10, x name, m at level 100, k at level 200) : pipe_scope.
Notation "'let*' ' pat := m 'in' k" := (mbind m (fun x => match x with pat => k end))
  (at level 10, pat pattern, m at level 100, k at level 200) : pipe_scope.
Notation "'do' m ; k" := (mbind m (fun _ => k))
  (at level 10, m at level 100, k at level 200) : pipe_scope.
Open Scope pipe_scope.

Section Process.
Context {Video Pixel : Type} `{VC : VideoCapture Video Pixel} `{IW : ImageWriter Pixel}.

#[local] Abbreviation M := (@M Video Pixel).
#[local] Abbreviation emit := (@emit Video Pixel).

(** [f"frame_{frame_count+1}_at_{ts:.2f}s.jpg"] with [n = frame_count+1]. *)
Definition frame_filename (n : Z) (ts : float) : string :=
  ("frame_" ++ str_of_Z n ++ "_at_" ++ format_2f ts ++ "s.jpg")%string.

(** A numpy array with a zero dimension is an empty [cv::Mat]. *)
Definition frame_empty (f : @frame Pixel) : bool :=
  (shape0 f =? 0)%Z || (shape1 f =? 0)%Z.

(** [cv2.imwrite(name, frame)]: an empty image fails OpenCV's assertion
    and raises [cv2.error]; otherwise the file is written when the encoder
    succeeds, and the boolean result is dropped by the caller. *)
Definition imwrite (name : string) (f : @frame Pixel) : M unit :=
  do emit (EWrite name);
  if frame_empty f then mraise CvError
  else if imwrite_ok name f then put_file name (FImage f) else mret tt.

(** One pass of the loop body, lines 142-157, for the timestamp [ts]:
    returns the capture and the new [frame_count]. *)
Definition capture_one (crop_params : option crop) (ts : float) (cap : cap_t) (frame_count : Z)
    : M (cap_t * Z) :=
  let msec := mul_int ts 1000 in
  do emit (ESetPos msec);
  let cap := cap_set_msec cap msec in
  do emit ERead;
  let '(cap, r) := cap_read cap in
  match r with
  | Some frame =>
      let '(frame, oob) := apply_crop crop_params frame in
      do (if oob then emit (ELog (LCropOOB ts)) else mret tt);
      let name := frame_filename (frame_count + 1) ts in
      do imwrite name frame;
      do emit (ELog (LSaved ts name));
      mret (cap, (frame_count + 1)%Z)
  | None =>
      do emit (ELog (LReadFailed ts));
      mret (cap, frame_count)
  end.

(** The [for ts in timestamps] loop, lines 141-157. *)
Fixpoint capture_loop (crop_params : option crop) (timestamps : list float)
    (cap : cap_t) (frame_count : Z) : M (cap_t * Z) :=
  match timestamps with
  | [] => mret (cap, frame_count)
  | ts :: rest =>
      let* '(cap, frame_count) := capture_one crop_params ts cap frame_count in
      capture_loop crop_params rest cap frame_count
  end.

Definition video_of (f : option (@file Video Pixel)) : option Video :=
  match f with Some (FVideo v) => Some v | _ => None end.

(** Lines 158-165: [cap.release()], remove the video if it exists, log
    the end. *)
Definition finish (video_filename : string) (cap : cap_t) : M unit :=
  let _ := cap_release cap in
  do emit ERelease;
  let* g := get_file video_filename in
  do (match g with
      | Some _ => do remove_file video_filename; emit (ELog LVideoDeleted)
      | None => mret tt
      end);
  emit (ELog LDone).

(** Lines 133-165: open, check, loop, then [finish]. *)
Definition extract (video_filename : string) (timestamps : list float)
    (crop_params : option crop) : M unit :=
  let* f := get_file video_filename in
  do emit (EOpen video_filename);
  let cap := cap_open (video_of f) in
  if negb (cap_isOpened cap) then
    do emit (ELog LOpenError); emit (EBox BOpenFailed)
  else
    let* '(cap, _) := capture_loop crop_params timestamps cap 0 in
    finish video_filename cap.

(** Lines 106-131: the timestamp and crop entries, then [k]. *)
Definition parse_entries (timestamps_entry crop_entry : string)
    (k : list float -> option crop -> M unit) : M unit :=
  match parse_timestamps timestamps_entry with
  | TsEmptyInput => emit (EBox BNoTimestamp)
  | TsParseError _ => do emit (ELog LTsParseError); emit (EBox BBadTimestamps)
  | TsOk timestamps =>
      match parse_crop crop_entry with
      | CropParseError _ => do emit (ELog LCropParseError); emit (EBox BBadCrop)
      | CropNone => k timestamps None
      | CropParams c => k timestamps (Some c)
      end
  end.

(** The entries of the window, read by the thread. *)
Record inputs := mk_inputs {
  url_entry : string;
  resolution_var : string;
  timestamps_entry : string;
  crop_entry : string
}.

(** The globals of [src/frame_capture2.py] that [process()] reads. *)
Record globals2 := mk_globals2 {
  video_info : option info;
  formats_available : gmap string fmt
}.

(** [ydl.download([url])] with the chosen [format_id]: the video it
    fetches, or the exception yt-dlp raises.  What reaches the disk is
    decided by [ydl_store]: when the output file is already there yt-dlp
    only extracts the info, and [Raise] then stands for that failure. *)
Variable ydl_download : string -> option string -> res Video.

(** Lines 97-165: [ydl.download([url])], then the entries and the
    extraction ([te], [ce] are the timestamp and crop entries). *)
Definition download_then_extract (url : string) (format_id : option string) (te ce : string) : M unit :=
  let video_filename := "downloaded_video.mp4" in
  do emit (EDownload url format_id);
  match ydl_download url format_id with
  | Raise _ => do emit (ELog LDownloadError); emit (EBox BDownloadFailed)
  | Ok v =>
      do ydl_store video_filename (FVideo v);
      do emit (ELog LDownloaded);
      parse_entries te ce (extract video_filename)
  end.

(** [process()] of [src/frame_capture2.py], lines 74-165. *)
Definition process2 (g : globals2) (inp : inputs) : M unit :=
  let url := strip (url_entry inp) in
  if String.eqb url "" then emit (EBox BNoUrl) else
  match video_info g with
  | None => emit (EBox BNoInfo)
  | Some _ =>
      let selected_resolution := resolution_var inp in
      match formats_available g !! selected_resolution with
      | None => emit (EBox BBadResolution)
      | Some chosen_format =>
          let format_id := get (format_id chosen_format) in
          do emit (ELog LDownloading);
          download_then_extract url format_id (timestamps_entry inp) (crop_entry inp)
      end
  end.

(** The globals of [src/frame_capture.py] that [process()] reads: the
    pytube object and the streams by resolution. *)
Context {Stream : Type}.
Record globals1 := mk_globals1 {
  yt_obj : option unit;
  streams_available : gmap string Stream
}.

(** [stream.download(filename=video_filename)] *)
Variable stream_download : Stream -> res Video.

(** Evaluating the name [selected_res], which [src/frame_capture.py]
    never binds: [NameError]. *)
Definition selected_res : M string := mraise NameError.

(** [process()] of [src/frame_capture.py], lines 62-141. *)
Definition process1 (g : globals1) (inp : inputs) : M unit :=
  let url := strip (url_entry inp) in
  if String.eqb url "" then emit (EBox BNoUrl) else
  match yt_obj g with
  | None => emit (EBox BNoInfo)
  | Some _ =>
      let* sel := selected_res in
      match streams_available g !! sel with
      | None => mraise KeyError
      | Some stream =>
          let video_filename := "download_video.mp4" in
          do emit (ELog LDownloading);
          match stream_download stream with
          | Raise _ => do emit (ELog LDownloadError); emit (EBox BDownloadFailed)
          | Ok v =>
              do put_file video_filename (FVideo v);
              do emit (ELog LDownloaded);
              parse_entries (timestamps_entry inp) (crop_entry inp) (extract video_filename)
          end
      end
  end.

(** ** The capture loop, unrolled

    The decoder is only touched by [cap.set] and [cap.read], and nothing
    else in the loop body depends on its state: the reads the loop makes
    are those of [decode_all], and the loop is the per-timestamp trace
    [loop_events] over the pairs (timestamp, read). *)

(** The results of [cap.set(...); cap.read()] for each timestamp in turn,
    and the final capture. *)
Fixpoint decode_all (cap : cap_t) (timestamps : list float) : list (option (@frame Pixel)) * cap_t :=
  match timestamps with
  | [] => ([], cap)
  | ts :: rest =>
      let '(cap, r) := cap_read (cap_set_msec cap (mul_int ts 1000)) in
      let '(rs, cap) := decode_all cap rest in
      (r :: rs, cap)
  end.

(** The calls of the loop for reads [items], numbering from [n]. *)
Fixpoint loop_events (c : option crop) (n : Z) (items : list (float * option (@frame Pixel)))
    : list event :=
  match items with
  | [] => []
  | (ts, None) :: rest =>
      [ESetPos (mul_int ts 1000); ERead; ELog (LReadFailed ts)] ++ loop_events c n rest
  | (ts, Some f) :: rest =>
      [ESetPos (mul_int ts 1000); ERead] ++
      (if snd (apply_crop c f) then [ELog (LCropOOB ts)] else []) ++
      [EWrite (frame_filename (n + 1) ts); ELog (LSaved ts (frame_filename (n + 1) ts))] ++
      loop_events c (n + 1) rest
  end.

(** The files the loop leaves, from the directory [d]. *)
Fixpoint loop_files (c : option crop) (n : Z) (items : list (float * option (@frame Pixel)))
    (d : gmap string (@file Video Pixel)) : gmap string (@file Video Pixel) :=
  match items with
  | [] => d
  | (ts, None) :: rest => loop_files c n rest d
  | (ts, Some f) :: rest =>
      let f' := fst (apply_crop c f) in
      let name := frame_filename (n + 1) ts in
      loop_files c (n + 1) rest (if imwrite_ok name f' then <[name := FImage f']> d else d)
  end.

Definition count_some {A} (l : list (option A)) : Z :=
  Z.of_nat (length (filter (fun o => match o with Some _ => true | None => false end) l)).

(** No frame the loop would write is empty (after the crop). *)
Definition writes_nonempty (c : option crop) (reads : list (option (@frame Pixel))) : Prop :=
  Forall (fun r => match r with Some f => frame_empty (fst (apply_crop c f)) = false | None => True end) reads.

Lemma decode_all_length cap tss : length (fst (decode_all cap tss)) = length tss.
Proof.
  revert cap; induction tss as [|ts tss IH]; intros cap; simpl; [reflexivity|].
  destruct (cap_read _) as [cap1 r]. specialize (IH cap1).
  destruct (decode_all cap1 tss). simpl in *. now rewrite IH.
Qed.

Lemma count_some_Some {A} (x : A) l : count_some (Some x :: l) = (1 + count_some l)%Z.
Proof. unfold count_some. simpl. lia. Qed.

Lemma count_some_None {A} (l : list (option A)) : count_some (None :: l) = count_some l.
Proof. reflexivity. Qed.

Lemma decode_all_cons cap ts tss cap1 r :
  cap_read (cap_set_msec cap (mul_int ts 1000)) = (cap1, r) ->
  decode_all cap (ts :: tss) = (r :: fst (decode_all cap1 tss), snd (decode_all cap1 tss)).
Proof. intros E. simpl. rewrite E. now destruct (decode_all cap1 tss). Qed.

Lemma mbind_emit {A} ev (k : unit -> M A) w :
  mbind (emit ev) k w = k tt (mk_world (fs w) (trace w ++ [ev])).
Proof. reflexivity. Qed.

Lemma mbind_mret {A B} (a : A) (k : A -> M B) w : mbind (mret a) k w = k a w.
Proof. reflexivity. Qed.

Lemma mbind_assoc {A B C} (m : M A) (k1 : A -> M B) (k2 : B -> M C) w :
  mbind (mbind m k1) k2 w = mbind m (fun a => mbind (k1 a) k2) w.
Proof. unfold mbind. destruct (m w) as [[a|e] w']; reflexivity. Qed.

Lemma mbind_remove {A} path (k : unit -> M A) w f : fs w !! path = Some f ->
  mbind (remove_file path) k w = k tt (mk_world (delete path (fs w)) (trace w ++ [ERemove path])).
Proof. intros Hf. unfold mbind, remove_file. now rewrite Hf. Qed.

Lemma imwrite_run {A} name f (k : unit -> M A) w : frame_empty f = false ->
  mbind (imwrite name f) k w =
  k tt (mk_world (if imwrite_ok name f then <[name := FImage f]> (fs w) else fs w)
                 (trace w ++ [EWrite name])).
Proof.
  intros He. unfold imwrite. rewrite mbind_assoc, mbind_emit, He. simpl.
  destruct (imwrite_ok name f); reflexivity.
Qed.

Lemma imwrite_raise {A} name f (k : unit -> M A) w : frame_empty f = true ->
  mbind (imwrite name f) k w = (Raise CvError, mk_world (fs w) (trace w ++ [EWrite name])).
Proof. intros He. unfold imwrite. rewrite mbind_assoc, mbind_emit, He. reflexivity. Qed.

(** One pass of the body on a frame that is read and not empty. *)
Lemma capture_one_saved c ts cap cap1 f n w :
  cap_read (cap_set_msec cap (mul_int ts 1000)) = (cap1, Some f) ->
  frame_empty (fst (apply_crop c f)) = false ->
  capture_one c ts cap n w =
  (Ok (cap1, (n + 1)%Z),
   mk_world (if imwrite_ok (frame_filename (n + 1) ts) (fst (apply_crop c f))
             then <[frame_filename (n + 1) ts := FImage (fst (apply_crop c f))]> (fs w) else fs w)
            (trace w ++ [ESetPos (mul_int ts 1000); ERead] ++
             (if snd (apply_crop c f) then [ELog (LCropOOB ts)] else []) ++
             [EWrite (frame_filename (n + 1) ts); ELog (LSaved ts (frame_filename (n + 1) ts))])).
Proof.
  intros Er He. unfold capture_one. rewrite !mbind_emit. cbn zeta. rewrite Er.
  destruct (apply_crop c f) as [f' oob]. simpl in He |- *.
  destruct oob; rewrite ?mbind_emit, ?mbind_mret, imwrite_run, mbind_emit by exact He;
  unfold mret; simpl; repeat rewrite <- app_assoc; reflexivity.
Qed.

(** One pass of the body on a timestamp whose read fails. *)
Lemma capture_one_failed c ts cap cap1 n w :
  cap_read (cap_set_msec cap (mul_int ts 1000)) = (cap1, None) ->
  capture_one c ts cap n w =
  (Ok (cap1, n), mk_world (fs w) (trace w ++ [ESetPos (mul_int ts 1000); ERead; ELog (LReadFailed ts)])).
Proof.
  intros Er. unfold capture_one. rewrite !mbind_emit. cbn zeta. rewrite Er.
  rewrite mbind_emit. unfold mret. simpl. repeat rewrite <- app_assoc. reflexivity.
Qed.

(** One pass of the body on a frame whose crop is empty. *)
Lemma capture_one_empty_write c ts cap cap1 f n w :
  cap_read (cap_set_msec cap (mul_int ts 1000)) = (cap1, Some f) ->
  frame_empty (fst (apply_crop c f)) = true ->
  capture_one c ts cap n w =
  (Raise CvError,
   mk_world (fs w) (trace w ++ [ESetPos (mul_int ts 1000); ERead] ++
                    (if snd (apply_crop c f) then [ELog (LCropOOB ts)] else []) ++
                    [EWrite (frame_filename (n + 1) ts)])).
Proof.
  intros Er He. unfold capture_one. rewrite !mbind_emit. cbn zeta. rewrite Er.
  destruct (apply_crop c f) as [f' oob]. simpl in He |- *.
  destruct oob; rewrite ?mbind_emit, ?mbind_mret, imwrite_raise by exact He;
  simpl; app_norm; reflexivity.
Qed.

(** One iteration of the loop on a frame that is read and written. *)
Lemma capture_loop_saved c ts tss cap cap1 f n w :
  cap_read (cap_set_msec cap (mul_int ts 1000)) = (cap1, Some f) ->
  frame_empty (fst (apply_crop c f)) = false ->
  capture_loop c (ts :: tss) cap n w =
  capture_loop c tss cap1 (n + 1)
    (mk_world (if imwrite_ok (frame_filename (n + 1) ts) (fst (apply_crop c f))
               then <[frame_filename (n + 1) ts := FImage (fst (apply_crop c f))]> (fs w) else fs w)
              (trace w ++ [ESetPos (mul_int ts 1000); ERead] ++
               (if snd (apply_crop c f) then [ELog (LCropOOB ts)] else []) ++
               [EWrite (frame_filename (n + 1) ts); ELog (LSaved ts (frame_filename (n + 1) ts))])).
Proof.
  intros Er He. cbn [capture_loop]. unfold mbind at 1. rewrite (capture_one_saved _ _ _ _ _ _ _ Er He).
  reflexivity.
Qed.

(** One iteration of the loop on a timestamp whose read fails. *)
Lemma capture_loop_failed c ts tss cap cap1 n w :
  cap_read (cap_set_msec cap (mul_int ts 1000)) = (cap1, None) ->
  capture_loop c (ts :: tss) cap n w =
  capture_loop c tss cap1 n
    (mk_world (fs w) (trace w ++ [ESetPos (mul_int ts 1000); ERead; ELog (LReadFailed ts)])).
Proof.
  intros Er. cbn [capture_loop]. unfold mbind at 1. rewrite (capture_one_failed _ _ _ _ _ _ Er).
  reflexivity.
Qed.

(** The loop, run to its end when no write is empty. *)
Lemma capture_loop_run c tss cap n w :
  writes_nonempty c (fst (decode_all cap tss)) ->
  capture_loop c tss cap n w =
  (Ok (snd (decode_all cap tss), n + count_some (fst (decode_all cap tss)))%Z,
   mk_world (loop_files c n (combine tss (fst (decode_all cap tss))) (fs w))
            (trace w ++ loop_events c n (combine tss (fst (decode_all cap tss))))).
Proof.
  revert cap n w; induction tss as [|ts tss IH]; intros cap n w Hne.
  - unfold count_some. simpl. rewrite app_nil_r, Z.add_0_r. destruct w; reflexivity.
  - destruct (cap_read (cap_set_msec cap (mul_int ts 1000))) as [cap1 [f|]] eqn:Er;
    rewrite (decode_all_cons _ _ _ _ _ Er) in *; cbn [fst snd combine] in *;
    apply Forall_cons_iff in Hne as [Hr Hrs].
    + rewrite (capture_loop_saved _ _ _ _ _ _ _ _ Er Hr), IH by exact Hrs.
      rewrite count_some_Some, Z.add_assoc. app_norm. reflexivity.
    + rewrite (capture_loop_failed _ _ _ _ _ _ _ Er), IH by exact Hrs. app_norm. reflexivity.
Qed.

(** ** Projections of the trace *)

(** The names passed to [cv2.imwrite], in order. *)
Definition written_names (tr : list event) : list string :=
  flat_map (fun e => match e with EWrite name => [name] | _ => [] end) tr.

(** The timestamps whose outcome is logged ([saved] or [gagal]), in order. *)
Definition reported (tr : list event) : list float :=
  flat_map (fun e => match e with
                     | ELog (LSaved ts _) | ELog (LReadFailed ts) => [ts]
                     | _ => []
                     end) tr.

(** The timestamps whose frame was read, in order. *)
Definition successes (items : list (float * option (@frame Pixel))) : list float :=
  flat_map (fun it => match snd it with Some _ => [fst it] | None => [] end) items.

(** The names [frame_{n+1}_at_..], [frame_{n+2}_at_..], ... for [l]. *)
Definition numbered (n : Z) (l : list float) : list string :=
  map (fun kt => frame_filename (fst kt) (snd kt))
      (combine (map (fun i => n + 1 + Z.of_nat i)%Z (seq 0 (length l))) l).

Lemma written_names_app t1 t2 : written_names (t1 ++ t2) = written_names t1 ++ written_names t2.
Proof. apply flat_map_app. Qed.

Lemma reported_app t1 t2 : reported (t1 ++ t2) = reported t1 ++ reported t2.
Proof. apply flat_map_app. Qed.

Lemma numbered_cons n ts l : numbered n (ts :: l) = frame_filename (n + 1) ts :: numbered (n + 1) l.
Proof.
  unfold numbered. simpl. rewrite Z.add_0_r. f_equal.
  rewrite <- seq_shift, map_map. f_equal. f_equal. apply map_ext. intros i. lia.
Qed.

Lemma loop_events_written c n items :
  written_names (loop_events c n items) = numbered n (successes items).
Proof.
  revert n; induction items as [|[ts [f|]] items IH]; intros n; simpl; [reflexivity| |exact (IH n)].
  rewrite written_names_app. destruct (snd (apply_crop c f)); simpl;
  rewrite numbered_cons, IH; reflexivity.
Qed.

Lemma loop_events_reported c n items : reported (loop_events c n items) = map fst items.
Proof.
  revert n; induction items as [|[ts [f|]] items IH]; intros n; simpl; [reflexivity| |now rewrite IH].
  rewrite reported_app. destruct (snd (apply_crop c f)); simpl; now rewrite IH.
Qed.

Lemma map_fst_combine {A B} (l1 : list A) (l2 : list B) :
  length l1 = length l2 -> map fst (combine l1 l2) = l1.
Proof.
  revert l2; induction l1 as [|x l1 IH]; intros [|y l2] H; simpl in *; try discriminate; [reflexivity|].
  f_equal. apply IH. lia.
Qed.

Lemma digits_before_underscore a b x y :
  all_digits a = true -> all_digits b = true ->
  (a ++ String "_"%char x = b ++ String "_"%char y)%string -> a = b.
Proof.
  revert b; induction a as [|c a IH]; intros [|d b] Ha Hb H; simpl in *; try reflexivity.
  - injection H as Hd _. subst d. discriminate Hb.
  - injection H as Hc _. subst c. discriminate Ha.
  - apply andb_prop in Ha as [_ Ha]. apply andb_prop in Hb as [_ Hb].
    injection H as -> H. f_equal. exact (IH b Ha Hb H).
Qed.

(** Two file names of one numbering agree only if their numbers do. *)
Lemma frame_filename_inj k1 k2 t1 t2 : (0 <= k1)%Z -> (0 <= k2)%Z ->
  frame_filename k1 t1 = frame_filename k2 t2 -> k1 = k2.
Proof.
  intros H1 H2 H. unfold frame_filename in H.
  injection H as H. simpl in H. apply str_of_Z_inj.
  apply (digits_before_underscore _ _ _ _ (str_of_Z_nonneg_digits _ H1) (str_of_Z_nonneg_digits _ H2) H).
Qed.

Lemma in_numbered n l name : In name (numbered n l) ->
  exists k ts, name = frame_filename k ts /\ (n < k)%Z.
Proof.
  revert n; induction l as [|ts l IH]; intros n Hin; [destruct Hin|].
  rewrite numbered_cons in Hin. destruct Hin as [<-|Hin].
  - exists (n + 1)%Z, ts. split; [reflexivity|lia].
  - destruct (IH _ Hin) as (k & t & -> & Hk). exists k, t. split; [reflexivity|lia].
Qed.

Lemma numbered_nodup n l : (0 <= n)%Z -> NoDup (numbered n l).
Proof.
  revert n; induction l as [|ts l IH]; intros n Hn; [constructor|].
  rewrite numbered_cons. constructor; [|apply IH; lia].
  intros Hin. apply in_numbered in Hin as (k & t & Heq & Hk).
  apply frame_filename_inj in Heq; lia.
Qed.

(** ** Properties of the capture loop *)

(** C2: when no frame to write is empty, the loop runs to its end and
    names the written files [frame_1_at_..], [frame_2_at_..], ... after
    the timestamps whose frame was read, in order: a failed read does not
    use up a number. *)
Theorem capture_loop_numbering c tss cap w :
  writes_nonempty c (fst (decode_all cap tss)) ->
  exists w', capture_loop c tss cap 0 w =
    (Ok (snd (decode_all cap tss), count_some (fst (decode_all cap tss))), w') /\
    written_names (trace w') =
      written_names (trace w) ++ numbered 0 (successes (combine tss (fst (decode_all cap tss)))).
Proof.
  intros Hne. rewrite capture_loop_run by exact Hne. eexists. split; [reflexivity|].
  simpl. rewrite written_names_app, loop_events_written. reflexivity.
Qed.

(** C3: when no frame to write is empty, every timestamp gets exactly one
    outcome line in the log (saved or failed), in the order of the
    timestamps. *)
Theorem capture_loop_reports c tss cap n w :
  writes_nonempty c (fst (decode_all cap tss)) ->
  exists r w', capture_loop c tss cap n w = (Ok r, w') /\
    reported (trace w') = reported (trace w) ++ tss.
Proof.
  intros Hne. rewrite capture_loop_run by exact Hne. do 2 eexists. split; [reflexivity|].
  simpl. rewrite reported_app, loop_events_reported, map_fst_combine; [reflexivity|].
  symmetry. apply decode_all_length.
Qed.

(** C4: within one run no two [cv2.imwrite] calls get the same file
    name, even for timestamps that format to the same two decimals: the
    running number keeps the names apart. *)
Theorem capture_loop_names_distinct c tss cap w :
  writes_nonempty c (fst (decode_all cap tss)) ->
  exists r w' names, capture_loop c tss cap 0 w = (Ok r, w') /\
    written_names (trace w') = written_names (trace w) ++ names /\ NoDup names.
Proof.
  intros Hne. rewrite capture_loop_run by exact Hne. do 3 eexists. split; [reflexivity|].
  simpl. rewrite written_names_app, loop_events_written. split; [reflexivity|].
  apply numbered_nodup. lia.
Qed.

(** C5: a frame whose crop is out of bounds is still saved, uncropped,
    under the next number; the out-of-bounds message precedes the
    "saved" message. *)
Theorem capture_loop_oob_saves_whole_frame c ts tss cap cap1 f n w :
  cap_read (cap_set_msec cap (mul_int ts 1000)) = (cap1, Some f) ->
  crop_out_of_bounds c f = true -> frame_empty f = false ->
  capture_loop (Some c) (ts :: tss) cap n w =
  capture_loop (Some c) tss cap1 (n + 1)
    (mk_world (if imwrite_ok (frame_filename (n + 1) ts) f
               then <[frame_filename (n + 1) ts := FImage f]> (fs w) else fs w)
              (trace w ++ [ESetPos (mul_int ts 1000); ERead; ELog (LCropOOB ts);
                           EWrite (frame_filename (n + 1) ts);
                           ELog (LSaved ts (frame_filename (n + 1) ts))])).
Proof.
  intros Er Hoob He.
  assert (Ha : apply_crop (Some c) f = (f, true)) by (simpl; now rewrite Hoob).
  rewrite (capture_loop_saved _ _ _ _ _ _ _ _ Er) by (now rewrite Ha). now rewrite Ha.
Qed.

(** ** The loop's footprint *)

(** A name that no [frame_filename] produces. *)
Definition not_frame_name (k : string) : Prop := forall n ts, k <> frame_filename n ts.

Lemma downloaded_not_frame_name : not_frame_name "downloaded_video.mp4".
Proof. intros n ts. discriminate. Qed.

Lemma download_not_frame_name : not_frame_name "download_video.mp4".
Proof. intros n ts. discriminate. Qed.

Lemma loop_files_other c n items d k : not_frame_name k ->
  loop_files c n items d !! k = d !! k.
Proof.
  intros Hk. revert n d; induction items as [|[ts [f|]] items IH]; intros n d; simpl; auto.
  rewrite IH. destruct (imwrite_ok _ _); [|reflexivity].
  apply lookup_insert_ne. intros E. exact (Hk _ _ (eq_sym E)).
Qed.

Lemma loop_events_no_release c n items : ~ In ERelease (loop_events c n items).
Proof.
  revert n; induction items as [|[ts [f|]] items IH]; intros n; simpl; [tauto| |].
  - intros H. repeat (destruct H as [H|H]; [discriminate|]).
    apply in_app_or in H as [H|H].
    + destruct (snd (apply_crop c f)); simpl in H; [destruct H as [H|H]; [discriminate|]|]; tauto.
    + repeat (destruct H as [H|H]; [discriminate|]). exact (IH _ H).
  - intros H. repeat (destruct H as [H|H]; [discriminate|]). exact (IH _ H).
Qed.

(** One iteration of the loop on a frame whose crop is empty: OpenCV
    raises, and the exception leaves the loop. *)
Lemma capture_loop_empty_write c ts tss cap cap1 f n w :
  cap_read (cap_set_msec cap (mul_int ts 1000)) = (cap1, Some f) ->
  frame_empty (fst (apply_crop c f)) = true ->
  capture_loop c (ts :: tss) cap n w =
  (Raise CvError,
   mk_world (fs w) (trace w ++ [ESetPos (mul_int ts 1000); ERead] ++
                    (if snd (apply_crop c f) then [ELog (LCropOOB ts)] else []) ++
                    [EWrite (frame_filename (n + 1) ts)])).
Proof.
  intros Er He. cbn [capture_loop]. unfold mbind at 1. rewrite (capture_one_empty_write _ _ _ _ _ _ _ Er He).
  reflexivity.
Qed.

(** What the loop may change: it appends calls other than [release] to
    the trace and only writes files named by [frame_filename]. *)
Definition loop_footprint (w w' : @world Video Pixel) : Prop :=
  (exists tr, trace w' = trace w ++ tr /\ ~ In ERelease tr) /\
  (forall k, not_frame_name k -> fs w' !! k = fs w !! k).

Lemma capture_loop_crash c tss cap n w :
  ~ writes_nonempty c (fst (decode_all cap tss)) ->
  exists w', capture_loop c tss cap n w = (Raise CvError, w') /\ loop_footprint w w'.
Proof.
  revert cap n w; induction tss as [|ts tss IH]; intros cap n w Hne.
  - exfalso. apply Hne. constructor.
  - destruct (cap_read (cap_set_msec cap (mul_int ts 1000))) as [cap1 [f|]] eqn:Er;
    rewrite (decode_all_cons _ _ _ _ _ Er) in Hne; cbn [fst] in Hne.
    + destruct (frame_empty (fst (apply_crop c f))) eqn:He.
      * rewrite (capture_loop_empty_write _ _ _ _ _ _ _ _ Er He). eexists. split; [reflexivity|].
        split; [|reflexivity]. eexists. split; [reflexivity|].
        intros H. repeat (destruct H as [H|H]; [discriminate|]).
        destruct (snd (apply_crop c f)); simpl in H;
        repeat (destruct H as [H|H]; [discriminate|]); exact H.
      * rewrite (capture_loop_saved _ _ _ _ _ _ _ _ Er He).
        destruct (IH cap1 (n + 1)%Z (mk_world
          (if imwrite_ok (frame_filename (n + 1) ts) (fst (apply_crop c f))
           then <[frame_filename (n + 1) ts := FImage (fst (apply_crop c f))]> (fs w) else fs w)
          (trace w ++ [ESetPos (mul_int ts 1000); ERead] ++
           (if snd (apply_crop c f) then [ELog (LCropOOB ts)] else []) ++
           [EWrite (frame_filename (n + 1) ts); ELog (LSaved ts (frame_filename (n + 1) ts))])))
          as (w' & Hrun & (tr & Htr & Hrel) & Hfs).
        { intros H. apply Hne. constructor; [exact He|exact H]. }
        exists w'. split; [exact Hrun|]. split.
        -- eexists. rewrite Htr. simpl. split; [rewrite <- app_assoc; reflexivity|].
           intros H. apply in_app_or in H as [H|H]; [|exact (Hrel H)].
           repeat (destruct H as [H|H]; [discriminate|]).
           apply in_app_or in H as [H|H].
           ++ destruct (snd (apply_crop c f)); simpl in H; [destruct H as [H|H]; [discriminate|]|]; tauto.
           ++ repeat (destruct H as [H|H]; [discriminate|]). exact H.
        -- intros k Hk. rewrite Hfs by exact Hk. simpl. destruct (imwrite_ok _ _); [|reflexivity].
           apply lookup_insert_ne. intros E. exact (Hk _ _ (eq_sym E)).
    + rewrite (capture_loop_failed _ _ _ _ _ _ _ Er).
      destruct (IH cap1 n (mk_world (fs w) (trace w ++ [ESetPos (mul_int ts 1000); ERead; ELog (LReadFailed ts)])))
        as (w' & Hrun & (tr & Htr & Hrel) & Hfs).
      { intros H. apply Hne. constructor; [exact I|exact H]. }
      exists w'. split; [exact Hrun|]. split.
      * eexists. rewrite Htr. simpl. split; [rewrite <- app_assoc; reflexivity|].
        intros H. apply in_app_or in H as [H|H]; [|exact (Hrel H)].
        repeat (destruct H as [H|H]; [discriminate|]). exact H.
      * intros k Hk. rewrite Hfs by exact Hk. reflexivity.
Qed.

(** ** The whole thread *)

(** The crop the parsing step hands to the extraction, if it succeeds. *)
Definition parsed_crop (o : crop_outcome) : option (option crop) :=
  match o with
  | CropNone => Some None
  | CropParams c => Some (Some c)
  | CropParseError _ => None
  end.

Lemma parse_entries_ok te ce tss cp k w :
  parse_timestamps te = TsOk tss -> parsed_crop (parse_crop ce) = Some cp ->
  parse_entries te ce k w = k tss cp w.
Proof.
  intros Ht Hc. unfold parse_entries. rewrite Ht.
  destruct (parse_crop ce); simpl in Hc; inversion Hc; reflexivity.
Qed.

Lemma stored_fresh (d : gmap string (@file Video Pixel)) path f : d !! path = None -> stored d path f = <[path := f]> d.
Proof. unfold stored. intros H. now rewrite ?H. Qed.

Lemma stored_kept (d : gmap string (@file Video Pixel)) path f f0 : d !! path = Some f0 -> stored d path f = d.
Proof. unfold stored. intros ->. reflexivity. Qed.

(** The prefix of [process2] up to the extraction. *)
Lemma process2_to_extract g inp i fm v tss cp w :
  String.eqb (strip (url_entry inp)) "" = false ->
  video_info g = Some i ->
  formats_available g !! resolution_var inp = Some fm ->
  ydl_download (strip (url_entry inp)) (get (format_id fm)) = Ok v ->
  parse_timestamps (timestamps_entry inp) = TsOk tss ->
  parsed_crop (parse_crop (crop_entry inp)) = Some cp ->
  process2 g inp w =
  extract "downloaded_video.mp4" tss cp
    (mk_world (stored (fs w) "downloaded_video.mp4" (FVideo v))
              (trace w ++ [ELog LDownloading; EDownload (strip (url_entry inp)) (get (format_id fm));
                           ELog LDownloaded])).
Proof.
  intros Hu Hi Hf Hd Ht Hc. unfold process2, download_then_extract. rewrite Hu, Hi, Hf. cbn zeta.
  rewrite !mbind_emit, Hd. unfold mbind at 1, ydl_store. simpl.
  rewrite mbind_emit, (parse_entries_ok _ _ _ _ _ _ Ht Hc). simpl. app_norm. reflexivity.
Qed.

Lemma extract_open path v tss cp w :
  fs w !! path = Some (FVideo v) -> cap_isOpened (cap_open (Some v)) = true ->
  extract path tss cp w =
  mbind (capture_loop cp tss (cap_open (Some v)) 0)
    (fun r => let '(cap, _) := r in finish path cap)
    (mk_world (fs w) (trace w ++ [EOpen path])).
Proof.
  intros Hv Ho. unfold extract, get_file at 1, mbind at 1. rewrite Hv. simpl.
  rewrite mbind_emit. simpl. rewrite Ho. reflexivity.
Qed.

Lemma finish_run path cap w :
  finish path cap w =
  (Ok tt,
   match fs w !! path with
   | Some _ => mk_world (delete path (fs w)) (trace w ++ [ERelease; ERemove path; ELog LVideoDeleted; ELog LDone])
   | None => mk_world (fs w) (trace w ++ [ERelease; ELog LDone])
   end).
Proof.
  unfold finish. rewrite mbind_emit. unfold get_file, mbind at 1. simpl.
  destruct (fs w !! path) eqn:Hf; [rewrite mbind_assoc; erewrite mbind_remove by exact Hf; rewrite mbind_emit|rewrite mbind_mret];
  unfold emit; simpl;
  app_norm; reflexivity.
Qed.

(** A run where everything succeeds, capturing from the video [vid]
    that is at the output path once yt-dlp has finished. *)
Lemma process2_captures g inp i fm v vid tss cp w :
  String.eqb (strip (url_entry inp)) "" = false ->
  video_info g = Some i ->
  formats_available g !! resolution_var inp = Some fm ->
  ydl_download (strip (url_entry inp)) (get (format_id fm)) = Ok v ->
  parse_timestamps (timestamps_entry inp) = TsOk tss ->
  parsed_crop (parse_crop (crop_entry inp)) = Some cp ->
  stored (fs w) "downloaded_video.mp4" (FVideo v) !! "downloaded_video.mp4" = Some (FVideo vid) ->
  cap_isOpened (cap_open (Some vid)) = true ->
  writes_nonempty cp (fst (decode_all (cap_open (Some vid)) tss)) ->
  process2 g inp w =
  (Ok tt,
   mk_world
     (delete "downloaded_video.mp4"
        (loop_files cp 0 (combine tss (fst (decode_all (cap_open (Some vid)) tss)))
           (stored (fs w) "downloaded_video.mp4" (FVideo v))))
     (trace w ++
      [ELog LDownloading; EDownload (strip (url_entry inp)) (get (format_id fm));
       ELog LDownloaded; EOpen "downloaded_video.mp4"] ++
      loop_events cp 0 (combine tss (fst (decode_all (cap_open (Some vid)) tss))) ++
      [ERelease; ERemove "downloaded_video.mp4"; ELog LVideoDeleted; ELog LDone])).
Proof.
  intros Hu Hi Hf Hd Ht Hc Hs Ho Hne.
  rewrite (process2_to_extract _ _ _ _ _ _ _ _ Hu Hi Hf Hd Ht Hc).
  rewrite (extract_open _ vid) by (first [exact Ho | exact Hs]).
  unfold mbind at 1. rewrite capture_loop_run by exact Hne. rewrite finish_run. simpl.
  rewrite loop_files_other by apply downloaded_not_frame_name.
  rewrite Hs. app_norm. reflexivity.
Qed.

(** C1: on a run from a directory without [downloaded_video.mp4] where
    the entries parse, the download succeeds, the file opens and no frame
    to write is empty, [process()] makes exactly these calls: download,
    open, the loop's calls for each timestamp, one [release], removal of
    the video, the final log line; and it leaves exactly the frames the
    loop wrote. *)
Theorem process2_extracts g inp i fm v tss cp w :
  fs w !! "downloaded_video.mp4" = None ->
  String.eqb (strip (url_entry inp)) "" = false ->
  video_info g = Some i ->
  formats_available g !! resolution_var inp = Some fm ->
  ydl_download (strip (url_entry inp)) (get (format_id fm)) = Ok v ->
  parse_timestamps (timestamps_entry inp) = TsOk tss ->
  parsed_crop (parse_crop (crop_entry inp)) = Some cp ->
  cap_isOpened (cap_open (Some v)) = true ->
  writes_nonempty cp (fst (decode_all (cap_open (Some v)) tss)) ->
  process2 g inp w =
  (Ok tt,
   mk_world
     (delete "downloaded_video.mp4"
        (loop_files cp 0 (combine tss (fst (decode_all (cap_open (Some v)) tss)))
           (<["downloaded_video.mp4" := FVideo v]> (fs w))))
     (trace w ++
      [ELog LDownloading; EDownload (strip (url_entry inp)) (get (format_id fm));
       ELog LDownloaded; EOpen "downloaded_video.mp4"] ++
      loop_events cp 0 (combine tss (fst (decode_all (cap_open (Some v)) tss))) ++
      [ERelease; ERemove "downloaded_video.mp4"; ELog LVideoDeleted; ELog LDone])).
Proof.
  intros Hn Hu Hi Hf Hd Ht Hc Ho Hne.
  rewrite (process2_captures g inp i fm v v tss cp w) by
    (first [assumption | rewrite stored_fresh by exact Hn; apply lookup_insert_eq]).
  rewrite stored_fresh by exact Hn. reflexivity.
Qed.

(** C9: a [downloaded_video.mp4] left in the directory (by an earlier
    run that refused its entries or crashed, or by a concurrent run) is
    what the capture reads: yt-dlp keeps it, so whatever URL and
    resolution are asked for, the frames written are those of the old
    video [v0], and the freshly fetched [v] plays no part. *)
Theorem process2_reuses_stale_video g inp i fm v v0 tss cp w :
  fs w !! "downloaded_video.mp4" = Some (FVideo v0) ->
  String.eqb (strip (url_entry inp)) "" = false ->
  video_info g = Some i ->
  formats_available g !! resolution_var inp = Some fm ->
  ydl_download (strip (url_entry inp)) (get (format_id fm)) = Ok v ->
  parse_timestamps (timestamps_entry inp) = TsOk tss ->
  parsed_crop (parse_crop (crop_entry inp)) = Some cp ->
  cap_isOpened (cap_open (Some v0)) = true ->
  writes_nonempty cp (fst (decode_all (cap_open (Some v0)) tss)) ->
  process2 g inp w =
  (Ok tt,
   mk_world
     (delete "downloaded_video.mp4"
        (loop_files cp 0 (combine tss (fst (decode_all (cap_open (Some v0)) tss))) (fs w)))
     (trace w ++
      [ELog LDownloading; EDownload (strip (url_entry inp)) (get (format_id fm));
       ELog LDownloaded; EOpen "downloaded_video.mp4"] ++
      loop_events cp 0 (combine tss (fst (decode_all (cap_open (Some v0)) tss))) ++
      [ERelease; ERemove "downloaded_video.mp4"; ELog LVideoDeleted; ELog LDone])).
Proof.
  intros Hs Hu Hi Hf Hd Ht Hc Ho Hne.
  rewrite (process2_captures g inp i fm v v0 tss cp w) by
    (first [assumption | rewrite (stored_kept _ _ _ _ Hs); exact Hs]).
  rewrite (stored_kept _ _ _ _ Hs). reflexivity.
Qed.

(** C6: when a frame to write is empty (a crop with a zero or negative
    size), OpenCV's exception escapes [process()]: the capture is never
    released, nothing after the loop runs, and the downloaded video is
    left in the working directory. *)
Theorem process2_empty_crop_leaks g inp i fm v tss cp w :
  fs w !! "downloaded_video.mp4" = None ->
  String.eqb (strip (url_entry inp)) "" = false ->
  video_info g = Some i ->
  formats_available g !! resolution_var inp = Some fm ->
  ydl_download (strip (url_entry inp)) (get (format_id fm)) = Ok v ->
  parse_timestamps (timestamps_entry inp) = TsOk tss ->
  parsed_crop (parse_crop (crop_entry inp)) = Some cp ->
  cap_isOpened (cap_open (Some v)) = true ->
  ~ writes_nonempty cp (fst (decode_all (cap_open (Some v)) tss)) ->
  exists w' tr, process2 g inp w = (Raise CvError, w') /\
    trace w' = trace w ++ tr /\ ~ In ERelease tr /\
    fs w' !! "downloaded_video.mp4" = Some (FVideo v).
Proof.
  intros Hn Hu Hi Hf Hd Ht Hc Ho Hne.
  rewrite (process2_to_extract _ _ _ _ _ _ _ _ Hu Hi Hf Hd Ht Hc), (stored_fresh _ _ _ Hn).
  rewrite (extract_open _ v) by (first [exact Ho | apply lookup_insert_eq]).
  unfold mbind at 1.
  match goal with |- context [capture_loop cp tss ?c 0 ?w0] =>
    destruct (capture_loop_crash cp tss c 0 w0 Hne) as (w' & Hrun & (tr & Htr & Hrel) & Hfs) end.
  rewrite Hrun. simpl in Htr, Hfs.
  exists w', ([ELog LDownloading; EDownload (strip (url_entry inp)) (get (format_id fm));
              ELog LDownloaded; EOpen "downloaded_video.mp4"] ++ tr).
  split; [reflexivity|]. split; [rewrite Htr; simpl; app_norm; reflexivity|]. split.
  - intros H. apply in_app_or in H as [H|H]; [|exact (Hrel H)].
    repeat (destruct H as [H|H]; [discriminate|]). exact H.
  - rewrite Hfs by apply downloaded_not_frame_name. apply lookup_insert_eq.
Qed.

(** C8: when the timestamp or crop entry is refused after the download,
    [process()] returns without opening the video and without deleting
    it: the downloaded file stays in the working directory. *)
Theorem process2_bad_entries_keep_video g inp i fm v w :
  fs w !! "downloaded_video.mp4" = None ->
  String.eqb (strip (url_entry inp)) "" = false ->
  video_info g = Some i ->
  formats_available g !! resolution_var inp = Some fm ->
  ydl_download (strip (url_entry inp)) (get (format_id fm)) = Ok v ->
  (forall tss, parse_timestamps (timestamps_entry inp) = TsOk tss ->
     parsed_crop (parse_crop (crop_entry inp)) = None) ->
  exists tr, process2 g inp w =
    (Ok tt, mk_world (<["downloaded_video.mp4" := FVideo v]> (fs w))
                     (trace w ++ [ELog LDownloading; EDownload (strip (url_entry inp)) (get (format_id fm));
                                  ELog LDownloaded] ++ tr)) /\
    ~ In (EOpen "downloaded_video.mp4") tr.
Proof.
  intros Hn Hu Hi Hf Hd Hbad. unfold process2, download_then_extract. rewrite Hu, Hi, Hf. cbn zeta.
  rewrite !mbind_emit, Hd. unfold mbind at 1, ydl_store. simpl. rewrite mbind_emit, (stored_fresh _ _ _ Hn).
  unfold parse_entries.
  destruct (parse_timestamps (timestamps_entry inp)) as [tss| |e] eqn:Ht.
  - specialize (Hbad tss eq_refl).
    destruct (parse_crop (crop_entry inp)) as [|c|e] eqn:Hc; simpl in Hbad; try discriminate.
    eexists. rewrite mbind_emit. unfold emit. simpl. split; [app_norm; reflexivity|not_in].
  - eexists. unfold emit. simpl. split; [app_norm; reflexivity|not_in].
  - eexists. rewrite mbind_emit. unfold emit. simpl. split; [app_norm; reflexivity|not_in].
Qed.

(** C10: the selected resolution is looked up only after the membership
    test, so a resolution missing from [formats_available] shows one
    error box and downloads nothing (no [KeyError]). *)
Theorem process2_unknown_resolution g inp i w :
  String.eqb (strip (url_entry inp)) "" = false ->
  video_info g = Some i ->
  formats_available g !! resolution_var inp = None ->
  process2 g inp w = (Ok tt, mk_world (fs w) (trace w ++ [EBox BBadResolution])).
Proof. intros Hu Hi Hf. unfold process2. now rewrite Hu, Hi, Hf. Qed.

(** C7: in [src/frame_capture.py], once the URL is given and the video
    info fetched, [process()] raises [NameError] on [selected_res]
    before doing anything: nothing is downloaded, logged or written. *)
Theorem process1_name_error (g : globals1) inp u w :
  String.eqb (strip (url_entry inp)) "" = false ->
  yt_obj g = Some u ->
  process1 g inp w = (Raise NameError, w).
Proof. intros Hu Hy. unfold process1. now rewrite Hu, Hy. Qed.

End Process.
(** ** Runs on an idealised decoder

    A 20-second video with one 1x1 frame per second (pixel value = the
    second), read through [ListCapture]; every [cv2.imwrite] succeeds. *)

#[local] Instance writes_all : ImageWriter nat := {| imwrite_ok _ _ := true |}.

Definition video20 : list_video nat :=
  mk_video (map (fun i => (Z.of_nat i * 1000, [[i]])%Z) (seq 0 20)).

Definition fmt720 : fmt :=
  mk_fmt (Val "22") (Val "avc1.64001F") (Val "mp4a.40.2") (Val "mp4") (Val 720%Z) (Val (float_of_Z 1500)).

Definition globals_720 : globals2 := mk_globals2 (Some (mk_info Absent (Val "clip"))) (<["720p" := fmt720]> ∅).

Definition download_ok : string -> option string -> res (list_video nat) := fun _ _ => Ok video20.

Definition run2 (inp : inputs) :=
  @process2 (list_video nat) nat (ListCapture nat) writes_all download_ok globals_720 inp (mk_world ∅ []).

Definition inputs_of (ts crop : string) : inputs := mk_inputs " https://youtu.be/x " "720p" ts crop.

(** The end-to-end example of the specification: timestamps ["2,25"],
    no crop: one frame saved as [frame_1_at_2.00s.jpg], a failed read at
    25 s, the video deleted. *)
Example run2_spec_example :
  fst (run2 (inputs_of "2,25" "")) = Ok tt /\
  map_to_list (fs (snd (run2 (inputs_of "2,25" "")))) = [("frame_1_at_2.00s.jpg", @FImage (list_video nat) nat [[2%nat]])].
Proof. vm_compute. split; reflexivity. Qed.

Lemma capture_loop_numbering_witness :
  exists w', @capture_loop (list_video nat) nat (ListCapture nat) writes_all None
      [float_of_Z 5; float_of_Z 30; float_of_Z 10] (cap_open (Some video20)) 0 (mk_world ∅ []) =
    (Ok (snd (decode_all (cap_open (Some video20)) [float_of_Z 5; float_of_Z 30; float_of_Z 10]),
         count_some (fst (decode_all (cap_open (Some video20)) [float_of_Z 5; float_of_Z 30; float_of_Z 10]))), w') /\
    written_names (trace w') = written_names [] ++
      numbered 0 (successes (combine [float_of_Z 5; float_of_Z 30; float_of_Z 10]
        (fst (decode_all (cap_open (Some video20)) [float_of_Z 5; float_of_Z 30; float_of_Z 10])))).
Proof. apply capture_loop_numbering. vm_compute. repeat constructor. Defined.

(** The names of that run: the failed read at 30 s uses no number. *)
Example capture_loop_numbering_names :
  numbered 0 (successes (combine [float_of_Z 5; float_of_Z 30; float_of_Z 10]
    (fst (@decode_all (list_video nat) nat (ListCapture nat) (cap_open (Some video20))
            [float_of_Z 5; float_of_Z 30; float_of_Z 10])))) =
  ["frame_1_at_5.00s.jpg"; "frame_2_at_10.00s.jpg"].
Proof. vm_compute. reflexivity. Qed.

Lemma capture_loop_reports_witness :
  exists r w', @capture_loop (list_video nat) nat (ListCapture nat) writes_all None
      [float_of_Z 1; float_of_Z 99; float_of_Z 3] (cap_open (Some video20)) 0 (mk_world ∅ []) = (Ok r, w') /\
    reported (trace w') = reported [] ++ [float_of_Z 1; float_of_Z 99; float_of_Z 3].
Proof. apply capture_loop_reports. vm_compute. repeat constructor. Defined.

Lemma capture_loop_names_distinct_witness :
  exists r w' names, @capture_loop (list_video nat) nat (ListCapture nat) writes_all None
      [float_of_Z 5; float_of_Z 5] (cap_open (Some video20)) 0 (mk_world ∅ []) = (Ok r, w') /\
    written_names (trace w') = written_names [] ++ names /\ NoDup names.
Proof. apply capture_loop_names_distinct. vm_compute. repeat constructor. Defined.

Lemma capture_loop_oob_saves_whole_frame_witness :
  @capture_loop (list_video nat) nat (ListCapture nat) writes_all (Some (mk_crop 0 0 2 2)) [float_of_Z 4]
    (cap_open (Some video20)) 0 (mk_world ∅ []) =
  @capture_loop (list_video nat) nat (ListCapture nat) writes_all (Some (mk_crop 0 0 2 2)) []
    (mk_cap (Some video20) 5 false) (0 + 1)
    (mk_world (if imwrite_ok (frame_filename (0 + 1) (float_of_Z 4)) [[4%nat]]
               then <[frame_filename (0 + 1) (float_of_Z 4) := FImage [[4%nat]]]> ∅ else ∅)
              ([] ++ [ESetPos (mul_int (float_of_Z 4) 1000); ERead; ELog (LCropOOB (float_of_Z 4));
                      EWrite (frame_filename (0 + 1) (float_of_Z 4));
                      ELog (LSaved (float_of_Z 4) (frame_filename (0 + 1) (float_of_Z 4)))])).
Proof. apply capture_loop_oob_saves_whole_frame; vm_compute; reflexivity. Defined.

Definition spec_ts : list float := map float_of_Z [2; 25]%Z.

Lemma process2_extracts_witness :
  run2 (inputs_of "2,25" "") =
  (Ok tt,
   mk_world
     (delete "downloaded_video.mp4"
        (loop_files None 0 (combine spec_ts (fst (decode_all (cap_open (Some video20)) spec_ts)))
           (<["downloaded_video.mp4" := FVideo video20]> ∅)))
     ([] ++
      [ELog LDownloading; EDownload "https://youtu.be/x" (Some "22");
       ELog LDownloaded; EOpen "downloaded_video.mp4"] ++
      loop_events None 0 (combine spec_ts (fst (decode_all (cap_open (Some video20)) spec_ts))) ++
      [ERelease; ERemove "downloaded_video.mp4"; ELog LVideoDeleted; ELog LDone])).
Proof.
  apply (process2_extracts download_ok globals_720 (inputs_of "2,25" "") (mk_info Absent (Val "clip"))
           fmt720 video20 spec_ts None (mk_world ∅ []));
  vm_compute; first [reflexivity | repeat constructor].
Defined.

Lemma process2_empty_crop_leaks_witness :
  exists w' tr, run2 (inputs_of "1" "0,0,0,1") = (Raise CvError, w') /\
    trace w' = [] ++ tr /\ ~ In ERelease tr /\
    fs w' !! "downloaded_video.mp4" = Some (FVideo video20).
Proof.
  apply (process2_empty_crop_leaks download_ok globals_720 (inputs_of "1" "0,0,0,1")
           (mk_info Absent (Val "clip")) fmt720 video20 [float_of_Z 1] (Some (mk_crop 0 0 0 1)));
  try (vm_compute; reflexivity).
  vm_compute. intros H. inversion H as [|? ? H1]. discriminate H1.
Defined.

Lemma process2_bad_entries_keep_video_witness :
  exists tr, run2 (inputs_of "5, x" "") =
    (Ok tt, mk_world (<["downloaded_video.mp4" := FVideo video20]> ∅)
                     ([] ++ [ELog LDownloading; EDownload "https://youtu.be/x" (Some "22");
                             ELog LDownloaded] ++ tr)) /\
    ~ In (EOpen "downloaded_video.mp4") tr.
Proof.
  apply (process2_bad_entries_keep_video download_ok globals_720 (inputs_of "5, x" "")
           (mk_info Absent (Val "clip")) fmt720 video20); try (vm_compute; reflexivity).
  intros tss H. vm_compute in H. discriminate H.
Defined.

(** The directory a refused timestamp entry leaves behind, and a second
    video that a later download fetches. *)
Definition stale_world := snd (run2 (inputs_of "5, x" "")).

Definition video_b : list_video nat :=
  mk_video (map (fun i => (Z.of_nat i * 1000, [[50 + i]%nat])%Z) (seq 0 20)).

Definition run2_b (inp : inputs) :=
  @process2 (list_video nat) nat (ListCapture nat) writes_all (fun _ _ => Ok video_b) globals_720 inp stale_world.

Lemma process2_reuses_stale_video_witness :
  run2_b (inputs_of "2" "") =
  (Ok tt,
   mk_world
     (delete "downloaded_video.mp4"
        (loop_files None 0 (combine [float_of_Z 2] (fst (decode_all (cap_open (Some video20)) [float_of_Z 2])))
           (fs stale_world)))
     (trace stale_world ++
      [ELog LDownloading; EDownload "https://youtu.be/x" (Some "22");
       ELog LDownloaded; EOpen "downloaded_video.mp4"] ++
      loop_events None 0 (combine [float_of_Z 2] (fst (decode_all (cap_open (Some video20)) [float_of_Z 2]))) ++
      [ERelease; ERemove "downloaded_video.mp4"; ELog LVideoDeleted; ELog LDone])).
Proof.
  apply (process2_reuses_stale_video (fun _ _ => Ok video_b) globals_720 (inputs_of "2" "")
           (mk_info Absent (Val "clip")) fmt720 video_b video20 [float_of_Z 2] None stale_world);
  vm_compute; first [reflexivity | repeat constructor].
Defined.

(** The frame saved is the 2 s frame of the earlier video, [[2]], not
    the [[52]] of the video the second run fetched. *)
Example stale_video_frame :
  map_to_list (fs (snd (run2_b (inputs_of "2" "")))) = [("frame_1_at_2.00s.jpg", @FImage (list_video nat) nat [[2%nat]])].
Proof. vm_compute. reflexivity. Qed.

Lemma process2_unknown_resolution_witness :
  @process2 (list_video nat) nat (ListCapture nat) writes_all download_ok globals_720
    (mk_inputs "https://youtu.be/x" "1080p" "5" "") (mk_world ∅ []) =
  (Ok tt, mk_world ∅ ([] ++ [EBox BBadResolution])).
Proof.
  apply (process2_unknown_resolution download_ok globals_720 _ (mk_info Absent (Val "clip")));
  vm_compute; reflexivity.
Defined.

Lemma process1_name_error_witness :
  @process1 (list_video nat) nat (ListCapture nat) writes_all unit (fun _ => Ok video20)
    (mk_globals1 (Some tt) ∅) (inputs_of "5" "") (mk_world ∅ []) = (Raise NameError, mk_world ∅ []).
Proof. apply (process1_name_error _ _ _ tt); vm_compute; reflexivity. Defined.

End Pipeline.
