(* ===== verification/Fetch.v ===== *)
(** * Acquisition: [fetch_video_info] of [src/frame_capture2.py]

    Lines 19-65: the URL check, [ydl.extract_info], and the loop over the
    info's [formats] that keeps, for each resolution ["<height>p"], the
    progressive mp4 format with the highest [tbr], then the sorted
    resolution menu with the highest one selected.  The loop mutates the
    global [formats_available] in place, so an exception in the middle
    of it leaves a partial table behind; [select_formats] returns the
    table reached together with the outcome. *)

From stdpp Require Import gmap strings.
From Stdlib Require Import ZArith String Ascii List Lia SpecFloat Sorting.
From S2P Require Import Prelude PyStr PyInt PyFloat PySort Formats Pipeline.
Import ListNotations.
Open Scope string_scope.
Open Scope bool_scope.
Open Scope list_scope.

Module Fetch.
Import PyStr PyInt PyFloat PySort Formats Pipeline.

(** [fmt.get(key) != "none"] *)
Definition not_none_str (f : field string) : bool :=
  match f with Val s => negb (String.eqb s "none") | _ => true end.

(** [fmt.get("ext") == "mp4"] *)
Definition is_mp4 (f : field string) : bool :=
  match f with Val s => String.eqb s "mp4" | _ => false end.

(** The condition of line 38. *)
Definition qualifies (f : fmt) : bool :=
  not_none_str (vcodec f) && not_none_str (acodec f) && is_mp4 (ext f).

(** [height = fmt.get("height")] followed by [if height:] *)
Definition truthy_height (f : fmt) : option Z :=
  match height f with Val h => if (h =? 0)%Z then None else Some h | _ => None end.

(** [fmt.get("tbr", 0)]: [None] when the key holds [None]. *)
Definition tbr_or_zero (f : fmt) : option float :=
  match tbr f with Absent => Some (float_of_Z 0) | NoneVal => None | Val t => Some t end.

(** [f"{height}p"] *)
Definition resolution_of (h : Z) : string := (str_of_Z h ++ "p")%string.

(** The loop of lines 37-50 from [formats_available] = [table] and
    [options]. *)
Fixpoint select_formats (fmts : list fmt) (table : gmap string fmt) (options : list string)
    : gmap string fmt * list string * res unit :=
  match fmts with
  | [] => (table, options, Ok tt)
  | f :: rest =>
      if qualifies f then
        match truthy_height f with
        | Some h =>
            let resolution := resolution_of h in
            match table !! resolution with
            | None => select_formats rest (<[resolution := f]> table) (options ++ [resolution])
            | Some existing =>
                match py_gt (tbr_or_zero f) (tbr_or_zero existing) with
                | Ok true => select_formats rest (<[resolution := f]> table) options
                | Ok false => select_formats rest table options
                | Raise e => (table, options, Raise e)
                end
            end
        | None => select_formats rest table options
        end
      else select_formats rest table options
  end.

(** The sort key [int(x.replace("p", ""))]. *)
Definition sort_key (x : string) : res Z := py_int (remove_char "p" x).

(** [sorted(options, key=lambda x: int(x.replace("p", "")))] *)
Definition sorted_options (options : list string) : res (list string) :=
  py_sorted Z.ltb sort_key options.

(** [video_info.get("formats", [])]: iterating [None] raises. *)
Definition formats_of (vi : info) : res (list fmt) :=
  match info_formats vi with Absent => Ok [] | Val l => Ok l | NoneVal => Raise TypeError end.

(** [video_info.get('title', 'Unknown')] as the f-string shows it. *)
Definition title_of (vi : info) : string :=
  match info_title vi with Val t => t | Absent => "Unknown" | NoneVal => "None" end.

(** The state [fetch_video_info] reads and writes: the two globals, the
    selected resolution and the entries of the resolution menu. *)
Record gui2 := mk_gui2 {
  g_globals : globals2;
  g_resolution : string;
  g_menu : list string
}.

Definition fetch_error (vi : info) (table : gmap string fmt) (s : gui2) : gui2 * list event :=
  (mk_gui2 (mk_globals2 (Some vi) table) (g_resolution s) (g_menu s),
   [ELog LFetching; ELog LFetchError; EBox BFetchFailed]).

(** [fetch_video_info()], lines 19-65; [extract_info] is
    [ydl.extract_info(url, download=False)]. *)
Definition fetch_video_info2 (extract_info : string -> res info) (url_entry : string) (s : gui2)
    : gui2 * list event :=
  let url := strip url_entry in
  if String.eqb url "" then (s, [EBox BNoUrl]) else
  match extract_info url with
  | Raise _ => (s, [ELog LFetching; ELog LFetchError; EBox BFetchFailed])
  | Ok vi =>
      match formats_of vi with
      | Raise _ => fetch_error vi ∅ s
      | Ok fmts =>
          match select_formats fmts ∅ [] with
          | (table, _, Raise _) => fetch_error vi table s
          | (table, [], Ok _) =>
              (mk_gui2 (mk_globals2 (Some vi) table) (g_resolution s) (g_menu s),
               [ELog LFetching; ELog LNoFormats; EBox BNoFormats])
          | (table, options, Ok _) =>
              match sorted_options options with
              | Raise _ => fetch_error vi table s
              | Ok sorted =>
                  (mk_gui2 (mk_globals2 (Some vi) table) (last sorted "") sorted,
                   [ELog LFetching; ELog LFetchOk; ELog (LTitle (title_of vi))])
              end
          end
      end
  end.

(** ** The selection loop *)

(** The key under which the loop files a format, if it keeps it. *)
Definition res_of (f : fmt) : option string :=
  if qualifies f then option_map resolution_of (truthy_height f) else None.

(** What the loop maintains after the formats [seen]: the options are
    the keys of the table, without repetition; every format seen is
    filed; a filed format is one of those seen under its own key, and no
    format seen under the same key has a larger [tbr]. *)
Definition table_inv (seen : list fmt) (table : gmap string fmt) (options : list string) : Prop :=
  NoDup options /\
  (forall r, In r options <-> table !! r <> None) /\
  (forall r c, table !! r = Some c -> In c seen /\ res_of c = Some r /\
     forall f, In f seen -> res_of f = Some r -> py_gt (tbr_or_zero f) (tbr_or_zero c) <> Ok true) /\
  (forall f r, In f seen -> res_of f = Some r -> table !! r <> None).

Lemma py_gt_irrefl x : py_gt x x <> Ok true.
Proof.
  destruct x as [a|]; simpl; [|discriminate]. intros H. injection H as H.
  destruct (is_nan a) eqn:Ha; [destruct a; try discriminate; discriminate H|].
  apply SFltb_key in H; [|assumption|assumption].
  destruct (fkey a) as [[k1 k2] k3]. simpl in H. lia.
Qed.

Lemma py_gt_not_true a b : py_gt a b <> Ok true -> a = None \/ b = None \/ py_gt a b = Ok false.
Proof.
  destruct a as [a|], b as [b|]; simpl; auto. destruct (SFltb b a); auto. congruence.
Qed.

Lemma table_inv_nil : table_inv [] ∅ [].
Proof.
  split; [constructor|]. split.
  - intros r. rewrite lookup_empty. simpl. split; [tauto|]. intros H. exfalso. now apply H.
  - split; [intros r c H; rewrite lookup_empty in H; discriminate|]. intros f r [].
Qed.

Lemma table_inv_skip seen table options f :
  res_of f = None -> table_inv seen table options -> table_inv (seen ++ [f]) table options.
Proof.
  intros Hr (Hnd & Hopt & Hbest & Hall). split; [exact Hnd|]. split; [exact Hopt|]. split.
  - intros r c Hc. destruct (Hbest r c Hc) as (Hin & Hrc & Hmax). split; [apply in_or_app; now left|].
    split; [exact Hrc|]. intros g Hg Hgr. apply in_app_or in Hg as [Hg|[<-|[]]]; [exact (Hmax g Hg Hgr)|congruence].
  - intros g r Hg Hgr. apply in_app_or in Hg as [Hg|[<-|[]]]; [exact (Hall g r Hg Hgr)|congruence].
Qed.

Lemma table_inv_new seen table options f r :
  res_of f = Some r -> table !! r = None -> table_inv seen table options ->
  table_inv (seen ++ [f]) (<[r := f]> table) (options ++ [r]).
Proof.
  intros Hr Hnone (Hnd & Hopt & Hbest & Hall). split; [|split; [|split]].
  - apply NoDup_app; [exact Hnd|repeat constructor; simpl; tauto|].
    intros x Hx [Hx'|[]]. subst x. exact (proj1 (Hopt r) Hx Hnone).
  - intros q. rewrite in_app_iff. simpl. rewrite lookup_insert.
    destruct (decide (r = q)) as [<-|Hne]; [split; [intros _; discriminate|auto]|].
    rewrite Hopt. split; [intros [H|[H|[]]]; [exact H|congruence]|auto].
  - intros q c. rewrite lookup_insert. destruct (decide (r = q)) as [<-|Hne].
    + intros Hc. injection Hc as <-. split; [apply in_or_app; right; now left|]. split; [exact Hr|].
      intros g Hg Hgr. apply in_app_or in Hg as [Hg|[<-|[]]]; [|apply py_gt_irrefl].
      exfalso. exact (Hall g r Hg Hgr Hnone).
    + intros Hc. destruct (Hbest q c Hc) as (Hin & Hrc & Hmax). split; [apply in_or_app; now left|].
      split; [exact Hrc|]. intros g Hg Hgr. apply in_app_or in Hg as [Hg|[<-|[]]]; [exact (Hmax g Hg Hgr)|congruence].
  - intros g q Hg Hgq. rewrite lookup_insert. destruct (decide (r = q)); [discriminate|].
    apply in_app_or in Hg as [Hg|[<-|[]]]; [exact (Hall g q Hg Hgq)|congruence].
Qed.

Lemma table_inv_keep seen table options f r c :
  res_of f = Some r -> table !! r = Some c -> py_gt (tbr_or_zero f) (tbr_or_zero c) = Ok false ->
  table_inv seen table options -> table_inv (seen ++ [f]) table options.
Proof.
  intros Hr Hc Hgt (Hnd & Hopt & Hbest & Hall). split; [exact Hnd|]. split; [exact Hopt|]. split.
  - intros q d Hd. destruct (Hbest q d Hd) as (Hin & Hdq & Hmax). split; [apply in_or_app; now left|].
    split; [exact Hdq|]. intros g Hg Hgq. apply in_app_or in Hg as [Hg|[<-|[]]]; [exact (Hmax g Hg Hgq)|].
    rewrite Hr in Hgq. injection Hgq as <-. rewrite Hc in Hd. injection Hd as <-. congruence.
  - intros g q Hg Hgq. apply in_app_or in Hg as [Hg|[<-|[]]]; [exact (Hall g q Hg Hgq)|].
    rewrite Hr in Hgq. injection Hgq as <-. congruence.
Qed.

Lemma table_inv_replace seen table options f r c :
  res_of f = Some r -> table !! r = Some c -> py_gt (tbr_or_zero f) (tbr_or_zero c) = Ok true ->
  table_inv seen table options -> table_inv (seen ++ [f]) (<[r := f]> table) options.
Proof.
  intros Hr Hc Hgt (Hnd & Hopt & Hbest & Hall). split; [exact Hnd|]. split; [|split].
  - intros q. rewrite Hopt, lookup_insert. destruct (decide (r = q)) as [<-|]; [|tauto].
    rewrite Hc. split; discriminate.
  - intros q d. rewrite lookup_insert. destruct (decide (r = q)) as [<-|Hne].
    + intros Hd. injection Hd as <-. split; [apply in_or_app; right; now left|]. split; [exact Hr|].
      intros g Hg Hgr. apply in_app_or in Hg as [Hg|[<-|[]]]; [|apply py_gt_irrefl].
      destruct (Hbest r c Hc) as (_ & _ & Hmax). specialize (Hmax g Hg Hgr).
      apply py_gt_not_true in Hmax as [Hn|[Hn|Hn]].
      * rewrite Hn. destruct (tbr_or_zero f); discriminate.
      * rewrite Hn in Hgt. destruct (tbr_or_zero f); discriminate.
      * destruct (tbr_or_zero g) as [a|] eqn:Ea; [|discriminate].
        destruct (tbr_or_zero f) as [b|] eqn:Eb; [|discriminate].
        destruct (tbr_or_zero c) as [d|] eqn:Ed; [|discriminate].
        rewrite (py_gt_step a d b Hn Hgt). discriminate.
    + intros Hd. destruct (Hbest q d Hd) as (Hin & Hdq & Hmax). split; [apply in_or_app; now left|].
      split; [exact Hdq|]. intros g Hg Hgq. apply in_app_or in Hg as [Hg|[<-|[]]]; [exact (Hmax g Hg Hgq)|congruence].
  - intros g q Hg Hgq. rewrite lookup_insert. destruct (decide (r = q)); [discriminate|].
    apply in_app_or in Hg as [Hg|[<-|[]]]; [exact (Hall g q Hg Hgq)|congruence].
Qed.

Lemma select_formats_inv fmts seen table options table' options' :
  table_inv seen table options ->
  select_formats fmts table options = (table', options', Ok tt) ->
  table_inv (seen ++ fmts) table' options'.
Proof.
  revert seen table options; induction fmts as [|f fmts IH]; intros seen table options Hinv Hrun.
  - simpl in Hrun. injection Hrun as <- <-. now rewrite app_nil_r.
  - replace (seen ++ f :: fmts) with ((seen ++ [f]) ++ fmts) by (rewrite <- app_assoc; reflexivity).
    simpl in Hrun.
    destruct (qualifies f) eqn:Hq; [destruct (truthy_height f) as [h|] eqn:Hh|].
    + assert (Hr : res_of f = Some (resolution_of h)) by (unfold res_of; now rewrite Hq, Hh).
      destruct (table !! resolution_of h) as [c|] eqn:Hc.
      * destruct (py_gt (tbr_or_zero f) (tbr_or_zero c)) as [[]|e] eqn:Hgt; [| |discriminate].
        -- exact (IH _ _ _ (table_inv_replace _ _ _ _ _ _ Hr Hc Hgt Hinv) Hrun).
        -- exact (IH _ _ _ (table_inv_keep _ _ _ _ _ _ Hr Hc Hgt Hinv) Hrun).
      * exact (IH _ _ _ (table_inv_new _ _ _ _ _ Hr Hc Hinv) Hrun).
    + apply (IH _ _ _ (table_inv_skip _ _ _ f ltac:(unfold res_of; now rewrite Hq, Hh) Hinv) Hrun).
    + apply (IH _ _ _ (table_inv_skip _ _ _ f ltac:(unfold res_of; now rewrite Hq) Hinv) Hrun).
Qed.

(** ** The sorted menu *)

Lemma sort_key_resolution h : sort_key (resolution_of h) = Ok h.
Proof.
  unfold sort_key, resolution_of. rewrite remove_char_app, remove_char_absent
    by (apply str_of_Z_count; [reflexivity|discriminate]).
  simpl. rewrite str_app_nil_r. apply py_int_str_of_Z.
Qed.

Lemma resolution_of_inj a b : resolution_of a = resolution_of b -> a = b.
Proof.
  intros H. pose proof (sort_key_resolution a) as Ha. rewrite H, sort_key_resolution in Ha. congruence.
Qed.

(** The height a resolution sorts by. *)
Definition key_height (r : string) : Z := match sort_key r with Ok h => h | Raise _ => 0%Z end.

Lemma key_height_resolution h : key_height (resolution_of h) = h.
Proof. unfold key_height. now rewrite sort_key_resolution. Qed.

(** Sorting resolutions computes every key: the menu is a permutation
    of the options, ordered by height. *)
Lemma sorted_options_spec hs : exists s, sorted_options (map resolution_of hs) = Ok s /\
  Permutation s (map resolution_of hs) /\ Sorted (fun a b => (key_height a <= key_height b)%Z) s.
Proof.
  apply (py_sorted_spec Z.ltb Z.le (ltac:(intros a b Hab; apply Z.ltb_lt in Hab; lia))
           (ltac:(intros a b; apply Z.ltb_ge)) key_height sort_key (map resolution_of hs)).
  intros x Hx. apply in_map_iff in Hx as (h & <- & _). now rewrite sort_key_resolution, key_height_resolution.
Qed.

(** Sorting the resolutions of the heights [hs] puts the resolution of
    the largest height last. *)
Lemma sorted_options_last hs : hs <> [] ->
  exists sorted h, sorted_options (map resolution_of hs) = Ok sorted /\
    last sorted "" = resolution_of h /\ In h hs /\ (forall h', In h' hs -> (h' <= h)%Z).
Proof.
  intros Hne. destruct (sorted_options_spec hs) as (s & Hs & Hp & Hsort).
  assert (Hpre : PreOrder (fun a b => (key_height a <= key_height b)%Z)) by (constructor; intros ?; [|intros ? ?]; lia).
  destruct s as [|x s']; [apply Permutation_nil in Hp; destruct hs; [congruence|discriminate]|].
  assert (Hin : In (last (x :: s') "") (map resolution_of hs))
    by (eapply Permutation_in; [exact Hp|apply last_in_cons]).
  apply in_map_iff in Hin as (h & Hh & Hinh).
  exists (x :: s'), h. split; [exact Hs|]. split; [symmetry; exact Hh|]. split; [exact Hinh|].
  intros h' Hh'. rewrite <- (key_height_resolution h'), <- (key_height_resolution h), Hh.
  apply (sorted_last_max _ _ _ _ Hsort). eapply Permutation_in; [symmetry; exact Hp|]. now apply in_map.
Qed.

Lemma options_heights seen table options : table_inv seen table options ->
  exists hs, options = map resolution_of hs.
Proof.
  intros (_ & Hopt & Hbest & _).
  assert (H : forall r, In r options -> exists h, r = resolution_of h).
  { intros r Hr. apply Hopt in Hr. destruct (table !! r) as [c|] eqn:Hc; [|congruence].
    destruct (Hbest r c Hc) as (_ & Hrc & _). unfold res_of in Hrc.
    destruct (qualifies c); [|discriminate]. destruct (truthy_height c) as [h|]; [|discriminate].
    injection Hrc as <-. eauto. }
  clear Hopt Hbest. induction options as [|r options IH]; [exists []; reflexivity|].
  destruct (H r (or_introl eq_refl)) as [h ->].
  destruct IH as [hs ->]; [intros q Hq; apply H; right; exact Hq|]. exists (h :: hs). reflexivity.
Qed.

Lemma py_gt_raise a b e : py_gt a b = Raise e -> e = TypeError /\ (a = None \/ b = None).
Proof. destruct a, b; simpl; intros H; try discriminate; injection H as <-; auto. Qed.

(** A loop that raises stops at a second format of a resolution already
    filed, one of the two without a usable [tbr]. *)
Lemma select_formats_raise_gen fmts seen table options table' options' e :
  table_inv seen table options ->
  select_formats fmts table options = (table', options', Raise e) ->
  e = TypeError /\ exists f c, In f fmts /\ In c (seen ++ fmts) /\ res_of f <> None /\
    res_of c = res_of f /\ (tbr_or_zero f = None \/ tbr_or_zero c = None).
Proof.
  revert seen table options.
  induction fmts as [|f fmts IH]; intros seen table options Hinv Hrun; [discriminate|].
  assert (Hlift : forall P, (e = TypeError /\ exists g c, In g fmts /\ In c ((seen ++ [f]) ++ fmts) /\ P g c) ->
            e = TypeError /\ exists g c, In g (f :: fmts) /\ In c (seen ++ f :: fmts) /\ P g c).
  { intros P (He & g & c & Hg & Hc & HP). split; [exact He|]. exists g, c.
    rewrite <- app_assoc in Hc. simpl in Hc. split; [right; exact Hg|]. split; [exact Hc|exact HP]. }
  simpl in Hrun.
  destruct (qualifies f) eqn:Hq; [destruct (truthy_height f) as [h|] eqn:Hh|].
  - assert (Hr : res_of f = Some (resolution_of h)) by (unfold res_of; now rewrite Hq, Hh).
    destruct (table !! resolution_of h) as [c|] eqn:Hc.
    + destruct (py_gt (tbr_or_zero f) (tbr_or_zero c)) as [[]|e'] eqn:Hgt.
      * apply Hlift, (IH _ _ _ (table_inv_replace _ _ _ _ _ _ Hr Hc Hgt Hinv) Hrun).
      * apply Hlift, (IH _ _ _ (table_inv_keep _ _ _ _ _ _ Hr Hc Hgt Hinv) Hrun).
      * injection Hrun as _ _ <-. apply py_gt_raise in Hgt as [He Hn]. split; [exact He|].
        destruct Hinv as (_ & _ & Hbest & _). destruct (Hbest _ c Hc) as (Hcin & Hcr & _).
        exists f, c. split; [now left|]. split; [apply in_or_app; now left|].
        rewrite Hr, Hcr. split; [discriminate|]. split; [reflexivity|exact Hn].
    + apply Hlift, (IH _ _ _ (table_inv_new _ _ _ _ _ Hr Hc Hinv) Hrun).
  - apply Hlift, (IH _ _ _ (table_inv_skip _ _ _ f ltac:(unfold res_of; now rewrite Hq, Hh) Hinv) Hrun).
  - apply Hlift, (IH _ _ _ (table_inv_skip _ _ _ f ltac:(unfold res_of; now rewrite Hq) Hinv) Hrun).
Qed.

(** The selected resolution is one of the menu's labels, which are
    distinct: [fetch_video_info] keeps this. *)
Definition menu_ok (s : gui2) : Prop := In (g_resolution s) (g_menu s) /\ NoDup (g_menu s).

Lemma fetch_menu_ok extract_info url s : menu_ok s -> menu_ok (fst (fetch_video_info2 extract_info url s)).
Proof.
  intros Hs. unfold fetch_video_info2. destruct (String.eqb _ _); [exact Hs|].
  destruct (extract_info _) as [vi|]; [|exact Hs]. destruct (formats_of vi) as [fmts|]; [|exact Hs].
  destruct (select_formats fmts ∅ []) as [[table options] [[]|e]] eqn:Hrun; [|destruct options; exact Hs].
  destruct options as [|o os]; [exact Hs|].
  pose proof (select_formats_inv fmts [] ∅ [] table (o :: os) table_inv_nil Hrun) as Hinv.
  destruct (options_heights _ _ _ Hinv) as [hs Hhs]. destruct Hinv as (Hnd & _).
  rewrite Hhs in Hnd |- *. destruct (sorted_options_spec hs) as (sorted & Hsorted & Hp & _).
  rewrite Hsorted. unfold menu_ok. simpl. split.
  - destruct sorted as [|x l]; [apply Permutation_nil in Hp; rewrite <- Hhs in Hp; discriminate|first [apply last_in_cons | now left]].
  - eapply Permutation_NoDup; [symmetry; exact Hp|exact Hnd].
Qed.

(** ** Properties *)

(** C19: after a loop that raises nothing, the format filed under a
    resolution is a progressive mp4 format of that resolution, and no
    format of that resolution has a larger [tbr]. *)
Theorem select_formats_best fmts table options r c :
  select_formats fmts ∅ [] = (table, options, Ok tt) -> table !! r = Some c ->
  In c fmts /\ res_of c = Some r /\
  forall f, In f fmts -> res_of f = Some r -> py_gt (tbr_or_zero f) (tbr_or_zero c) <> Ok true.
Proof.
  intros Hrun Hc. destruct (select_formats_inv fmts [] ∅ [] table options table_inv_nil Hrun)
    as (_ & _ & Hbest & _). exact (Hbest r c Hc).
Qed.

(** C20: the resolution menu lists each resolution that some qualifying
    format has, once. *)
Theorem select_formats_options fmts table options :
  select_formats fmts ∅ [] = (table, options, Ok tt) ->
  NoDup options /\ (forall r, In r options <-> exists f, In f fmts /\ res_of f = Some r).
Proof.
  intros Hrun. destruct (select_formats_inv fmts [] ∅ [] table options table_inv_nil Hrun)
    as (Hnd & Hopt & Hbest & Hall). split; [exact Hnd|]. intros r. rewrite Hopt. split.
  - intros Hr. destruct (table !! r) as [c|] eqn:Hc; [|congruence].
    destruct (Hbest r c Hc) as (Hin & Hrc & _). eauto.
  - intros (f & Hf & Hfr). exact (Hall f r Hf Hfr).
Qed.

(** C21: a successful fetch selects the highest resolution among the
    progressive mp4 formats as the default. *)
Theorem fetch_selects_highest extract_info url s vi fmts table options :
  String.eqb (strip url) "" = false ->
  extract_info (strip url) = Ok vi -> formats_of vi = Ok fmts ->
  select_formats fmts ∅ [] = (table, options, Ok tt) -> options <> [] ->
  exists h, g_resolution (fst (fetch_video_info2 extract_info url s)) = resolution_of h /\
    (exists f, In f fmts /\ qualifies f = true /\ truthy_height f = Some h) /\
    (forall f h', In f fmts -> qualifies f = true -> truthy_height f = Some h' -> (h' <= h)%Z).
Proof.
  intros Hu He Hf Hrun Hne.
  pose proof (select_formats_inv fmts [] ∅ [] table options table_inv_nil Hrun) as Hinv.
  destruct (options_heights _ _ _ Hinv) as [hs ->].
  assert (Hhs : hs <> []) by (intros ->; apply Hne; reflexivity).
  destruct (sorted_options_last hs Hhs) as (sorted & h & Hs & Hl & Hin & Hmax).
  destruct Hinv as (_ & Hopt & Hbest & Hall).
  unfold fetch_video_info2. rewrite Hu, He, Hf, Hrun.
  destruct hs as [|h0 hs0]; [congruence|]. cbn [map] in Hs |- *. rewrite Hs. simpl. exists h. split; [exact Hl|]. split.
  - assert (Hr : In (resolution_of h) (map resolution_of (h0 :: hs0))) by (apply in_map; exact Hin).
    apply Hopt in Hr. destruct (table !! resolution_of h) as [c|] eqn:Hc; [|congruence].
    destruct (Hbest _ c Hc) as (Hcin & Hrc & _). exists c. split; [exact Hcin|].
    unfold res_of in Hrc. destruct (qualifies c); [|discriminate].
    destruct (truthy_height c) as [h'|]; [|discriminate]. injection Hrc as Hrc.
    apply resolution_of_inj in Hrc. subst. auto.
  - intros f h' Hf' Hq Hh. apply Hmax.
    assert (Hr : res_of f = Some (resolution_of h')) by (unfold res_of; now rewrite Hq, Hh).
    apply Hall in Hr; [|exact Hf']. apply Hopt in Hr. apply in_map_iff in Hr as (h'' & Heq & Hin'').
    apply resolution_of_inj in Heq. subst. exact Hin''.
Qed.

(** C22: when the loop raises (a second format of a filed resolution,
    one of the two with [tbr] set to [None]: [TypeError]), the fetch
    reports the error, but the global [video_info] is the new info and
    [formats_available] the partial table, while the selected resolution
    and the menu stay those of the previous fetch. *)
Theorem fetch_type_error_partial extract_info url s vi fmts table options e :
  String.eqb (strip url) "" = false ->
  extract_info (strip url) = Ok vi -> formats_of vi = Ok fmts ->
  select_formats fmts ∅ [] = (table, options, Raise e) ->
  fetch_video_info2 extract_info url s =
    (mk_gui2 (mk_globals2 (Some vi) table) (g_resolution s) (g_menu s),
     [ELog LFetching; ELog LFetchError; EBox BFetchFailed]) /\
  e = TypeError /\
  exists f c, In f fmts /\ In c fmts /\ res_of f <> None /\ res_of c = res_of f /\
    (tbr_or_zero f = None \/ tbr_or_zero c = None).
Proof.
  intros Hu He Hf Hrun. split.
  - unfold fetch_video_info2. rewrite Hu, He, Hf, Hrun. now destruct options.
  - exact (select_formats_raise_gen fmts [] ∅ [] table options e table_inv_nil Hrun).
Qed.

End Fetch.

(** ** Witnesses *)

Module FetchWitnesses.
Import PyStr PyFloat Formats Pipeline Fetch.

Definition av_mp4 (h : Z) (t : field float) : fmt :=
  mk_fmt Absent (Val "avc1") (Val "mp4a") (Val "mp4") (Val h) t.

Definition f360 := av_mp4 360 (Val (float_of_Z 500)).
Definition f720a := av_mp4 720 (Val (float_of_Z 1000)).
Definition f720b := av_mp4 720 (Val (float_of_Z 1500)).
Definition f1080_video_only := mk_fmt Absent (Val "avc1") (Val "none") (Val "mp4") (Val 1080%Z) Absent.
Definition f144_webm := mk_fmt Absent (Val "vp9") (Val "opus") (Val "webm") (Val 144%Z) Absent.
Definition f720_no_tbr := av_mp4 720 NoneVal.

Definition sample_fmts := [f360; f720a; f1080_video_only; f144_webm; f720b].
Definition sample_info := mk_info (Val sample_fmts) (Val "clip").
Definition broken_info := mk_info (Val [f720a; f360; f720_no_tbr]) (Val "clip").
Definition sample_run := select_formats sample_fmts ∅ [].
Definition sample_table := fst (fst sample_run).
Definition broken_run := select_formats [f720a; f360; f720_no_tbr] ∅ [].
Definition start_gui := mk_gui2 (mk_globals2 None ∅) "" [].
(** The state after an earlier successful fetch of [sample_info]. *)
Definition fetched_gui := fst (fetch_video_info2 (fun _ => Ok sample_info) "https://youtu.be/a" start_gui).

Lemma select_formats_best_witness :
  sample_run = (sample_table, snd (fst sample_run), Ok tt) /\ sample_table !! "720p" = Some f720b /\
  (In f720b sample_fmts /\ res_of f720b = Some "720p" /\
   forall f, In f sample_fmts -> res_of f = Some "720p" ->
     py_gt (tbr_or_zero f) (tbr_or_zero f720b) <> Ok true).
Proof.
  assert (H1 : sample_run = (sample_table, snd (fst sample_run), Ok tt)) by (vm_compute; reflexivity).
  assert (H2 : sample_table !! "720p" = Some f720b) by (vm_compute; reflexivity).
  split; [exact H1|]. split; [exact H2|].
  exact (select_formats_best sample_fmts sample_table (snd (fst sample_run)) "720p" f720b H1 H2).
Defined.

Lemma select_formats_options_witness :
  sample_run = (sample_table, ["360p"; "720p"], Ok tt) /\
  (NoDup ["360p"; "720p"] /\
   forall r, In r ["360p"; "720p"] <-> exists f, In f sample_fmts /\ res_of f = Some r).
Proof.
  assert (H : sample_run = (sample_table, ["360p"; "720p"], Ok tt)) by (vm_compute; reflexivity).
  split; [exact H|]. exact (select_formats_options sample_fmts sample_table _ H).
Defined.

Lemma fetch_selects_highest_witness :
  exists h, g_resolution fetched_gui = resolution_of h /\
    (exists f, In f sample_fmts /\ qualifies f = true /\ truthy_height f = Some h) /\
    (forall f h', In f sample_fmts -> qualifies f = true -> truthy_height f = Some h' -> (h' <= h)%Z).
Proof.
  apply (fetch_selects_highest (fun _ => Ok sample_info) "https://youtu.be/a" start_gui sample_info
           sample_fmts sample_table ["360p"; "720p"]).
  - vm_compute. reflexivity.
  - reflexivity.
  - reflexivity.
  - vm_compute. reflexivity.
  - discriminate.
Defined.

Lemma fetch_type_error_partial_witness :
  fetch_video_info2 (fun _ => Ok broken_info) "https://youtu.be/b" fetched_gui =
    (mk_gui2 (mk_globals2 (Some broken_info) (fst (fst broken_run))) (g_resolution fetched_gui) (g_menu fetched_gui),
     [ELog LFetching; ELog LFetchError; EBox BFetchFailed]) /\
  TypeError = TypeError /\
  exists f c, In f [f720a; f360; f720_no_tbr] /\ In c [f720a; f360; f720_no_tbr] /\ res_of f <> None /\
    res_of c = res_of f /\ (tbr_or_zero f = None \/ tbr_or_zero c = None).
Proof.
  apply (fetch_type_error_partial (fun _ => Ok broken_info) "https://youtu.be/b" fetched_gui broken_info
           [f720a; f360; f720_no_tbr] (fst (fst broken_run)) (snd (fst broken_run)) TypeError).
  - vm_compute. reflexivity.
  - reflexivity.
  - reflexivity.
  - vm_compute. reflexivity.
Defined.

(** After the failed second fetch the selected resolution ["720p"] names
    a format of the old table that [formats_available] no longer has:
    the partial table holds the 720p format of the new video only. *)
Example stale_selection_after_type_error :
  g_resolution fetched_gui = "720p" /\ g_menu fetched_gui = ["360p"; "720p"] /\
  fst (fst broken_run) !! "720p" = Some f720a /\ fst (fst broken_run) !! "360p" = Some f360.
Proof. vm_compute. repeat split. Qed.

End FetchWitnesses.
