(* ===== verification/FetchPytube.v ===== *)
(** * Acquisition: [fetch_video_info] of [src/frame_capture.py]

    Lines 19-52: the URL check, [YouTube(url)], the stream query
    [yt_obj.streams.filter(progressive=True, file_extension='mp4')
    .order_by('resolution').desc()], the loop that keeps the first stream
    of each resolution, the menu with the first option selected, and the
    title.  pytube is a library: its objects enter as values ([youtube]:
    the [streams] and [title] properties, each of which fetches and may
    raise), and the query is modelled from pytube's [StreamQuery]
    ([filter], [order_by], [desc]): [order_by] keeps the streams whose
    attribute is not [None], sorts them with Python's stable [sorted] by
    the integer made of the attribute's digits, and falls back to the
    attribute's string order when that integer cannot be read; [desc]
    reverses the list.  A stream whose attribute is set is kept with
    that attribute's value, as the pair [(resolution, stream)]. *)

From stdpp Require Import gmap strings.
From Stdlib Require Import ZArith String Ascii List Lia Sorting Permutation.
From S2P Require Import Prelude PyStr PyInt PySort Pipeline Fetch.
Import ListNotations.
Open Scope string_scope.
Open Scope bool_scope.
Open Scope list_scope.

Module FetchPytube.
Import PyStr PyInt PySort Pipeline.

(** A pytube [Stream], by the attributes the query and the loop read. *)
Record stream := mk_stream {
  itag : Z;
  is_progressive : bool;
  subtype : string;              (** compared with [file_extension] *)
  resolution : option string     (** ["720p"], or [None] for audio *)
}.

(** A [YouTube] object: its [streams] and [title] properties. *)
Record youtube := mk_youtube {
  yt_streams : res (list stream);
  yt_title : res string
}.

(** [filter(progressive=True, file_extension='mp4')] *)
Definition progressive_mp4 (s : stream) : bool :=
  is_progressive s && String.eqb (subtype s) "mp4".

(** The streams whose [resolution] is not [None], with it. *)
Fixpoint has_resolution (l : list stream) : list (string * stream) :=
  match l with
  | [] => []
  | s :: l' => match resolution s with
               | Some r => (r, s) :: has_resolution l'
               | None => has_resolution l'
               end
  end.

(** [int(''.join(filter(str.isdigit, s.resolution)))] *)
Definition digits_key (p : string * stream) : res Z := py_int (keep_digits (fst p)).

(** [order_by('resolution')]; the fallback's keys are strings and cannot
    raise, so its [Raise] branch is not reached. *)
Definition order_by_resolution (l : list stream) : list (string * stream) :=
  let has := has_resolution l in
  match has with
  | [] => []
  | _ =>
      match py_sorted Z.ltb digits_key has with
      | Ok sorted => sorted
      | Raise _ =>
          match py_sorted String.ltb (fun p => Ok (fst p)) has with
          | Ok sorted => sorted
          | Raise _ => has
          end
      end
  end.

(** The whole query of line 33; [desc()] reverses. *)
Definition stream_query (l : list stream) : list (string * stream) :=
  rev (order_by_resolution (filter progressive_mp4 l)).

(** The loop of lines 36-40 from [streams_available] = [table] and
    [options]. *)
Fixpoint first_per_resolution (streams : list (string * stream)) (table : gmap string stream)
    (options : list string) : gmap string stream * list string :=
  match streams with
  | [] => (table, options)
  | (res, s) :: rest =>
      match table !! res with
      | None => first_per_resolution rest (<[res := s]> table) (options ++ [res])
      | Some _ => first_per_resolution rest table options
      end
  end.

(** The state [fetch_video_info] reads and writes: the globals
    [yt_obj] and [streams_available], the selected resolution and the
    menu's labels. *)
Record gui1 := mk_gui1 {
  g1_globals : @globals1 stream;
  g1_resolution : string;
  g1_menu : list string
}.

Definition fetch1_error (g : @globals1 stream) (s : gui1) : gui1 * list event :=
  (mk_gui1 g (g1_resolution s) (g1_menu s), [ELog LFetching; ELog LFetchError; EBox BFetchFailed]).

(** [fetch_video_info()], lines 19-52; [youtube_of] is [YouTube(url)]. *)
Definition fetch_video_info1 (youtube_of : string -> res youtube) (url_entry : string) (s : gui1)
    : gui1 * list event :=
  let url := strip url_entry in
  if String.eqb url "" then (s, [EBox BNoUrl]) else
  match youtube_of url with
  | Raise _ => fetch1_error (g1_globals s) s
  | Ok yt =>
      let g := mk_globals1 (Some tt) (streams_available (g1_globals s)) in
      match yt_streams yt with
      | Raise _ => fetch1_error g s
      | Ok all =>
          match first_per_resolution (stream_query all) ∅ [] with
          | (table, []) =>
              (mk_gui1 (mk_globals1 (Some tt) table) (g1_resolution s) (g1_menu s),
               [ELog LFetching; ELog LNoStreams])
          | (table, (first :: _) as options) =>
              let s' := mk_gui1 (mk_globals1 (Some tt) table) first options in
              match yt_title yt with
              | Ok t => (s', [ELog LFetching; ELog LFetchOk; ELog (LTitle t)])
              | Raise _ => (s', [ELog LFetching; ELog LFetchOk; ELog LFetchError; EBox BFetchFailed])
              end
          end
      end
  end.

(** ** The query on numeric resolutions *)

(** Every progressive mp4 stream with a resolution has one of the form
    ["<n>p"], [n >= 0], as YouTube's streams do. *)
Definition numeric (all : list stream) : Prop :=
  forall st r, In st all -> progressive_mp4 st = true -> resolution st = Some r ->
    exists h, (0 <= h)%Z /\ r = Fetch.resolution_of h.

(** The height a pair sorts by. *)
Definition height_of (p : string * stream) : Z :=
  match digits_key p with Ok h => h | Raise _ => 0%Z end.

Definition last_opt {A} (l : list A) : option A := head (rev l).

Lemma keep_digits_all s : all_digits s = true -> keep_digits s = s.
Proof.
  induction s as [|c s IH]; simpl; [reflexivity|]. intros H. apply andb_prop in H as [Hc Hs].
  unfold str_isdigit. rewrite Hc. simpl. now rewrite IH.
Qed.

Lemma digits_key_resolution h st : (0 <= h)%Z -> digits_key (Fetch.resolution_of h, st) = Ok h.
Proof.
  intros Hh. unfold digits_key, Fetch.resolution_of. simpl fst.
  rewrite keep_digits_app, keep_digits_all by now apply str_of_Z_nonneg_digits.
  simpl. rewrite str_app_nil_r. apply py_int_str_of_Z.
Qed.

Lemma has_resolution_in r st l : In (r, st) (has_resolution l) <-> In st l /\ resolution st = Some r.
Proof.
  induction l as [|x l IH]; simpl; [tauto|].
  destruct (resolution x) as [r'|] eqn:Hx; simpl; rewrite IH; split.
  - intros [H|[]]; [injection H as <- <-; auto|auto].
  - intros [[<-|Hin] Hr]; [left; congruence|auto].
  - intros []; auto.
  - intros [[<-|Hin] Hr]; [congruence|auto].
Qed.

Lemma has_numeric all p : numeric all -> In p (has_resolution (filter progressive_mp4 all)) ->
  digits_key p = Ok (height_of p) /\ fst p = Fetch.resolution_of (height_of p).
Proof.
  intros Hnum Hp. destruct p as [r st]. apply has_resolution_in in Hp as [Hin Hr].
  apply filter_In in Hin as [Hin Hq]. destruct (Hnum st r Hin Hq Hr) as (h & Hh & ->).
  unfold height_of. rewrite digits_key_resolution by exact Hh. auto.
Qed.

Lemma filter_false {A} (l : list A) : filter (fun _ => false) l = [].
Proof. induction l; simpl; auto. Qed.

Lemma Zltb_le a b : (a <? b)%Z = true -> (a <= b)%Z.
Proof. intros H. apply Z.ltb_lt in H. lia. Qed.

Lemma Zltb_le_neq a b c : (a <? b)%Z = true -> (b <= c)%Z -> a <> c.
Proof. intros H. apply Z.ltb_lt in H. lia. Qed.

Lemma order_by_numeric all : numeric all ->
  py_sorted Z.ltb digits_key (has_resolution (filter progressive_mp4 all)) =
    Ok (order_by_resolution (filter progressive_mp4 all)).
Proof.
  intros Hnum. unfold order_by_resolution.
  rewrite (py_sorted_total Z.ltb height_of) by (intros p Hp; exact (proj1 (has_numeric all p Hnum Hp))).
  destruct (has_resolution (filter progressive_mp4 all)); reflexivity.
Qed.

(** On numeric resolutions, the pairs of one resolution keep the order
    of the stream list through [order_by]. *)
Lemma order_by_stable all r : numeric all ->
  filter (fun p => String.eqb (fst p) r) (order_by_resolution (filter progressive_mp4 all)) =
  filter (fun p => String.eqb (fst p) r) (has_resolution (filter progressive_mp4 all)).
Proof.
  intros Hnum. pose proof (order_by_numeric all Hnum) as Hs. set (has := has_resolution _) in *.
  assert (Hk : forall p, In p has -> digits_key p = Ok (height_of p)) by (intros p Hp; exact (proj1 (has_numeric all p Hnum Hp))).
  destruct (py_sorted_spec Z.ltb Z.le Zltb_le (fun a b => proj1 (Z.ltb_ge a b)) height_of digits_key has Hk)
    as (s' & Hs' & Hp & _). rewrite Hs in Hs'. injection Hs' as <-.
  assert (Hin : forall q, In q (order_by_resolution (filter progressive_mp4 all)) -> In q has)
    by (intros q Hq; eapply Permutation_in; [exact Hp|exact Hq]).
  destruct (existsb (fun p => String.eqb (fst p) r) has) eqn:Hex.
  - apply existsb_exists in Hex as (p0 & Hp0 & Hr). apply String.eqb_eq in Hr.
    assert (Heq : forall q, In q has -> String.eqb (fst q) r = Z.eqb (height_of q) (height_of p0)).
    { intros q Hq. rewrite <- Hr, (proj2 (has_numeric all q Hnum Hq)), (proj2 (has_numeric all p0 Hnum Hp0)).
      destruct (Z.eqb_spec (height_of q) (height_of p0)) as [->|Hne]; [apply String.eqb_refl|].
      apply String.eqb_neq. intros He. apply Hne, Fetch.resolution_of_inj, He. }
    rewrite (filter_ext_in _ _ _ (fun q Hq => Heq q (Hin q Hq))), (filter_ext_in _ _ has Heq).
    exact (py_sorted_stable Z.ltb Z.le Zltb_le (fun a b => proj1 (Z.ltb_ge a b)) Z.eqb Z.eqb_eq Zltb_le_neq
             height_of digits_key has _ (height_of p0) Hk Hs).
  - assert (Hno : forall q, In q has -> String.eqb (fst q) r = false).
    { intros q Hq. destruct (String.eqb (fst q) r) eqn:E; [|reflexivity].
      rewrite <- Hex. symmetry. apply existsb_exists. eauto. }
    rewrite (filter_ext_in _ (fun _ => false)) by (intros q Hq; exact (Hno q (Hin q Hq))).
    rewrite (filter_ext_in _ (fun _ => false) has) by exact Hno.
    now rewrite !filter_false.
Qed.

(** ** The loop over the query *)

Lemma fpr_lookup l table opts t o r : first_per_resolution l table opts = (t, o) ->
  t !! r = match table !! r with
           | Some st => Some st
           | None => option_map snd (find (fun p => String.eqb (fst p) r) l)
           end.
Proof.
  revert table opts; induction l as [|[r' st] l IH]; intros table opts H; simpl in H.
  - injection H as <- <-. destruct (table !! r); reflexivity.
  - simpl. destruct (String.eqb_spec r' r) as [<-|Hne]; destruct (table !! r') eqn:E.
    + rewrite (IH _ _ H), E. reflexivity.
    + rewrite (IH _ _ H), lookup_insert_eq. reflexivity.
    + exact (IH _ _ H).
    + rewrite (IH _ _ H), lookup_insert_ne by exact Hne. reflexivity.
Qed.

Lemma fpr_prefix l table opts t o : first_per_resolution l table opts = (t, o) ->
  exists suf, o = opts ++ suf.
Proof.
  revert table opts; induction l as [|[r' st] l IH]; intros table opts H; simpl in H.
  - injection H as <- <-. exists []. now rewrite app_nil_r.
  - destruct (table !! r'); apply IH in H as [suf ->]; [now exists suf|].
    exists (r' :: suf). now rewrite <- app_assoc.
Qed.

Lemma fpr_first p l t o : first_per_resolution (p :: l) ∅ [] = (t, o) -> exists suf, o = fst p :: suf.
Proof. destruct p as [r st]. simpl. rewrite lookup_empty. apply fpr_prefix. Qed.

Lemma find_app {A} (P : A -> bool) l1 l2 :
  find P (l1 ++ l2) = match find P l1 with Some y => Some y | None => find P l2 end.
Proof. induction l1 as [|x l1 IH]; simpl; [reflexivity|]. destruct (P x); auto. Qed.

Lemma last_opt_cons {A} (x : A) l : last_opt (x :: l) = match last_opt l with Some y => Some y | None => Some x end.
Proof. unfold last_opt. simpl. destruct (rev l); reflexivity. Qed.

(** Searching the reversed list finds the last match. *)
Lemma find_rev {A} (P : A -> bool) l : find P (rev l) = last_opt (filter P l).
Proof.
  induction l as [|x l IH]; simpl; [reflexivity|]. rewrite find_app, IH. simpl.
  destruct (P x); [rewrite last_opt_cons|]; destruct (last_opt (filter P l)); reflexivity.
Qed.

Lemma last_opt_map {A B} (f : A -> B) l : option_map f (last_opt l) = last_opt (map f l).
Proof. unfold last_opt. rewrite <- map_rev. destruct (rev l); reflexivity. Qed.

Lemma has_resolution_filter l r :
  map snd (filter (fun p => String.eqb (fst p) r) (has_resolution l)) =
  filter (fun st => bool_decide (resolution st = Some r)) l.
Proof.
  induction l as [|st l IH]; cbn [has_resolution filter map]; [reflexivity|].
  destruct (resolution st) as [r'|]; cbn [filter map fst].
  - destruct (String.eqb_spec r' r) as [->|Hne]; cbn [map snd].
    + rewrite bool_decide_eq_true_2 by reflexivity. now rewrite IH.
    + rewrite bool_decide_eq_false_2 by congruence. exact IH.
  - rewrite bool_decide_eq_false_2 by discriminate. exact IH.
Qed.

Lemma filter_filter_andb {A} (P Q : A -> bool) l : filter Q (filter P l) = filter (fun x => P x && Q x) l.
Proof. induction l as [|x l IH]; simpl; [reflexivity|]. destruct (P x); simpl; [destruct (Q x); simpl|]; now rewrite IH. Qed.

(** The stream the loop files under [r] is the last progressive mp4
    stream of resolution [r] in the stream list. *)
Lemma query_lookup all r t o : numeric all ->
  first_per_resolution (stream_query all) ∅ [] = (t, o) ->
  t !! r = last_opt (filter (fun st => progressive_mp4 st && bool_decide (resolution st = Some r)) all).
Proof.
  intros Hnum E. rewrite (fpr_lookup _ _ _ _ _ r E), lookup_empty. unfold stream_query.
  rewrite find_rev, order_by_stable by exact Hnum. rewrite last_opt_map, has_resolution_filter.
  now rewrite filter_filter_andb.
Qed.

(** [numeric] decided on a concrete stream list. *)
Definition numericb (all : list stream) : bool :=
  forallb (fun st => negb (progressive_mp4 st) ||
    match resolution st with
    | None => true
    | Some r => match digits_key (r, st) with
                | Ok h => (0 <=? h)%Z && String.eqb r (Fetch.resolution_of h)
                | Raise _ => false
                end
    end) all.

Lemma numericb_numeric all : numericb all = true -> numeric all.
Proof.
  unfold numericb. rewrite forallb_forall. intros H st r Hin Hp Hr. specialize (H st Hin).
  rewrite Hp, Hr in H. simpl in H. destruct (digits_key (r, st)) as [h|]; [|discriminate].
  apply andb_prop in H as [Hh Hr']. exists h. split; [now apply Z.leb_le|now apply String.eqb_eq].
Qed.

Lemma rev_last {A} (l : list A) d : l <> [] -> exists rest, rev l = last l d :: rest.
Proof.
  intros Hne. destruct (exists_last Hne) as (l' & a & ->).
  rewrite rev_app_distr, last_last. simpl. eauto.
Qed.

(** The query starts with a stream of the largest height. *)
Lemma query_head all : numeric all -> has_resolution (filter progressive_mp4 all) <> [] ->
  exists p rest, stream_query all = p :: rest /\ In p (has_resolution (filter progressive_mp4 all)) /\
    forall q, In q (has_resolution (filter progressive_mp4 all)) -> (height_of q <= height_of p)%Z.
Proof.
  intros Hnum Hne. pose proof (order_by_numeric all Hnum) as Hs. set (has := has_resolution _) in *.
  assert (Hk : forall p, In p has -> digits_key p = Ok (height_of p)) by (intros p Hp; exact (proj1 (has_numeric all p Hnum Hp))).
  destruct (py_sorted_spec Z.ltb Z.le Zltb_le (fun a b => proj1 (Z.ltb_ge a b)) height_of digits_key has Hk)
    as (s' & Hs' & Hp & Hsort). rewrite Hs in Hs'. injection Hs' as <-.
  set (sorted := order_by_resolution _) in *.
  assert (Hsne : sorted <> []) by (intros E; rewrite E in Hp; apply Permutation_nil in Hp; contradiction).
  destruct (rev_last sorted (EmptyString, mk_stream 0 false EmptyString None) Hsne) as [rest Hrev].
  exists (last sorted (EmptyString, mk_stream 0 false EmptyString None)), rest.
  split; [exact Hrev|]. split.
  - eapply Permutation_in; [exact Hp|]. destruct sorted as [|x l]; [contradiction|apply last_in_cons].
  - intros q Hq. assert (Hpre : RelationClasses.PreOrder (fun a b => (height_of a <= height_of b)%Z))
      by (constructor; intros ?; [|intros ? ?]; lia).
    apply (sorted_last_max _ _ _ _ Hsort). eapply Permutation_in; [symmetry; exact Hp|exact Hq].
Qed.

(** ** Properties *)

(** C23: on a fetch whose stream list the properties return, when every
    progressive mp4 stream's resolution reads as ["<n>p"], the resolution
    selected is the largest among the progressive mp4 streams (whether or
    not the title can be read afterwards). *)
Theorem fetch1_selects_highest youtube_of url s yt all :
  String.eqb (strip url) "" = false -> youtube_of (strip url) = Ok yt -> yt_streams yt = Ok all ->
  numeric all -> (exists st, In st all /\ progressive_mp4 st = true /\ resolution st <> None) ->
  exists h, g1_resolution (fst (fetch_video_info1 youtube_of url s)) = Fetch.resolution_of h /\
    (exists st, In st all /\ progressive_mp4 st = true /\ resolution st = Some (Fetch.resolution_of h)) /\
    (forall st h', In st all -> progressive_mp4 st = true ->
       resolution st = Some (Fetch.resolution_of h') -> (h' <= h)%Z).
Proof.
  intros Hu Hy Hs Hnum (st0 & Hin0 & Hp0 & Hr0).
  assert (Hne : has_resolution (filter progressive_mp4 all) <> []).
  { destruct (resolution st0) as [r0|] eqn:E; [|congruence]. intros Hnil.
    assert (Hx : In (r0, st0) (has_resolution (filter progressive_mp4 all)))
      by (apply has_resolution_in; split; [apply filter_In; auto|exact E]).
    rewrite Hnil in Hx. destruct Hx. }
  destruct (query_head all Hnum Hne) as (p & rest & Hq & Hpin & Hmax).
  destruct (has_numeric all p Hnum Hpin) as [_ Hfst].
  unfold fetch_video_info1. rewrite Hu, Hy, Hs, Hq.
  destruct (first_per_resolution (p :: rest) ∅ []) as [t o] eqn:E.
  destruct (fpr_first _ _ _ _ E) as [suf ->].
  exists (height_of p). split; [destruct (yt_title yt); exact Hfst|]. split.
  - destruct p as [r st]. apply has_resolution_in in Hpin as [Hin Hr]. apply filter_In in Hin as [Hin Hpr].
    exists st. simpl in Hfst. split; [exact Hin|]. split; [exact Hpr|]. rewrite Hr. congruence.
  - intros st h' Hin Hpr Hr.
    assert (Hq' : In (Fetch.resolution_of h', st) (has_resolution (filter progressive_mp4 all)))
      by (apply has_resolution_in; split; [apply filter_In; auto|exact Hr]).
    specialize (Hmax _ Hq'). destruct (Hnum st _ Hin Hpr Hr) as (h'' & Hh'' & Heq).
    apply Fetch.resolution_of_inj in Heq. subst h''. unfold height_of in Hmax at 1.
    now rewrite digits_key_resolution in Hmax.
Qed.

(** C24: after a fetch whose stream list the properties return, with
    numeric resolutions, [streams_available[r]] is the last progressive
    mp4 stream of resolution [r] in pytube's stream list, the one
    [order_by] and [desc] put first among those of [r]. *)
Theorem fetch1_keeps_last_stream youtube_of url s yt all r :
  String.eqb (strip url) "" = false -> youtube_of (strip url) = Ok yt -> yt_streams yt = Ok all ->
  numeric all ->
  streams_available (g1_globals (fst (fetch_video_info1 youtube_of url s))) !! r =
    last_opt (filter (fun st => progressive_mp4 st && bool_decide (resolution st = Some r)) all).
Proof.
  intros Hu Hy Hs Hnum. unfold fetch_video_info1. rewrite Hu, Hy, Hs.
  destruct (first_per_resolution (stream_query all) ∅ []) as [t o] eqn:E.
  rewrite <- (query_lookup all r t o Hnum E).
  destruct o; [reflexivity|]. destruct (yt_title yt); reflexivity.
Qed.

End FetchPytube.

(** ** Witnesses *)

Module FetchPytubeWitnesses.
Import PyStr Pipeline FetchPytube.

Definition st360 := mk_stream 18 true "mp4" (Some "360p").
Definition st720 := mk_stream 22 true "mp4" (Some "720p").
Definition st720b := mk_stream 37 true "mp4" (Some "720p").
Definition st_audio := mk_stream 140 false "mp4" None.
Definition st1080_webm := mk_stream 43 true "webm" (Some "1080p").
Definition sample_streams := [st360; st720; st_audio; st720b; st1080_webm].
Definition sample_yt := mk_youtube (Ok sample_streams) (Ok "clip").
Definition start_gui1 : gui1 := mk_gui1 (mk_globals1 None ∅) "" [""].
Definition fetched1 := fetch_video_info1 (fun _ => Ok sample_yt) "https://youtu.be/a" start_gui1.

Lemma fetch1_selects_highest_witness :
  exists h, g1_resolution (fst fetched1) = Fetch.resolution_of h /\
    (exists st, In st sample_streams /\ progressive_mp4 st = true /\ resolution st = Some (Fetch.resolution_of h)) /\
    (forall st h', In st sample_streams -> progressive_mp4 st = true ->
       resolution st = Some (Fetch.resolution_of h') -> (h' <= h)%Z).
Proof.
  apply (fetch1_selects_highest (fun _ => Ok sample_yt) "https://youtu.be/a" start_gui1 sample_yt sample_streams).
  - vm_compute. reflexivity.
  - reflexivity.
  - reflexivity.
  - apply numericb_numeric. vm_compute. reflexivity.
  - exists st720. split; [simpl; tauto|]. split; [reflexivity|discriminate].
Defined.

Lemma fetch1_keeps_last_stream_witness :
  streams_available (g1_globals (fst fetched1)) !! "720p" =
    last_opt (filter (fun st => progressive_mp4 st && bool_decide (resolution st = Some "720p")) sample_streams).
Proof.
  apply (fetch1_keeps_last_stream (fun _ => Ok sample_yt) "https://youtu.be/a" start_gui1 sample_yt sample_streams).
  - vm_compute. reflexivity.
  - reflexivity.
  - reflexivity.
  - apply numericb_numeric. vm_compute. reflexivity.
Defined.

(** The fetch selects ["720p"], files the later of the two 720p streams
    (itag 37), and drops the audio and webm streams. *)
Example fetched1_sample :
  g1_resolution (fst fetched1) = "720p" /\ g1_menu (fst fetched1) = ["720p"; "360p"] /\
  streams_available (g1_globals (fst fetched1)) !! "720p" = Some st720b /\
  streams_available (g1_globals (fst fetched1)) !! "1080p" = None.
Proof. vm_compute. repeat split. Qed.

End FetchPytubeWitnesses.
