(* ===== verification/Thread.v ===== *)
(** * The [process()] thread of [src/frame_capture2.py] as a small-step machine

    [download_and_capture] starts [process()] on a worker thread
    (line 168), so the thread's reads of the globals and the widgets, and
    its writes to the working directory, interleave with the GUI thread
    and with other workers.  [thread_step] is [process()] cut at the
    statements that touch shared state: the checks of lines 75-85, the
    lookup of line 86, the download (97-104), the entries (106-131), the
    open (133-138), one timestamp of the loop (141-157), the release
    (158), [os.path.exists] (161), [os.remove] (162-163) and the final
    log (165).  The program counter [pc] keeps the thread's locals.

    The refinement theorem shows that a thread running alone, with the
    globals and the entries unchanged, ends exactly as the big-step
    [process2] of [Pipeline]: same outcome, same directory, same trace.
    The measure [pc_measure] bounds the number of steps a thread can
    make, which gives the fuel. *)

From stdpp Require Import gmap strings.
From Stdlib Require Import ZArith String List Lia SpecFloat.
From S2P Require Import Prelude PyStr PyFloat Timestamps CropSpec CropApplier FrameSource Formats Pipeline.
Import ListNotations.
Open Scope string_scope.
Open Scope bool_scope.
Open Scope list_scope.

Module Thread.
Import PyStr PyFloat Timestamps CropSpec CropApplier FrameSource Formats Pipeline.

(** Where the thread is, with its locals; [Cap] is the type of the
    OpenCV capture the thread holds. *)
Inductive pc (Cap : Type) : Type :=
  | PStart                                   (** line 75 *)
  | PLookup (url sel : string)               (** line 86 *)
  | PDownload (url : string) (format_id : option string)   (** line 97 *)
  | PParse                                   (** line 107 *)
  | POpen (tss : list float) (cp : option crop)             (** line 134 *)
  | PLoop (tss : list float) (cp : option crop) (cap : Cap) (frame_count : Z)  (** line 141 *)
  | PRelease (cap : Cap)                     (** line 158 *)
  | PExists                                  (** line 161 *)
  | PRemove                                  (** line 162 *)
  | PLogDone                                 (** line 165 *)
  | PDone                                    (** returned *)
  | PCrashed (e : exn).                      (** an exception left the thread *)
Arguments PStart {Cap}. Arguments PLookup {Cap} url sel. Arguments PDownload {Cap} url format_id.
Arguments PParse {Cap}. Arguments POpen {Cap} tss cp. Arguments PLoop {Cap} tss cp cap frame_count.
Arguments PRelease {Cap} cap. Arguments PExists {Cap}. Arguments PRemove {Cap}.
Arguments PLogDone {Cap}. Arguments PDone {Cap}. Arguments PCrashed {Cap} e.

Section Thread.
Context {Video Pixel : Type} `{VC : VideoCapture Video Pixel} `{IW : ImageWriter Pixel}.
Variable ydl_download : string -> option string -> res Video.

#[local] Abbreviation M := (@M Video Pixel).
#[local] Abbreviation emit := (@emit Video Pixel).
#[local] Abbreviation pc := (pc cap_t).

Definition video_filename : string := "downloaded_video.mp4".

(** One step of the thread, reading the globals [g] and the widgets
    [inp] as they are when it runs. *)
Definition thread_step (g : globals2) (inp : inputs) (t : pc) : M pc :=
  match t with
  | PStart =>
      let url := strip (url_entry inp) in
      if String.eqb url "" then do emit (EBox BNoUrl); mret PDone else
      match video_info g with
      | None => do emit (EBox BNoInfo); mret PDone
      | Some _ =>
          let sel := resolution_var inp in
          match formats_available g !! sel with
          | None => do emit (EBox BBadResolution); mret PDone
          | Some _ => mret (PLookup url sel)
          end
      end
  | PLookup url sel =>
      match formats_available g !! sel with
      | None => mraise KeyError
      | Some chosen => do emit (ELog LDownloading); mret (PDownload url (get (format_id chosen)))
      end
  | PDownload url fid =>
      do emit (EDownload url fid);
      match ydl_download url fid with
      | Raise _ => do emit (ELog LDownloadError); do emit (EBox BDownloadFailed); mret PDone
      | Ok v =>
          do ydl_store video_filename (FVideo v);
          do emit (ELog LDownloaded);
          mret PParse
      end
  | PParse =>
      match parse_timestamps (timestamps_entry inp) with
      | TsEmptyInput => do emit (EBox BNoTimestamp); mret PDone
      | TsParseError _ => do emit (ELog LTsParseError); do emit (EBox BBadTimestamps); mret PDone
      | TsOk tss =>
          match parse_crop (crop_entry inp) with
          | CropParseError _ => do emit (ELog LCropParseError); do emit (EBox BBadCrop); mret PDone
          | CropNone => mret (POpen tss None)
          | CropParams c => mret (POpen tss (Some c))
          end
      end
  | POpen tss cp =>
      let* f := get_file video_filename in
      do emit (EOpen video_filename);
      let cap := cap_open (video_of f) in
      if negb (cap_isOpened cap) then
        do emit (ELog LOpenError); do emit (EBox BOpenFailed); mret PDone
      else mret (PLoop tss cp cap 0)
  | PLoop [] _ cap _ => mret (PRelease cap)
  | PLoop (ts :: rest) cp cap n =>
      let* '(cap, n) := capture_one cp ts cap n in mret (PLoop rest cp cap n)
  | PRelease cap =>
      let _ := cap_release cap in
      do emit ERelease; mret PExists
  | PExists =>
      let* f := get_file video_filename in
      mret (match f with Some _ => PRemove | None => PLogDone end)
  | PRemove =>
      do remove_file video_filename; do emit (ELog LVideoDeleted); mret PLogDone
  | PLogDone => do emit (ELog LDone); mret PDone
  | PDone => mret PDone
  | PCrashed e => mret (PCrashed e)
  end.

(** The step on the world, an escaping exception ending the thread. *)
Definition tstep (g : globals2) (inp : inputs) (t : pc) (w : world) : pc * world :=
  match thread_step g inp t w with
  | (Ok t', w') => (t', w')
  | (Raise e, w') => (PCrashed e, w')
  end.

Definition final (t : pc) : bool :=
  match t with PDone | PCrashed _ => true | _ => false end.

(** The number of timestamps the entries give, [0] if they give none. *)
Definition ts_bound (inp : inputs) : nat :=
  match parse_timestamps (timestamps_entry inp) with TsOk l => length l | _ => O end.

(** An upper bound on the steps left, for fixed entries. *)
Definition pc_measure (inp : inputs) (t : pc) : nat :=
  match t with
  | PDone | PCrashed _ => 0
  | PLogDone => 1
  | PRemove => 2
  | PExists => 3
  | PRelease _ => 4
  | PLoop tss _ _ _ => 5 + length tss
  | POpen tss _ => 6 + length tss
  | PParse => 7 + ts_bound inp
  | PDownload _ _ => 8 + ts_bound inp
  | PLookup _ _ => 9 + ts_bound inp
  | PStart => 10 + ts_bound inp
  end.

(** A thread run alone, for at most [fuel] steps. *)
Fixpoint run_thread (fuel : nat) (g : globals2) (inp : inputs) (t : pc) (w : world) : pc * world :=
  match fuel with
  | O => (t, w)
  | S fuel' =>
      if final t then (t, w)
      else let '(t', w') := tstep g inp t w in run_thread fuel' g inp t' w'
  end.

(** Case analysis on every [match] of a step, after unfolding the
    monad. *)
Ltac step_cases :=
  unfold tstep; cbn [thread_step];
  unfold mbind, mret, emit, get_file, put_file, ydl_store, remove_file, mraise;
  destruct_innermost.

(** Each step of a running thread lowers its measure. *)
Lemma tstep_measure g inp t w : final t = false ->
  pc_measure inp (fst (tstep g inp t w)) < pc_measure inp t.
Proof.
  intros Hf. destruct t as [|url sel|url fid| |tss cp|[|ts tss] cp cap n|cap| | | | |e];
    try discriminate; cbn [pc_measure].
  4: { unfold tstep, ts_bound. cbn [thread_step].
       destruct (parse_timestamps _); [destruct (parse_crop _)| |]; simpl; lia. }
  all: step_cases; simpl; lia.
Qed.

(** ** Refinement of the big-step [process2] *)

(** What is left of [process2] at each point of the thread, for fixed
    globals and entries. *)
Definition denote (g : globals2) (inp : inputs) (t : pc) : M unit :=
  match t with
  | PStart => process2 ydl_download g inp
  | PLookup url sel =>
      match formats_available g !! sel with
      | None => mraise KeyError
      | Some chosen =>
          do emit (ELog LDownloading);
          download_then_extract ydl_download url (get (format_id chosen)) (timestamps_entry inp) (crop_entry inp)
      end
  | PDownload url fid => download_then_extract ydl_download url fid (timestamps_entry inp) (crop_entry inp)
  | PParse => parse_entries (timestamps_entry inp) (crop_entry inp) (extract video_filename)
  | POpen tss cp => extract video_filename tss cp
  | PLoop tss cp cap n =>
      let* '(cap, _) := capture_loop cp tss cap n in finish video_filename cap
  | PRelease cap => finish video_filename cap
  | PExists =>
      let* f := get_file video_filename in
      do (match f with
          | Some _ => do remove_file video_filename; emit (ELog LVideoDeleted)
          | None => mret tt
          end);
      emit (ELog LDone)
  | PRemove => do (do remove_file video_filename; emit (ELog LVideoDeleted)); emit (ELog LDone)
  | PLogDone => emit (ELog LDone)
  | PDone => mret tt
  | PCrashed e => mraise e
  end.

(** A step keeps what is left to do. *)
Lemma denote_step g inp t w :
  denote g inp t w = denote g inp (fst (tstep g inp t w)) (snd (tstep g inp t w)).
Proof.
  unfold tstep. destruct t as [|url sel|url fid| |tss cp|[|ts tss] cp cap n|cap| | | | |e]; cbn [denote thread_step].
  - unfold process2. destruct (String.eqb _ _); [reflexivity|].
    destruct (video_info g); [|reflexivity]. destruct (formats_available g !! _) eqn:E; [|reflexivity].
    unfold mret at 1. cbn [fst snd denote]. now rewrite E.
  - destruct (formats_available g !! sel); reflexivity.
  - unfold download_then_extract. cbn zeta. unfold mbind at 1 3, emit at 1 2.
    destruct (ydl_download url fid); reflexivity.
  - unfold parse_entries. destruct (parse_timestamps _); [destruct (parse_crop _)| |]; reflexivity.
  - unfold extract. cbn [mbind get_file emit mret fs trace fst snd].
    destruct (cap_isOpened _); reflexivity.
  - reflexivity.
  - cbn [capture_loop]. rewrite mbind_assoc. unfold mbind.
    destruct (capture_one cp ts cap n w) as [[[cap' n']|e] w']; reflexivity.
  - reflexivity.
  - unfold mbind, get_file. destruct (fs w !! video_filename); reflexivity.
  - unfold mbind, remove_file. destruct (fs w !! video_filename); reflexivity.
  - reflexivity.
  - reflexivity.
  - reflexivity.
Qed.

Lemma measure_zero inp t : pc_measure inp t = 0 -> final t = true.
Proof. destruct t; simpl; try reflexivity; lia. Qed.

Lemma run_thread_denote fuel g inp t w :
  denote g inp t w = denote g inp (fst (run_thread fuel g inp t w)) (snd (run_thread fuel g inp t w)).
Proof.
  revert t w; induction fuel as [|fuel IH]; intros t w; simpl; [reflexivity|].
  destruct (final t); [reflexivity|]. rewrite (denote_step g inp t w).
  destruct (tstep g inp t w) as [t' w']. apply IH.
Qed.

(** Enough fuel takes a thread run alone to its end. *)
Lemma run_thread_final fuel g inp t w : pc_measure inp t <= fuel ->
  final (fst (run_thread fuel g inp t w)) = true.
Proof.
  revert t w; induction fuel as [|fuel IH]; intros t w Hm; simpl.
  - apply (measure_zero inp). lia.
  - destruct (final t) eqn:Hf; [exact Hf|].
    pose proof (tstep_measure g inp t w Hf) as Hlt.
    destruct (tstep g inp t w) as [t' w']. apply IH. simpl in Hlt. lia.
Qed.

(** The outcome of [process()] as the thread's final state. *)
Definition outcome (r : res unit) : pc :=
  match r with Ok _ => PDone | Raise e => PCrashed e end.

(** C25: a [process()] thread run alone, with the globals and entries
    unchanged, reaches its end within [pc_measure] steps, and ends as
    the big-step [process2]: returned or crashed with the same
    exception, with the same working directory and the same calls. *)
Theorem thread_refines_process2 fuel g inp w : pc_measure inp PStart <= fuel ->
  run_thread fuel g inp PStart w =
    (outcome (fst (process2 ydl_download g inp w)), snd (process2 ydl_download g inp w)).
Proof.
  intros Hm. pose proof (run_thread_final fuel g inp PStart w Hm) as Hf.
  pose proof (run_thread_denote fuel g inp PStart w) as Hd. cbn [denote] in Hd.
  rewrite Hd. destruct (run_thread fuel g inp PStart w) as [t' w'].
  destruct t'; try discriminate; reflexivity.
Qed.

End Thread.

(** ** Witness *)

Lemma thread_refines_process2_witness :
  @run_thread (list_video nat) nat (ListCapture nat) writes_all download_ok
    20 globals_720 (inputs_of "2,25" "") PStart (mk_world ∅ []) =
    (outcome (fst (run2 (inputs_of "2,25" ""))), snd (run2 (inputs_of "2,25" ""))).
Proof.
  apply (@thread_refines_process2 (list_video nat) nat (ListCapture nat) writes_all download_ok).
  vm_compute. lia.
Defined.

End Thread.
