(* ===== verification/App.v ===== *)
(** * The window of [src/frame_capture2.py] and its threads

    Lines 174-215 build the window: four widgets the user edits (the URL
    entry, the resolution menu and its variable, the timestamp and crop
    entries), the "Fetch Video Info" button that runs [fetch_video_info]
    on the GUI thread, and the "Download dan Capture Frame" button whose
    command [download_and_capture] starts a new [process()] thread
    (line 168) and returns.  [root.mainloop()] then dispatches the user's
    events while the worker threads run.

    A configuration holds the widgets, the menu's labels, the globals
    [video_info] and [formats_available] (lines 8-10), the working
    directory with the calls made so far, and the program counters of
    the worker threads started.  [step] is one event: the user edits an
    entry, picks a menu label, clicks one of the buttons, or one worker
    makes one step of [Thread.thread_step] on the state as it is then.
    The fetch runs as one step: the workers' interleavings inside it are
    not modelled (the races below need none).  Each worker reads the
    shared globals and widgets when it runs, and all workers download to
    the same file name, where yt-dlp keeps a file that is already there
    ([Pipeline.ydl_store]). *)

From stdpp Require Import gmap strings relations.
From Stdlib Require Import ZArith String List Lia SpecFloat.
From S2P Require Import Prelude PyStr PyFloat Timestamps CropSpec CropApplier FrameSource Formats Pipeline Fetch Thread.
Import ListNotations.
Open Scope string_scope.
Open Scope bool_scope.
Open Scope list_scope.

Module App.
Import PyStr PyFloat Timestamps CropSpec CropApplier FrameSource Formats Pipeline Fetch Thread.

Section App.
Context {Video Pixel : Type} `{VC : VideoCapture Video Pixel} `{IW : ImageWriter Pixel}.
Variable ydl_download : string -> option string -> res Video.
Variable extract_info : string -> res info.

Record config := mk_config {
  c_inputs : inputs;                 (** the entries and [resolution_var] *)
  c_menu : list string;              (** the labels of [resolution_menu] *)
  c_globals : globals2;              (** [video_info], [formats_available] *)
  c_world : @world Video Pixel;      (** the working directory and the calls *)
  c_threads : list (pc (@cap_t Video Pixel VC))  (** the workers, in start order *)
}.

(** The window once built, over the directory [d]: the entries of
    lines 183-204 empty, [resolution_var] empty and the menu holding
    [""] (lines 192-193), the globals of lines 8-10, no worker. *)
Definition init (d : gmap string (@file Video Pixel)) : config :=
  mk_config (mk_inputs "" "" "" "") [""] (mk_globals2 None ∅) (mk_world d []) [].

Definition set_inputs (c : config) (inp : inputs) : config :=
  mk_config inp (c_menu c) (c_globals c) (c_world c) (c_threads c).

(** The "Fetch Video Info" button: [fetch_video_info] on the GUI thread. *)
Definition fetch_click (c : config) : config :=
  let inp := c_inputs c in
  let '(s, evs) := fetch_video_info2 extract_info (url_entry inp)
                     (mk_gui2 (c_globals c) (resolution_var inp) (c_menu c)) in
  mk_config (mk_inputs (url_entry inp) (g_resolution s) (timestamps_entry inp) (crop_entry inp))
            (g_menu s) (g_globals s)
            (mk_world (fs (c_world c)) (trace (c_world c) ++ evs)) (c_threads c).

(** The "Download dan Capture Frame" button: [download_and_capture]
    starts [process()] on a new thread. *)
Definition start_click (c : config) : config :=
  mk_config (c_inputs c) (c_menu c) (c_globals c) (c_world c) (c_threads c ++ [PStart]).

(** Worker [i], at [t], makes one step. *)
Definition worker_move (c : config) (i : nat) (t : pc cap_t) : config :=
  let '(t', w') := tstep ydl_download (c_globals c) (c_inputs c) t (c_world c) in
  mk_config (c_inputs c) (c_menu c) (c_globals c) w' (<[i := t']> (c_threads c)).

Inductive worker_step : config -> config -> Prop :=
  | WStep c i t : c_threads c !! i = Some t -> final t = false -> worker_step c (worker_move c i t).

Inductive step : config -> config -> Prop :=
  | SEditUrl c s : step c (set_inputs c (mk_inputs s (resolution_var (c_inputs c))
                                        (timestamps_entry (c_inputs c)) (crop_entry (c_inputs c))))
  | SEditTimestamps c s : step c (set_inputs c (mk_inputs (url_entry (c_inputs c))
                                        (resolution_var (c_inputs c)) s (crop_entry (c_inputs c))))
  | SEditCrop c s : step c (set_inputs c (mk_inputs (url_entry (c_inputs c))
                                        (resolution_var (c_inputs c)) (timestamps_entry (c_inputs c)) s))
  | SSelect c r : In r (c_menu c) ->
      step c (set_inputs c (mk_inputs (url_entry (c_inputs c)) r
                                      (timestamps_entry (c_inputs c)) (crop_entry (c_inputs c))))
  | SFetch c : step c (fetch_click c)
  | SStart c : step c (start_click c)
  | SWorker c c' : worker_step c c' -> step c c'.

(** The steps the workers have left, for the entries as they are. *)
Definition cfg_measure (c : config) : nat :=
  sum_list (map (pc_measure (c_inputs c)) (c_threads c)).

(** ** Lemmas *)

Lemma sum_insert (m : pc (@cap_t Video Pixel VC) -> nat) (l : list (pc cap_t)) i t t' :
  l !! i = Some t -> sum_list (map m (<[i := t']> l)) + m t = sum_list (map m l) + m t'.
Proof.
  revert i; induction l as [|x l IH]; intros [|i] Hi; simpl in *; try discriminate.
  - injection Hi as ->. lia.
  - specialize (IH i Hi). lia.
Qed.

(** A worker step lowers the steps the workers have left. *)
Lemma worker_step_measure c c' : worker_step c c' -> cfg_measure c' < cfg_measure c.
Proof.
  intros [c0 i t Hi Hf]. unfold worker_move, cfg_measure.
  pose proof (tstep_measure ydl_download (c_globals c0) (c_inputs c0) t (c_world c0) Hf) as Hlt.
  destruct (tstep ydl_download (c_globals c0) (c_inputs c0) t (c_world c0)) as [t' w']. simpl in *.
  pose proof (sum_insert (pc_measure (c_inputs c0)) (c_threads c0) i t t' Hi). lia.
Qed.

(** Invariants by induction on the steps. *)
Lemma step_invariant (P : config -> Prop) c c' :
  P c -> (forall x y, P x -> step x y -> P y) -> rtc step c c' -> P c'.
Proof. intros Hc Hstep Hr. induction Hr as [|x y z Hxy Hyz IH]; [exact Hc|]. exact (IH (Hstep x y Hc Hxy)). Qed.

(** ** The working directory's files *)

(** A name [f"frame_{n}_at_{ts:.2f}s.jpg"]. *)
Definition frame_name (name : string) : Prop := exists n ts, name = frame_filename n ts.

(** The video file holds a video; every other file is a frame image
    under a frame name, which is never the video's name. *)
Definition dir_typed (d : gmap string (@file Video Pixel)) : Prop :=
  forall name f, d !! name = Some f ->
    (name = video_filename /\ exists v, f = FVideo v) \/
    (name <> video_filename /\ frame_name name /\ exists img, f = FImage img).

Lemma dir_typed_video d v : dir_typed d -> dir_typed (<[video_filename := FVideo v]> d).
Proof.
  intros Hd name f. rewrite lookup_insert. destruct (decide (video_filename = name)) as [<-|Hne].
  - intros H. injection H as <-. left. eauto.
  - apply Hd.
Qed.

Lemma dir_typed_frame d n ts img : dir_typed d -> dir_typed (<[frame_filename n ts := FImage img]> d).
Proof.
  intros Hd name f. rewrite lookup_insert. destruct (decide (frame_filename n ts = name)) as [<-|Hne].
  - intros H. injection H as <-. right.
    split; [intros E; exact (downloaded_not_frame_name n ts (eq_sym E))|split; [exists n, ts; reflexivity|eauto]].
  - apply Hd.
Qed.

Lemma dir_typed_delete d name : dir_typed d -> dir_typed (delete name d).
Proof.
  intros Hd name' f. rewrite lookup_delete. destruct (decide (name = name')); [discriminate|apply Hd].
Qed.

Lemma dir_typed_stored d v : dir_typed d -> dir_typed (stored d video_filename (FVideo v)).
Proof. intros Hd. unfold stored. destruct (d !! video_filename); [exact Hd|exact (dir_typed_video d v Hd)]. Qed.

Create HintDb app.
#[local] Hint Resolve dir_typed_video dir_typed_frame dir_typed_delete dir_typed_stored : app.

(** A worker step only writes the video and frame images. *)
Lemma tstep_dir_typed g inp t w : dir_typed (fs w) -> dir_typed (fs (snd (tstep ydl_download g inp t w))).
Proof.
  intros Hd. unfold tstep. destruct t as [|url sel|url fid| |tss cp|[|ts tss] cp cap n|cap| | | | |e];
    cbn [thread_step];
    unfold capture_one, imwrite, mbind, mret, emit, get_file, put_file, ydl_store, remove_file, mraise;
    destruct_innermost; simpl; auto with app.
Qed.

(** ** Schedules *)

(** The events of a schedule, run one after the other. *)
Inductive action : Type :=
  | AEditUrl (s : string)
  | AEditTimestamps (s : string)
  | AEditCrop (s : string)
  | ASelect (r : string)
  | AFetch
  | AStart
  | AWorker (i : nat).

(** The configuration after [a], if [a] can happen. *)
Definition apply_action (a : action) (c : config) : option config :=
  let inp := c_inputs c in
  match a with
  | AEditUrl s => Some (set_inputs c (mk_inputs s (resolution_var inp) (timestamps_entry inp) (crop_entry inp)))
  | AEditTimestamps s => Some (set_inputs c (mk_inputs (url_entry inp) (resolution_var inp) s (crop_entry inp)))
  | AEditCrop s => Some (set_inputs c (mk_inputs (url_entry inp) (resolution_var inp) (timestamps_entry inp) s))
  | ASelect r =>
      if existsb (String.eqb r) (c_menu c)
      then Some (set_inputs c (mk_inputs (url_entry inp) r (timestamps_entry inp) (crop_entry inp)))
      else None
  | AFetch => Some (fetch_click c)
  | AStart => Some (start_click c)
  | AWorker i =>
      match c_threads c !! i with
      | Some t => if final t then None else Some (worker_move c i t)
      | None => None
      end
  end.

Fixpoint run_schedule (acts : list action) (c : config) : option config :=
  match acts with
  | [] => Some c
  | a :: rest => match apply_action a c with Some c' => run_schedule rest c' | None => None end
  end.

Lemma apply_action_step a c c' : apply_action a c = Some c' -> step c c'.
Proof.
  destruct a as [s|s|s|r| | |i]; simpl; intros H.
  - injection H as <-. apply SEditUrl.
  - injection H as <-. apply SEditTimestamps.
  - injection H as <-. apply SEditCrop.
  - destruct (existsb (String.eqb r) (c_menu c)) eqn:E; [|discriminate]. injection H as <-.
    apply SSelect. apply existsb_exists in E as (x & Hx & Hr). apply String.eqb_eq in Hr. now subst.
  - injection H as <-. apply SFetch.
  - injection H as <-. apply SStart.
  - destruct (c_threads c !! i) as [t|] eqn:Hi; [|discriminate].
    destruct (final t) eqn:Hf; [discriminate|]. injection H as <-. apply SWorker. constructor; assumption.
Qed.

Lemma run_schedule_rtc acts c c' : run_schedule acts c = Some c' -> rtc step c c'.
Proof.
  revert c; induction acts as [|a acts IH]; intros c H; simpl in H; [injection H as <-; reflexivity|].
  destruct (apply_action a c) as [c1|] eqn:E; [|discriminate].
  eapply rtc_l; [apply (apply_action_step a c c1 E)|exact (IH c1 H)].
Qed.

(** The configuration a schedule reaches, if every action can happen. *)
Definition reach (acts : list action) (c : config) : config :=
  match run_schedule acts c with Some c' => c' | None => c end.

Definition schedule_ok (acts : list action) (c : config) : bool :=
  match run_schedule acts c with Some _ => true | None => false end.

Lemma reach_rtc acts c : schedule_ok acts c = true -> rtc step c (reach acts c).
Proof.
  unfold schedule_ok, reach. destruct (run_schedule acts c) as [c'|] eqn:E; [|discriminate].
  intros _. exact (run_schedule_rtc acts c c' E).
Qed.

(** ** Properties *)

(** C26: worker steps alone always terminate: there is no infinite run
    of the started [process()] threads, whatever the schedule. *)
Theorem workers_terminate c : sn worker_step c.
Proof.
  remember (cfg_measure c) as m eqn:Hm. revert c Hm.
  induction m as [m IH] using lt_wf_ind. intros c Hm. constructor. intros c' Hs.
  apply (IH (cfg_measure c')); [subst m; apply worker_step_measure; exact Hs|reflexivity].
Qed.

(** C27: in every configuration reachable from the window's start, the
    selected resolution is one of the menu's labels and the labels are
    distinct. *)
Theorem menu_consistent d c : rtc step (init d) c ->
  In (resolution_var (c_inputs c)) (c_menu c) /\ NoDup (c_menu c).
Proof.
  apply (step_invariant (fun c => In (resolution_var (c_inputs c)) (c_menu c) /\ NoDup (c_menu c))).
  { simpl. split; [now left|repeat constructor; simpl; tauto]. }
  intros x y Hx Hs. destruct Hs as [z s|z s|z s|z r Hr|z|z|z z' Hw]; try exact Hx.
  - split; [exact Hr|exact (proj2 Hx)].
  - unfold fetch_click.
    pose proof (fetch_menu_ok extract_info (url_entry (c_inputs z))
                  (mk_gui2 (c_globals z) (resolution_var (c_inputs z)) (c_menu z)) Hx) as Hok.
    destruct (fetch_video_info2 _ _ _) as [s' evs]. exact Hok.
  - inversion Hw as [c0 i t Hi Hf]; subst. unfold worker_move.
    destruct (tstep _ _ _ _ _). exact Hx.
Qed.

(** C28: in every configuration reachable from a directory of that kind,
    [downloaded_video.mp4] holds a video and every other file is a frame
    image named [frame_{n}_at_{ts:.2f}s.jpg], a name distinct from the
    video's: the threads write nothing else, whatever the interleaving. *)
Theorem directory_typed d c : dir_typed d -> rtc step (init d) c -> dir_typed (fs (c_world c)).
Proof.
  intros Hd. apply (step_invariant (fun c => dir_typed (fs (c_world c)))); [exact Hd|].
  intros x y Hx Hs. destruct Hs as [z s|z s|z s|z r Hr|z|z|z z' Hw]; try exact Hx.
  - unfold fetch_click. destruct (fetch_video_info2 _ _ _). exact Hx.
  - inversion Hw as [c0 i t Hi Hf]; subst. unfold worker_move.
    pose proof (tstep_dir_typed (c_globals z) (c_inputs z) t (c_world z) Hx) as Ht.
    destruct (tstep _ _ _ _ _). exact Ht.
Qed.

(** C29: the check of line 83 and the lookup of line 86 are separate
    steps: a worker that passed the check while the GUI thread has since
    fetched another video without the selected resolution dies with
    [KeyError] at the lookup, with no message box and nothing
    downloaded. *)
Theorem lookup_race c i url sel :
  c_threads c !! i = Some (PLookup url sel) -> formats_available (c_globals c) !! sel = None ->
  worker_step c (mk_config (c_inputs c) (c_menu c) (c_globals c) (c_world c)
                   (<[i := PCrashed KeyError]> (c_threads c))).
Proof.
  intros Hi Hsel.
  replace (mk_config _ _ _ _ _) with (worker_move c i (PLookup url sel)).
  - constructor; [exact Hi|reflexivity].
  - unfold worker_move, tstep. cbn [thread_step]. rewrite Hsel. reflexivity.
Qed.

(** C30: [os.path.exists] (line 161) and [os.remove] (line 162) are
    separate steps and every worker uses the same file name: a worker
    about to remove the video after another worker removed it dies with
    [FileNotFoundError], before its last two log lines. *)
Theorem remove_race c i :
  c_threads c !! i = Some PRemove -> fs (c_world c) !! video_filename = None ->
  worker_step c (mk_config (c_inputs c) (c_menu c) (c_globals c)
                   (mk_world (fs (c_world c)) (trace (c_world c) ++ [ERemove video_filename]))
                   (<[i := PCrashed FileNotFoundError]> (c_threads c))).
Proof.
  intros Hi Hf.
  replace (mk_config _ _ _ _ _) with (worker_move c i PRemove).
  - constructor; [exact Hi|reflexivity].
  - unfold worker_move, tstep. cbn [thread_step]. unfold mbind at 1, remove_file. rewrite Hf. reflexivity.
Qed.

(** A worker's step as a [worker_step], from the thread's [tstep]. *)
Lemma worker_step_run c j t t' w' :
  c_threads c !! j = Some t -> final t = false ->
  tstep ydl_download (c_globals c) (c_inputs c) t (c_world c) = (t', w') ->
  worker_step c (mk_config (c_inputs c) (c_menu c) (c_globals c) w' (<[j := t']> (c_threads c))).
Proof.
  intros Hj Hf Ht. replace (mk_config _ _ _ _ _) with (worker_move c j t) by (unfold worker_move; now rewrite Ht).
  now constructor.
Qed.

(** The download step when the output file is already there: yt-dlp
    reports success and the directory is unchanged. *)
Lemma tstep_download_kept g inp url fid v f0 w :
  fs w !! video_filename = Some f0 -> ydl_download url fid = Ok v ->
  tstep ydl_download g inp (PDownload url fid) w =
  (PParse, mk_world (fs w) (trace w ++ [EDownload url fid; ELog LDownloaded])).
Proof.
  intros Hf Hv. unfold tstep. cbn [thread_step]. unfold mbind, emit, mret, ydl_store. rewrite Hv.
  cbn. rewrite (stored_kept _ _ _ _ Hf), <- app_assoc. reflexivity.
Qed.

Lemma tstep_parse_ok g inp tss cp w :
  parse_timestamps (timestamps_entry inp) = TsOk tss -> parsed_crop (parse_crop (crop_entry inp)) = Some cp ->
  tstep ydl_download g inp PParse w = (POpen tss cp, w).
Proof.
  intros Ht Hc. unfold tstep. cbn [thread_step]. rewrite Ht.
  destruct (parse_crop _); cbn in Hc; inversion Hc; reflexivity.
Qed.

Lemma tstep_open g inp tss cp v0 w :
  fs w !! video_filename = Some (FVideo v0) -> cap_isOpened (cap_open (Some v0)) = true ->
  tstep ydl_download g inp (POpen tss cp) w =
  (PLoop tss cp (cap_open (Some v0)) 0, mk_world (fs w) (trace w ++ [EOpen video_filename])).
Proof. intros Hf Ho. unfold tstep. cbn [thread_step]. unfold mbind, get_file, emit, mret. rewrite Hf. cbn. now rewrite Ho. Qed.

(** C32: yt-dlp keeps a [downloaded_video.mp4] that is already there,
    so a worker that reaches its download while another run's video
    [v0] is on disk captures from [v0]: after its own download, parse
    and open steps its capture reads [v0], whatever format it asked
    for, and the directory is as it was. *)
Theorem shared_download c j url fid v v0 tss cp :
  c_threads c !! j = Some (PDownload url fid) ->
  fs (c_world c) !! video_filename = Some (FVideo v0) ->
  ydl_download url fid = Ok v ->
  parse_timestamps (timestamps_entry (c_inputs c)) = TsOk tss ->
  parsed_crop (parse_crop (crop_entry (c_inputs c))) = Some cp ->
  cap_isOpened (cap_open (Some v0)) = true ->
  exists c', rtc worker_step c c' /\ fs (c_world c') = fs (c_world c) /\
    c_threads c' !! j = Some (PLoop tss cp (cap_open (Some v0)) 0).
Proof.
  intros Hj Hf Hv Ht Hc Ho.
  pose proof (lookup_lt_Some _ _ _ Hj) as Hlen.
  set (w1 := mk_world (fs (c_world c)) (trace (c_world c) ++ [EDownload url fid; ELog LDownloaded])).
  set (c1 := mk_config (c_inputs c) (c_menu c) (c_globals c) w1 (<[j := PParse]> (c_threads c))).
  set (c2 := mk_config (c_inputs c) (c_menu c) (c_globals c) w1 (<[j := POpen tss cp]> (c_threads c1))).
  exists (mk_config (c_inputs c) (c_menu c) (c_globals c) (mk_world (fs w1) (trace w1 ++ [EOpen video_filename]))
       (<[j := PLoop tss cp (cap_open (Some v0)) 0]> (c_threads c2))).
  split; [|split; [reflexivity|]].
  - apply (rtc_l _ _ c1); [exact (worker_step_run c j _ _ _ Hj eq_refl (tstep_download_kept _ _ _ _ _ _ _ Hf Hv))|].
    apply (rtc_l _ _ c2).
    { apply (worker_step_run c1 j PParse); [apply list_lookup_insert_eq; exact Hlen|reflexivity|].
      exact (tstep_parse_ok _ _ _ _ _ Ht Hc). }
    apply rtc_once. apply (worker_step_run c2 j (POpen tss cp)).
    + cbn. rewrite list_lookup_insert_eq; [reflexivity|now rewrite length_insert].
    + reflexivity.
    + apply tstep_open; [exact Hf|exact Ho].
  - cbn. apply list_lookup_insert_eq. now rewrite !length_insert.
Qed.

End App.

(** ** Schedules that reach the races *)

Module AppWitnesses.
Import Pipeline.

Definition video360 : list_video nat :=
  mk_video (map (fun i => (Z.of_nat i * 1000, [[100 + i]%nat]))%Z (seq 0 20)).

Definition fmt360 : fmt :=
  mk_fmt (Val "18") (Val "avc1.42001E") (Val "mp4a.40.2") (Val "mp4") (Val 360%Z) (Val (float_of_Z 500)).

Definition info_a := mk_info (Val [fmt360; fmt720]) (Val "a").
Definition info_b := mk_info (Val [fmt360]) (Val "b").

(** yt-dlp's view of two videos, "a" with 360p and 720p, "b" with
    360p only. *)
Definition extract_sample (url : string) : res info :=
  if String.eqb url "a" then Ok info_a else if String.eqb url "b" then Ok info_b else Raise DownloadError.

(** Format 22 is the 720p file, anything else the 360p one. *)
Definition download_by_format (url : string) (fid : option string) : res (list_video nat) :=
  match fid with
  | Some f => if String.eqb f "22" then Ok video20 else Ok video360
  | None => Ok video360
  end.

Abbreviation cfg := (@config (list_video nat) nat (ListCapture nat)).
Abbreviation STEP := (@step (list_video nat) nat (ListCapture nat) writes_all download_by_format extract_sample).
Abbreviation WSTEP := (@worker_step (list_video nat) nat (ListCapture nat) writes_all download_by_format).

Definition start0 : cfg := init ∅.

(** The configuration a schedule reaches from the start. *)
Definition reached (acts : list action) : cfg :=
  @reach (list_video nat) nat (ListCapture nat) writes_all download_by_format extract_sample acts start0.

(** The user fetches "a" (720p selected), starts a capture, the worker
    passes its checks, then the user fetches "b". *)
Definition sched1 := [AEditUrl "a"; AFetch; AStart; AWorker 0; AEditUrl "b"; AFetch].

Lemma lookup_race_witness :
  rtc STEP start0 (reached sched1) /\
  WSTEP (reached sched1)
    (mk_config (c_inputs (reached sched1)) (c_menu (reached sched1)) (c_globals (reached sched1))
       (c_world (reached sched1)) (<[0 := PCrashed KeyError]> (c_threads (reached sched1)))).
Proof.
  split.
  - apply (reach_rtc download_by_format extract_sample sched1). vm_compute. reflexivity.
  - apply (lookup_race download_by_format (reached sched1) 0 "a" "720p"); vm_compute; reflexivity.
Defined.

(** Two captures of "a" at 1 s run to [os.remove]; the first removes
    the video, then the second tries. *)
Definition sched2 :=
  [AEditUrl "a"; AFetch; AEditTimestamps "1"; AStart; AStart] ++
  repeat (AWorker 0) 9 ++ repeat (AWorker 1) 9 ++ [AWorker 0].

Lemma remove_race_witness :
  rtc STEP start0 (reached sched2) /\
  WSTEP (reached sched2)
    (mk_config (c_inputs (reached sched2)) (c_menu (reached sched2)) (c_globals (reached sched2))
       (mk_world (fs (c_world (reached sched2))) (trace (c_world (reached sched2)) ++ [ERemove video_filename]))
       (<[1 := PCrashed FileNotFoundError]> (c_threads (reached sched2)))).
Proof.
  split.
  - apply (reach_rtc download_by_format extract_sample sched2). vm_compute. reflexivity.
  - apply (remove_race download_by_format (reached sched2) 1); vm_compute; reflexivity.
Defined.

(** A capture of "a" at 720p reaches the open; the user selects 360p
    and starts a second capture, which reaches its download while the
    720p video is on disk. *)
Definition sched3 :=
  [AEditUrl "a"; AFetch; AEditTimestamps "1"; AStart] ++ repeat (AWorker 0) 4 ++
  [ASelect "360p"; AStart; AWorker 1; AWorker 1].

(** The second capture asked for the 360p format and captures from the
    720p video. *)
Lemma shared_download_witness :
  rtc STEP start0 (reached sched3) /\
  exists c', rtc WSTEP (reached sched3) c' /\ fs (c_world c') = fs (c_world (reached sched3)) /\
    c_threads c' !! 1 = Some (PLoop [float_of_Z 1] None (cap_open (Some video20)) 0).
Proof.
  split.
  - apply (reach_rtc download_by_format extract_sample sched3). vm_compute. reflexivity.
  - apply (shared_download download_by_format (reached sched3) 1 "a" (Some "18") video360 video20);
      vm_compute; reflexivity.
Defined.

Lemma menu_consistent_witness :
  rtc STEP start0 (reached sched3) /\
  In (resolution_var (c_inputs (reached sched3))) (c_menu (reached sched3)) /\ NoDup (c_menu (reached sched3)).
Proof.
  assert (R : rtc STEP start0 (reached sched3)) by (apply (reach_rtc download_by_format extract_sample sched3); vm_compute; reflexivity).
  split; [exact R|]. exact (menu_consistent download_by_format extract_sample ∅ _ R).
Defined.

Lemma directory_typed_witness :
  dir_typed (∅ : gmap string (@file (list_video nat) nat)) /\ rtc STEP start0 (reached sched2) /\
  dir_typed (fs (c_world (reached sched2))).
Proof.
  assert (D : dir_typed (∅ : gmap string (@file (list_video nat) nat)))
    by (intros name f H; rewrite lookup_empty in H; discriminate).
  assert (R : rtc STEP start0 (reached sched2)) by (apply (reach_rtc download_by_format extract_sample sched2); vm_compute; reflexivity).
  split; [exact D|]. split; [exact R|]. exact (directory_typed download_by_format extract_sample ∅ _ D R).
Defined.

End AppWitnesses.

End App.
