(* ===== verification/App1.v ===== *)
(** * The window of [src/frame_capture.py] and its threads

    The same window as [frame_capture2.py] (lines 150-192): the entries,
    the resolution menu holding [""], the "Fetch Video Info" button
    running the pytube [fetch_video_info] on the GUI thread, and the
    "Download dan Capture Frame" button starting [process()] on a new
    thread (lines 143-144).  A worker runs [process1] of [Pipeline] as
    one step: whatever the schedule, it reads the URL entry and
    [yt_obj], then either shows a box or stops at the unbound name
    [selected_res], before any shared write, so nothing finer is needed.

    The theorem of this file is the consequence for the program: under
    any sequence of user events and worker steps, [frame_capture.py]
    never downloads, opens or writes anything, and leaves the working
    directory as it found it. *)

From stdpp Require Import gmap strings relations.
From Stdlib Require Import ZArith String List.
From S2P Require Import Prelude PyStr FrameSource Formats Pipeline FetchPytube.
Import ListNotations.
Open Scope string_scope.
Open Scope list_scope.

Module App1.
Import PyStr FrameSource Pipeline FetchPytube.

(** A worker of [frame_capture.py]: started, returned, or ended by an
    exception. *)
Inductive thread1 : Type :=
  | T1Start
  | T1Done
  | T1Crashed (e : exn).

Section App1.
Context {Video Pixel : Type} `{VC : VideoCapture Video Pixel} `{IW : ImageWriter Pixel}.
Variable stream_download : stream -> res Video.
Variable youtube_of : string -> res youtube.

Record config1 := mk_config1 {
  a_inputs : inputs;                 (** the entries and [resolution_var] *)
  a_menu : list string;              (** the labels of [resolution_menu] *)
  a_globals : @globals1 stream;      (** [yt_obj], [streams_available] *)
  a_world : @world Video Pixel;      (** the working directory and the calls *)
  a_threads : list thread1           (** the workers, in start order *)
}.

(** The window once built, over the directory [d]: the entries of
    lines 160-181 empty, [resolution_var] empty and the menu holding
    [""] (lines 169-170), the globals of lines 8-10, no worker. *)
Definition init1 (d : gmap string (@file Video Pixel)) : config1 :=
  mk_config1 (mk_inputs "" "" "" "") [""] (mk_globals1 None ∅) (mk_world d []) [].

Definition set_inputs1 (c : config1) (inp : inputs) : config1 :=
  mk_config1 inp (a_menu c) (a_globals c) (a_world c) (a_threads c).

(** The "Fetch Video Info" button (line 164). *)
Definition fetch1_click (c : config1) : config1 :=
  let inp := a_inputs c in
  let '(s, evs) := fetch_video_info1 youtube_of (url_entry inp)
                     (mk_gui1 (a_globals c) (resolution_var inp) (a_menu c)) in
  mk_config1 (mk_inputs (url_entry inp) (g1_resolution s) (timestamps_entry inp) (crop_entry inp))
             (g1_menu s) (g1_globals s)
             (mk_world (fs (a_world c)) (trace (a_world c) ++ evs)) (a_threads c).

(** The "Download dan Capture Frame" button (lines 143-144, 185). *)
Definition start1_click (c : config1) : config1 :=
  mk_config1 (a_inputs c) (a_menu c) (a_globals c) (a_world c) (a_threads c ++ [T1Start]).

(** Worker [i] runs [process()]. *)
Definition run1 (c : config1) (i : nat) : config1 :=
  let '(r, w') := process1 stream_download (a_globals c) (a_inputs c) (a_world c) in
  mk_config1 (a_inputs c) (a_menu c) (a_globals c) w'
             (<[i := match r with Ok _ => T1Done | Raise e => T1Crashed e end]> (a_threads c)).

Inductive step1 : config1 -> config1 -> Prop :=
  | S1EditUrl c s : step1 c (set_inputs1 c (mk_inputs s (resolution_var (a_inputs c))
                                        (timestamps_entry (a_inputs c)) (crop_entry (a_inputs c))))
  | S1EditTimestamps c s : step1 c (set_inputs1 c (mk_inputs (url_entry (a_inputs c))
                                        (resolution_var (a_inputs c)) s (crop_entry (a_inputs c))))
  | S1EditCrop c s : step1 c (set_inputs1 c (mk_inputs (url_entry (a_inputs c))
                                        (resolution_var (a_inputs c)) (timestamps_entry (a_inputs c)) s))
  | S1Select c r : In r (a_menu c) ->
      step1 c (set_inputs1 c (mk_inputs (url_entry (a_inputs c)) r
                                        (timestamps_entry (a_inputs c)) (crop_entry (a_inputs c))))
  | S1Fetch c : step1 c (fetch1_click c)
  | S1Start c : step1 c (start1_click c)
  | S1Worker c i : a_threads c !! i = Some T1Start -> step1 c (run1 c i).

(** A call that only shows something: a log line or a message box. *)
Definition ui_event (ev : event) : Prop :=
  match ev with ELog _ | EBox _ => True | _ => False end.

Lemma fetch1_ui_events url s : Forall ui_event (snd (fetch_video_info1 youtube_of url s)).
Proof. unfold fetch_video_info1, fetch1_error. destruct_innermost; simpl; repeat constructor. Qed.

(** [process()] of [frame_capture.py] leaves the directory alone and
    makes only log and box calls. *)
Lemma process1_effects g inp w :
  fs (snd (process1 stream_download g inp w)) = fs w /\
  exists evs, trace (snd (process1 stream_download g inp w)) = trace w ++ evs /\ Forall ui_event evs.
Proof.
  unfold process1, selected_res, mbind, mraise, emit.
  destruct (String.eqb _ _); [|destruct (yt_obj g)]; simpl; (split; [reflexivity|]);
    eexists; (split; [first [reflexivity | symmetry; apply app_nil_r]|repeat constructor]).
Qed.

(** Invariants by induction on the steps. *)
Lemma step1_invariant (P : config1 -> Prop) c c' :
  P c -> (forall x y, P x -> step1 x y -> P y) -> rtc step1 c c' -> P c'.
Proof. intros Hc Hstep Hr. induction Hr as [|x y z Hxy Hyz IH]; [exact Hc|]. exact (IH (Hstep x y Hc Hxy)). Qed.

(** C31: whatever the user does and however the workers interleave,
    [frame_capture.py] leaves the working directory as it was and makes
    no call but log lines and message boxes: it never downloads, opens
    or writes a file. *)
Theorem pytube_variant_inert d c : rtc step1 (init1 d) c ->
  fs (a_world c) = d /\ Forall ui_event (trace (a_world c)).
Proof.
  apply (step1_invariant (fun c => fs (a_world c) = d /\ Forall ui_event (trace (a_world c)))).
  { split; [reflexivity|constructor]. }
  intros x y [Hfs Htr] Hs. destruct Hs as [z s|z s|z s|z r Hr|z|z|z i Hi]; try (split; assumption).
  - unfold fetch1_click. pose proof (fetch1_ui_events (url_entry (a_inputs z))
      (mk_gui1 (a_globals z) (resolution_var (a_inputs z)) (a_menu z))) as He.
    destruct (fetch_video_info1 _ _ _) as [s' evs]. simpl in *. split; [exact Hfs|].
    apply Forall_app. split; assumption.
  - unfold run1. destruct (process1_effects (a_globals z) (a_inputs z) (a_world z)) as [Hf (evs & Ht & He)].
    destruct (process1 _ _ _ _) as [r w']. simpl in *. split; [congruence|].
    rewrite Ht. apply Forall_app. split; assumption.
Qed.

End App1.

(** ** Witness *)

Module App1Witnesses.
Import FetchPytubeWitnesses.

Abbreviation C := (@config1 (list_video nat) nat).
Abbreviation STEP1 := (@step1 (list_video nat) nat (ListCapture nat) writes_all (fun _ => Ok video20)
                              (fun _ => Ok sample_yt)).
Abbreviation FETCH1 := (@fetch1_click (list_video nat) nat (fun _ => Ok sample_yt)).
Abbreviation RUN1 := (@run1 (list_video nat) nat (ListCapture nat) writes_all (fun _ => Ok video20)).

Definition w0 : C := init1 ∅.
Definition w1 : C := set_inputs1 w0 (mk_inputs "https://youtu.be/a" "" "" "").
Definition w2 : C := FETCH1 w1.
Definition w3 : C := set_inputs1 w2 (mk_inputs (url_entry (a_inputs w2)) (resolution_var (a_inputs w2)) "5" "").
Definition w4 : C := start1_click w3.
Definition w5 : C := RUN1 w4 0.

(** The user fetches, enters a timestamp and starts a capture, which
    ends: the directory is still empty. *)
Lemma pytube_variant_inert_witness :
  rtc STEP1 w0 w5 /\ fs (a_world w5) = ∅ /\ Forall ui_event (trace (a_world w5)).
Proof.
  assert (R : rtc STEP1 w0 w5).
  { apply (rtc_l _ _ w1); [apply S1EditUrl|].
    apply (rtc_l _ _ w2); [apply S1Fetch|].
    apply (rtc_l _ _ w3); [apply S1EditTimestamps|].
    apply (rtc_l _ _ w4); [apply S1Start|].
    apply (rtc_l _ _ w5); [apply S1Worker; vm_compute; reflexivity|reflexivity]. }
  split; [exact R|]. exact (pytube_variant_inert (fun _ => Ok video20) (fun _ => Ok sample_yt) ∅ w5 R).
Defined.

(** That capture stops at the [NameError]. *)
Example pytube_capture_name_error : a_threads w5 = [T1Crashed NameError].
Proof. vm_compute. reflexivity. Qed.

End App1Witnesses.

End App1.
